(** * InfoGAN on CIFAR-10: shallow embedding of [infoGANs/infogan.py]

  The script assembles three Keras models (generator, discriminator,
  recognition network), wires them into a combined model and runs a manual
  training loop.  The embedding keeps the pieces the script itself writes:
  the layer lists, the shapes Keras infers for them, the variables each
  layer owns, the [trainable] flags, the loss formula, the sampling of the
  generator input, the order of the calls inside one training iteration
  and the files written on persistence.

  Tensors hold real numbers: float32 values are idealised as [R].  What the
  framework computes inside a layer or an optimizer step is a parameter of
  the development (class [Keras] below). *)

From Stdlib Require Import ZArith List Reals Lra Lia String QArith.
From stdpp Require Import base option gmap strings list pretty.

(* ================================================================== *)
(** * Part I: definitions *)
(* ================================================================== *)

(** ** Arrays *)

(** A rank-2 array is the list of its rows. *)
Abbreviation vector := (list R).
Abbreviation matrix := (list (list R)).

Module Np.

(** The shape [(rows, cols)] of a rank-2 array. *)
Definition has_shape (B n : nat) (m : matrix) : Prop :=
  length m = B ∧ Forall (λ row, length row = n) m.

(** [np.ones((b, n))], [np.zeros((b, n))], [np.full]. *)
Definition full (b n : nat) (v : R) : matrix := replicate b (replicate n v).
Definition ones (b n : nat) : matrix := full b n 1%R.
Definition zeros (b n : nat) : matrix := full b n 0%R.

(** [np.concatenate((a, b), axis=1)] on rank-2 arrays: the rows are glued
    pairwise; the row counts must agree. *)
Definition concatenate_axis1 (a b : matrix) : option matrix :=
  if decide (length a = length b) then Some (zip_with app a b) else None.

(** Broadcasting of a binary operation along one axis: equal lengths are
    combined pointwise, a length-1 side is repeated, anything else is a
    shape error. *)
Definition broadcast {A B C} (f : A → B → option C)
    (a : list A) (b : list B) : option (list C) :=
  if decide (length a = length b) then mapM (λ p, f p.1 p.2) (zip a b)
  else match a, b with
       | [x], _ => mapM (f x) b
       | _, [y] => mapM (λ x, f x y) a
       | _, _ => None
       end.

End Np.

(** ** The Keras backend operations used by the loss *)

Module K.

(** [t + eps] with a Python scalar on the right. *)
Definition add_scalar (t : matrix) (e : R) : matrix :=
  map (map (λ x, (x + e)%R)) t.

(** [K.log], elementwise. *)
Definition log (t : matrix) : matrix := map (map ln) t.

(** [a * b], elementwise with broadcasting. *)
Definition mul (a b : matrix) : option matrix :=
  Np.broadcast (Np.broadcast (λ x y, Some (x * y)%R)) a b.

(** [K.sum(t, axis=1)]. *)
Definition sum_axis1 (t : matrix) : vector :=
  map (λ row, fold_right Rplus 0%R row) t.

(** Unary minus on a rank-1 tensor. *)
Definition neg (v : vector) : vector := map Ropp v.

(** [K.mean(v)] over all entries of a rank-1 tensor; the mean of no entry
    at all is not a number. *)
Definition mean (v : vector) : option R :=
  match v with
  | [] => None
  | _ => Some (fold_right Rplus 0%R v / INR (length v))%R
  end.

End K.

(** ** [InfoGAN.mutual_info_loss] *)

Definition eps : R := 1e-8%R.

Definition mutual_info_loss (c c_given_x : matrix) : option R :=
  t ← K.mul (K.log (K.add_scalar c_given_x eps)) c;
  conditional_entropy ← K.mean (K.neg (K.sum_axis1 t));
  u ← K.mul (K.log (K.add_scalar c eps)) c;
  entropy ← K.mean (K.neg (K.sum_axis1 u));
  Some (conditional_entropy + entropy)%R.

(** The formula of the specification, written with indices: for a batch of
  [B] rows and [n] classes,
  [mean_i (- Σ_j log (q i j + ε) * c i j) + mean_i (- Σ_j log (c i j + ε) * c i j)]. *)
Module Formula.

Definition entry (m : matrix) (i j : nat) : R := nth j (nth i m []) 0%R.

Definition big_sum (n : nat) (f : nat → R) : R :=
  fold_right Rplus 0%R (map f (seq 0 n)).

Definition mean_over (B : nat) (f : nat → R) : R :=
  (big_sum B f / INR B)%R.

Definition neg_log_likelihood (B n : nat) (p c : matrix) : R :=
  mean_over B (λ i,
    (- big_sum n (λ j, ln (entry p i j + 1e-8) * entry c i j))%R).

Definition mutual_info (B n : nat) (c c_given_x : matrix) : R :=
  (neg_log_likelihood B n c_given_x c + neg_log_likelihood B n c c)%R.

End Formula.

(** ** Keras layers *)

Inductive activation := Relu | Tanh | Sigmoid | Softmax.

Inductive padding := Same | Valid.

(** The layers the script instantiates, with the arguments it passes. *)
Inductive layer :=
| Dense (units : nat) (act : activation)
| BatchNormalization (momentum : Q)
| Reshape (target_shape : list nat)
| UpSampling2D
| Conv2D (filters : nat) (kernel_size : nat * nat) (strides : nat)
    (pad : padding)
| Activation (act : activation)
| LeakyReLU (alpha : Q)
| Dropout (rate : Q)
| ZeroPadding2D (pad : (nat * nat) * (nat * nat))
| Flatten.

(** Shapes are per example: the batch axis stays in front and is never
    touched by a layer of this script. *)
Abbreviation shape := (list nat).

Definition prod_dims (s : shape) : nat := fold_right Nat.mul 1%nat s.

(** Output length of a convolution along one axis. *)
Definition conv_output_length (input k stride : nat) (pad : padding)
    : option nat :=
  if decide (stride = 0%nat) then None
  else match pad with
       | Same => Some ((input + stride - 1) / stride)%nat
       | Valid =>
           if decide (input < k)%nat then None
           else Some ((input - k) / stride + 1)%nat
       end.

(** [Layer.compute_output_shape]. *)
Definition compute_output_shape (l : layer) (s : shape) : option shape :=
  match l with
  | Dense units _ =>
      match reverse s with
      | _ :: front => Some (reverse front ++ [units])
      | [] => None
      end
  | Reshape target =>
      if decide (prod_dims s = prod_dims target) then Some target else None
  | UpSampling2D =>
      match s with
      | [h; w; c] => Some [2 * h; 2 * w; c]%nat
      | _ => None
      end
  | Conv2D filters (kh, kw) stride pad =>
      match s with
      | [h; w; _] =>
          h' ← conv_output_length h kh stride pad;
          w' ← conv_output_length w kw stride pad;
          Some [h'; w'; filters]
      | _ => None
      end
  | ZeroPadding2D ((pt, pb), (pl, pr)) =>
      match s with
      | [h; w; c] => Some [h + pt + pb; w + pl + pr; c]%nat
      | _ => None
      end
  | Flatten => Some [prod_dims s]
  | BatchNormalization _ | Activation _ | LeakyReLU _ | Dropout _ => Some s
  end.

(** A variable created by a layer: its identity in the variable store and
    whether the optimizer trains it (the moving statistics of a batch
    normalization are variables the optimizer does not train). *)
Record variable := Variable_ { var_id : nat; var_trainable : bool }.

(** The variables a layer creates when it is first called: kernel and bias
    for [Dense] and [Conv2D]; gamma, beta, moving mean and moving variance for
    [BatchNormalization]; none for the others. *)
Definition layer_variables (l : layer) : list bool :=
  match l with
  | Dense _ _ | Conv2D _ _ _ _ => [true; true]
  | BatchNormalization _ => [true; true; false; false]
  | _ => []
  end.

(** ** Models *)

(** In Keras a model is itself a layer, so one type holds both: a built
    layer with its variables, or a model with its [trainable] attribute, its
    input shape and its layers in the order of the graph ([model.layers]).
    Every model of the script is a chain from input to output, except the
    combined model, whose generator output feeds two heads. *)
Inductive model :=
| Layer (l : layer) (weights : list variable)
| Model (trainable : bool) (input_shape : shape) (layers : list model).

(** The output shape of a chain. *)
Fixpoint output_shape (m : model) (s : shape) : option shape :=
  match m with
  | Layer l _ => compute_output_shape l s
  | Model _ input layers =>
      if decide (s = input)
      then fold_left (λ acc m', acc ≫= output_shape m') layers (Some s)
      else None
  end.

(** Every variable a model holds, in layer order. *)
Fixpoint variables (m : model) : list variable :=
  match m with
  | Layer _ ws => ws
  | Model _ _ layers => concat (map variables layers)
  end.

(** The variables a training step on [m] may write: those of the layers
    reached without crossing a model whose [trainable] attribute is [False]. *)
Fixpoint mutable_variables (m : model) : list variable :=
  match m with
  | Layer _ ws => ws
  | Model trainable _ layers =>
      if trainable then concat (map mutable_variables layers) else []
  end.

(** [model.trainable_weights]. *)
Definition trainable_weights (m : model) : list variable :=
  filter (λ v, var_trainable v = true) (mutable_variables m).

(** The leaf layers of a model, nested models flattened. *)
Fixpoint flat_layers (m : model) : list layer :=
  match m with
  | Layer l _ => [l]
  | Model _ _ layers => concat (map flat_layers layers)
  end.

(** [model.trainable = b]. *)
Definition set_trainable (b : bool) (m : model) : model :=
  match m with
  | Layer l ws => Layer l ws
  | Model _ input layers => Model b input layers
  end.

(** ** Model construction with the functional API *)

(** Construction threads the counter that names the next fresh variable and
    fails where Keras raises on incompatible shapes. *)
Definition build (A : Type) : Type := nat → option (A * nat).

#[global] Instance build_ret : MRet build := λ A x n, Some (x, n).

#[global] Instance build_bind : MBind build := λ A B f m n,
  match m n with
  | Some (a, n') => f a n'
  | None => None
  end.

Definition raise {A} : build A := λ _, None.

Definition lift_option {A} (o : option A) : build A :=
  λ n, match o with Some a => Some (a, n) | None => None end.

(** A symbolic tensor: its shape and the chain of layers that produced it
    from the input it descends from. *)
Record ktensor := KTensor {
  kinput : shape;
  kshape : shape;
  khistory : list model
}.

Definition Input (s : shape) : ktensor :=
  {| kinput := s; kshape := s; khistory := [] |}.

Definition fresh_variables (flags : list bool) : build (list variable) :=
  λ n, Some (zip_with Variable_ (seq n (length flags)) flags,
             (length flags + n)%nat).

(** [Layer(...)(x)]: a new layer instance, built on the shape of [x]. *)
Definition call (l : layer) (x : ktensor) : build ktensor :=
  s ← lift_option (compute_output_shape l (kshape x));
  ws ← fresh_variables (layer_variables l);
  mret {| kinput := kinput x; kshape := s;
          khistory := khistory x ++ [Layer l ws] |}.

(** [m(x)]: an existing model applied to a tensor; no variable is created. *)
Definition call_model (m : model) (x : ktensor) : build ktensor :=
  s ← lift_option (output_shape m (kshape x));
  mret {| kinput := kinput x; kshape := s; khistory := khistory x ++ [m] |}.

(** [Model(inputs, outputs)]; a new model is trainable. *)
Definition Model_of (outputs : ktensor) : model :=
  Model true (kinput outputs) (khistory outputs).

(** [Model(inputs, [out1, out2, ...])] where every output descends from the
    tensor [stem]: the layers up to [stem] once, then the layers of each
    head. *)
Definition Model_of_outputs (stem : ktensor) (outs : list ktensor) : model :=
  Model true (kinput stem)
    (khistory stem
       ++ concat (map (λ o, drop (length (khistory stem)) (khistory o)) outs)).

(** [for v in vs: x = body(v, x)]. *)
Fixpoint for_each {A B} (vs : list A) (body : A → B → build B) (x : B)
    : build B :=
  match vs with
  | [] => mret x
  | v :: vs' => x' ← body v x; for_each vs' body x'
  end.

(** ** The [InfoGAN] class: attributes *)

Definition img_rows : nat := 32.
Definition img_cols : nat := 32.
Definition channels : nat := 3.
Definition num_classes : nat := 10.
Definition img_shape : shape := [img_rows; img_cols; channels].
Definition latent_dim : nat := 134.

(** ** The [InfoGAN] class: network builders *)

Definition generator_model (layer_filters : list nat) : build model :=
  let gen_input := Input [latent_dim] in
  x ← call (Dense 1024 Relu) gen_input;
  x ← call (BatchNormalization 0.8) x;
  x ← call (Dense (448 * 4 * 4) Relu) x;
  x ← call (Reshape [4; 4; 448]%nat) x;
  x ← call (BatchNormalization 0.8) x;
  x ← for_each layer_filters (λ filters x,
         x ← call UpSampling2D x;
         x ← call (Conv2D filters (4, 4)%nat 1 Same) x;
         x ← call (Activation Relu) x;
         call (BatchNormalization 0.8) x) x;
  conv_last ← call (Conv2D channels (4, 4)%nat 1 Same) x;
  activation ← call (Activation Tanh) conv_last;
  mret (Model_of activation).

Definition generator_default_filters : list nat := [256; 128; 64]%nat.

Definition discriminator_recognition_net (layer_filters : list nat)
    : build model :=
  let dis_input := Input img_shape in
  first ← lift_option (layer_filters !! 0%nat);
  x ← call (Conv2D first (4, 4)%nat 2 Same) dis_input;
  x ← call (LeakyReLU 0.1) x;
  x ← call (Dropout 0.25) x;
  x ← for_each (take (length layer_filters - 1 - 1) (drop 1 layer_filters))
       (λ filters x,
         x ← call (Conv2D filters (4, 4)%nat 2 Same) x;
         x ← call (ZeroPadding2D ((0, 1), (0, 1))%nat) x;
         x ← call (LeakyReLU 0.1) x;
         x ← call (Dropout 0.25) x;
         call (BatchNormalization 0.8) x) x;
  last ← lift_option (layer_filters !! (length layer_filters - 1)%nat);
  x ← call (Conv2D last (4, 4)%nat 2 Same) x;
  x ← call (LeakyReLU 0.1) x;
  x ← call (Dropout 0.25) x;
  x ← call (BatchNormalization 0.8) x;
  x ← call Flatten x;
  mret (Model_of x).

Definition trunk_default_filters : list nat := [64; 128; 256]%nat.

Definition discriminator_model : build model :=
  let dis_input := Input img_shape in
  trunk ← discriminator_recognition_net trunk_default_filters;
  x ← call_model trunk dis_input;
  final ← call (Dense channels Sigmoid) x;
  mret (Model_of final).

Definition recognition_model : build model :=
  let reco_input := Input img_shape in
  trunk ← discriminator_recognition_net trunk_default_filters;
  x ← call_model trunk reco_input;
  x ← call (Dense 128 Relu) x;
  x ← call (Dense num_classes Softmax) x;
  mret (Model_of x).

(** ** [InfoGAN.__init__] *)

Inductive loss_function := binary_crossentropy | mutual_info_loss_fn.

Inductive metric := accuracy.

(** A model together with what [compile] attached to it. *)
Record compiled := Compiled {
  net : model;
  outputs : list shape;
  losses : list loss_function;
  metrics : list metric
}.

Record InfoGAN := {
  discriminator : compiled;
  recognition : compiled;
  generator : model;
  combined : compiled
}.

Definition init : build InfoGAN :=
  let losses := [binary_crossentropy; mutual_info_loss_fn] in
  discriminator ← discriminator_model;
  recognition ← recognition_model;
  generator ← generator_model generator_default_filters;
  let gen_input := Input [latent_dim] in
  img ← call_model generator gen_input;
  let discriminator := set_trainable true discriminator in
  valid ← call_model discriminator img;
  target_label ← call_model recognition img;
  mret {|
    discriminator :=
      Compiled discriminator [kshape valid] [binary_crossentropy] [accuracy];
    recognition :=
      Compiled recognition [kshape target_label] [mutual_info_loss_fn]
        [accuracy];
    generator := generator;
    combined :=
      Compiled (Model_of_outputs img [valid; target_label])
        [kshape valid; kshape target_label] losses []
  |}.

(** ** What the framework supplies *)

(** A tensor at run time: the shape with the batch axis in front, and the
    entries in row-major order. *)
Record tensor := Tensor { tshape : list nat; tdata : list R }.

(** A rank-2 array with [n] columns as a tensor. *)
Definition as_tensor (n : nat) (m : matrix) : tensor :=
  Tensor [length m; n] (concat m).

(** The number of values [train_on_batch] reports: the total loss, one loss
    per output when there are several outputs, and every metric for every
    output. *)
Definition n_results (cm : compiled) : nat :=
  (1 + (if decide (1 < length (outputs cm)) then length (outputs cm) else 0)
   + length (metrics cm) * length (outputs cm))%nat.

(** The numerics of Keras are not part of the script: the value a layer
    computes from its variables and its input, and what one optimizer step
    on a batch does to a variable and to the state of the optimizer. *)
Class Keras := {
  weight : Type;
  optimizer_state : Type;
  initial_value : nat → weight;
  layer_numerics : layer → list weight → tensor → list R;
  step_value : compiled → tensor → list tensor → (nat → weight) →
               optimizer_state → nat → weight;
  step_optimizer : compiled → tensor → list tensor → (nat → weight) →
                   optimizer_state → optimizer_state;
  step_results : compiled → tensor → list tensor → (nat → weight) → list R;
  step_results_length : ∀ cm x ys σ,
    length (step_results cm x ys σ) = n_results cm
}.

(** The generator of [np.random], as the stream of its draws. *)
Class Numpy := {
  normal : nat → R;
  randint : nat → Z → Z → Z;
  randint_range : ∀ k low high,
    (low < high)%Z → (low ≤ randint k low high < high)%Z
}.

(** A framework whose layers return as many values as the shape they
    declare: on an input that holds the entries of its shape, the output
    holds the entries of the output shape. *)
Definition shaped_numerics (keras : Keras) : Prop :=
  ∀ (l : layer) (ws : list weight) (x : tensor) (b : nat) (s s' : shape),
    tshape x = b :: s →
    compute_output_shape l s = Some s' →
    length (tdata x) = (b * prod_dims s)%nat →
    length (layer_numerics l ws x) = (b * prod_dims s')%nat.

(** [to_categorical(y, num_classes)] on a column of class indices: one row
    per index, all zero except a one at the index; an index outside the row
    is an error, a negative one counts from the end. *)
Definition one_hot_row (n : nat) (k : Z) : option vector :=
  let i := if decide (k < 0)%Z then (k + Z.of_nat n)%Z else k in
  if decide (0 ≤ i < Z.of_nat n)%Z
  then Some (<[Z.to_nat i := 1%R]> (replicate n 0%R))
  else None.

Definition to_categorical (y : list Z) (n : nat) : option matrix :=
  mapM (one_hot_row n) y.

Section Runtime.

Context {keras : Keras} {numpy : Numpy}.

(** *** Inference *)

(** Variables live in one store shared by every model that holds them; a
    variable never written still has its initial value. *)
Definition read (σ : gmap nat weight) (i : nat) : weight :=
  default (initial_value i) (σ !! i).

(** Activations that act entry by entry. *)
Definition elementwise (a : activation) : option (R → R) :=
  match a with
  | Relu => Some (Rmax 0)
  | Tanh => Some tanh
  | Sigmoid => Some (λ x, 1 / (1 + exp (- x)))%R
  | Softmax => None
  end.

Definition call_layer (l : layer) (ws : list variable)
    (σ : gmap nat weight) (x : tensor) : option tensor :=
  match tshape x with
  | [] => None
  | b :: s =>
      s' ← compute_output_shape l s;
      let data :=
        match l with
        | Activation a =>
            match elementwise a with
            | Some f => map f (tdata x)
            | None => layer_numerics l [] x
            end
        | Reshape _ | Flatten | Dropout _ => tdata x
        | _ => layer_numerics l (map (λ v, read σ (var_id v)) ws) x
        end in
      Some (Tensor (b :: s') data)
  end.

(** The forward pass of a chain in inference mode ([model.predict]). *)
Fixpoint predict (m : model) (σ : gmap nat weight) (x : tensor)
    : option tensor :=
  match m with
  | Layer l ws => call_layer l ws σ x
  | Model _ input layers =>
      if decide (tail (tshape x) = input)
      then fold_left (λ acc m', acc ≫= predict m' σ) layers (Some x)
      else None
  end.

(** *** The state of a run *)

(** One panel of a figure: [ax.imshow(shown, cmap=cmap)]. *)
Record panel := Imshow { shown : tensor; cmap : string }.

(** A figure is stored as the columns of its grid of panels, each column
    from the top row down. *)
Inductive file :=
| Json (architecture : model)
| Hdf5 (values : list weight)
| Png (axs : list (list panel)).

(** Calls into numpy, Keras, the console and matplotlib, as they happen. *)
Inductive event :=
| Call_randint (low high : Z) (size : nat) (result : list Z)
| Call_normal (rows cols : nat) (result : matrix)
| Call_predict (m : model) (x : tensor)
| Call_train_on_batch (cm : compiled) (x : tensor) (ys : list tensor)
| Call_print_shape (s : list nat)
| Call_print (epoch : nat) (d_loss d_acc q_loss g_loss : R)
| Call_savefig (path : string).

Record world := World {
  store : gmap nat weight;
  adam : optimizer_state;
  rng : nat;
  dirs : gset string;
  files : gmap string file;
  calls : list event
}.

(** A computation of the script: it may raise, and it changes the world. *)
Definition prog (A : Type) : Type := world → option (A * world).

#[global] Instance prog_ret : MRet prog := λ A x w, Some (x, w).

#[global] Instance prog_bind : MBind prog := λ A B f m w,
  match m w with
  | Some (a, w') => f a w'
  | None => None
  end.

Definition throw {A} : prog A := λ _, None.

Definition lift {A} (o : option A) : prog A :=
  λ w, match o with Some a => Some (a, w) | None => None end.

Definition log (e : event) : prog () := λ w,
  Some ((), World (store w) (adam w) (rng w) (dirs w) (files w)
              (calls w ++ [e])).

Definition get_store : prog (gmap nat weight) := λ w, Some (store w, w).

(** [for v in vs: acc = body(v, acc)]. *)
Fixpoint for_each_prog {A B} (vs : list A) (body : A → B → prog B) (acc : B)
    : prog B :=
  match vs with
  | [] => mret acc
  | v :: vs' => acc' ← body v acc; for_each_prog vs' body acc'
  end.

(** *** numpy *)

(** [np.random.normal(0, 1, (rows, cols))]. *)
Definition random_normal (rows cols : nat) : prog matrix := λ w,
  let k := rng w in
  let m := map (λ i, map (λ j, normal (k + i * cols + j)) (seq 0 cols))
               (seq 0 rows) in
  Some (m, World (store w) (adam w) (k + rows * cols) (dirs w) (files w)
             (calls w ++ [Call_normal rows cols m])).

(** [np.random.randint(low, high, size)]; [low >= high] is a [ValueError]. *)
Definition random_randint (low high : Z) (size : nat) : prog (list Z) := λ w,
  if decide (low < high)%Z then
    let k := rng w in
    let r := map (λ i, randint (k + i) low high) (seq 0 size) in
    Some (r, World (store w) (adam w) (k + size) (dirs w) (files w)
               (calls w ++ [Call_randint low high size r]))
  else None.

(** *** Keras *)

Definition model_predict (m : model) (x : tensor) : prog tensor :=
  σ ← get_store;
  y ← lift (predict m σ x);
  _ ← log (Call_predict m x);
  mret y.

Definition model_input (m : model) : option shape :=
  match m with
  | Layer _ _ => None
  | Model _ input _ => Some input
  end.

(** The store after one optimizer step: every variable the step may write
    gets the value computed from the store before the step. *)
Definition optimizer_step (cm : compiled) (x : tensor) (ys : list tensor)
    (a : optimizer_state) (σ : gmap nat weight) : gmap nat weight :=
  foldr (λ v acc, <[var_id v := step_value cm x ys (read σ) a (var_id v)]> acc)
        σ (mutable_variables (net cm)).

(** [model.train_on_batch(x, y)]: the batch must fit the input and the
    outputs of the model; every variable the step may write gets the value
    the optimizer computes from the state before the step; the losses and
    metrics are returned. *)
Definition train_on_batch (cm : compiled) (x : tensor) (ys : list tensor)
    : prog (list R) := λ w,
  match tshape x with
  | [] => None
  | b :: s =>
      if decide (model_input (net cm) = Some s
                 ∧ map tshape ys = map (cons b) (outputs cm))
      then
        let σ := store w in
        Some (step_results cm x ys (read σ),
              World (optimizer_step cm x ys (adam w) σ)
                (step_optimizer cm x ys (read σ) (adam w)) (rng w)
                (dirs w) (files w)
                (calls w ++ [Call_train_on_batch cm x ys]))
      else None
  end.

(** Writing a file: the directory must exist. *)
Definition write_file (dir name : string) (content : file) : prog () := λ w,
  if decide (dir ∈ dirs w)
  then Some ((), World (store w) (adam w) (rng w) (dirs w)
                   (<[(dir +:+ "/" +:+ name)%string := content]> (files w))
                   (calls w))
  else None.

(** *** [InfoGAN.sample_generator_input] *)

Definition sample_generator_input (batch_size noise_variable : nat)
    : prog (matrix * matrix) :=
  sampled_noise ← random_normal batch_size noise_variable;
  y ← random_randint 0 (Z.of_nat num_classes) batch_size;
  sampled_labels ← lift (to_categorical y num_classes);
  mret (sampled_noise, sampled_labels).

Definition default_noise_variable : nat := 124.

(** *** [InfoGAN.sample_images] *)

(** [t[j, :, :, 0]] on an array of rank 4 stored in row-major order: image
    [j] of the batch, channel 0, an array of [h] rows and [w] columns.  The
    index must lie inside the first and the last axis.  (An array always
    holds as many entries as its shape says; the default of [nth] is never
    read then.) *)
Definition channel_0 (t : tensor) (j : nat) : option tensor :=
  match tshape t with
  | [b; h; w; c] =>
      if decide (j < b ∧ 0 < c)%nat
      then Some (Tensor [h; w]
                   (map (λ p, nth ((j * (h * w) + p) * c) (tdata t) 0%R)
                      (seq 0 (h * w))))
      else None
  | _ => None
  end.

(** The inner loop [for j in range(r)]: panel [j] of the column shows
    channel 0 of image [j] through the colour map ["brg"]; [axis('off')]
    only hides the ticks of the panel. *)
Definition draw_column (gen_imgs : tensor) (r : nat) : option (list panel) :=
  mapM (λ j, image ← channel_0 gen_imgs j; Some (Imshow image "brg"))
       (seq 0 r).

(** The body of the loop [for i in range(c)]: one column of the grid. *)
Definition sample_column (self : InfoGAN) (r c i : nat)
    (axs : list (list panel)) : prog (list (list panel)) :=
  '(sampled_noise, _) ← sample_generator_input c default_noise_variable;
  label ← lift (to_categorical (replicate r (Z.of_nat i)) num_classes);
  gen_input ← lift (Np.concatenate_axis1 sampled_noise label);
  gen_imgs ← model_predict (generator self)
               (as_tensor (default_noise_variable + num_classes) gen_input);
  let gen_imgs :=
    Tensor (tshape gen_imgs) (map (λ v, 0.5 * v + 0.5)%R (tdata gen_imgs)) in
  column ← lift (draw_column gen_imgs r);
  mret (axs ++ [column]).

Definition sample_images (self : InfoGAN) (epoch : nat) : prog () :=
  let r := 10%nat in
  let c := 10%nat in
  axs ← for_each_prog (seq 0 c) (sample_column self r c) [];
  _ ← write_file "infoGANs/images" (pretty epoch +:+ ".png") (Png axs);
  log (Call_savefig ("infoGANs/images/" +:+ pretty epoch +:+ ".png")).

(** *** [InfoGAN.train] *)

(** The data set as [cifar10.load_data()] returns it: the shape of one image
    and the images, each one the row of its pixel values. *)
Record dataset := Dataset { x_shape : shape; x_rows : list (list Z) }.

(** [(X_train.astype(np.float32) - 127.5) / 127.5]. *)
Definition rescale (rows : list (list Z)) : matrix :=
  map (map (λ p, ((IZR p - 127.5) / 127.5)%R)) rows.

(** The adversarial ground truths [valid] and [fake]. *)
Definition adversarial_ground_truths (batch_size : nat) : matrix * matrix :=
  (Np.ones batch_size channels, Np.zeros batch_size channels).

(** The body of the loop [for epoch in range(epochs)]. *)
Definition train_iteration (self : InfoGAN) (image_shape : shape)
    (X_train valid fake : matrix) (batch_size : nat) (sample_interval : Z)
    (epoch : nat) : prog () :=
  idx ← random_randint 0 (Z.of_nat (length X_train)) batch_size;
  imgs ← lift (mapM (λ i, X_train !! Z.to_nat i) idx);
  let imgs := Tensor (batch_size :: image_shape) (concat imgs) in
  '(sampled_noise, sampled_labels) ←
    sample_generator_input batch_size default_noise_variable;
  gen_input ← lift (Np.concatenate_axis1 sampled_noise sampled_labels);
  let gen_input := as_tensor (default_noise_variable + num_classes) gen_input in
  gen_imgs ← model_predict (generator self) gen_input;
  d_loss_real ←
    train_on_batch (discriminator self) imgs [as_tensor channels valid];
  d_loss_fake ←
    train_on_batch (discriminator self) gen_imgs [as_tensor channels fake];
  sum ← lift (Np.broadcast (λ a b, Some (a + b)%R) d_loss_real d_loss_fake);
  let d_loss := map (Rmult 0.5) sum in
  g_loss ←
    train_on_batch (combined self) gen_input
      [as_tensor channels valid; as_tensor num_classes sampled_labels];
  d0 ← lift (d_loss !! 0%nat);
  d1 ← lift (d_loss !! 1%nat);
  g1 ← lift (g_loss !! 1%nat);
  g2 ← lift (g_loss !! 2%nat);
  _ ← log (Call_print epoch d0 (100 * d1)%R g1 g2);
  if decide (sample_interval = 0%Z) then throw
  else if decide ((Z.of_nat epoch `mod` sample_interval)%Z = 0%Z)
       then sample_images self epoch
       else mret ().

Definition train (self : InfoGAN) (cifar10 : dataset)
    (epochs batch_size : nat) (sample_interval : Z) : prog () :=
  _ ← log (Call_print_shape (length (x_rows cifar10) :: x_shape cifar10));
  let X_train := rescale (x_rows cifar10) in
  _ ← log (Call_print_shape (length X_train :: x_shape cifar10));
  let '(valid, fake) := adversarial_ground_truths batch_size in
  for_each_prog (seq 0 epochs)
    (λ epoch _,
       train_iteration self (x_shape cifar10) X_train valid fake batch_size
         sample_interval epoch) ().

(** *** [InfoGAN.save] and [InfoGAN.save_model] *)

Definition save (model : model) (model_name : string) : prog () :=
  let dir := "infoGANs/saved_model"%string in
  σ ← get_store;
  _ ← write_file dir (model_name +:+ ".json") (Json model);
  write_file dir (model_name +:+ "_weights.hdf5")
    (Hdf5 (map (λ v, read σ (var_id v)) (variables model))).

Definition save_model (self : InfoGAN) : prog () :=
  _ ← save (generator self) "generator";
  save (net (discriminator self)) "discriminator".

(** *** The script run as a program *)

(** [infogan = InfoGAN()] in a fresh interpreter, then
    [infogan.train(epochs=50000, batch_size=128, sample_interval=50)]. *)
Definition main (cifar10 : dataset) : prog () := λ w,
  match init 0 with
  | Some (infogan, _) => train infogan cifar10 50000 128 50 w
  | None => None
  end.

End Runtime.

(** ** One-hot rows *)

(** Exactly one entry is 1 and every other entry is 0. *)
Definition one_hot (row : vector) : Prop :=
  ∃ k, row !! k = Some 1%R
       ∧ ∀ j, j ≠ k → (j < length row)%nat → row !! j = Some 0%R.

(** ** The frozen heads the specification describes *)

(** A training update of the combined model leaves the variables [held]
    as they were. *)
Definition combined_step_holds_fixed {keras : Keras} (self : InfoGAN)
    (held : list variable) : Prop :=
  ∀ x ys w r w',
    train_on_batch (combined self) x ys w = Some (r, w') →
    Forall (λ v, read (store w') (var_id v) = read (store w) (var_id v)) held.

(** ** A small framework to run the script on *)

Module Example.

(** Variables hold a counter of the steps that wrote them; a layer passes
    its input through; every loss and metric is reported as zero. *)
Program Definition keras : Keras := {|
  weight := nat;
  optimizer_state := nat;
  initial_value := λ _, 0%nat;
  layer_numerics := λ _ _ x, tdata x;
  step_value := λ _ _ _ σ _ i, S (σ i);
  step_optimizer := λ _ _ _ _ a, S a;
  step_results := λ cm _ _ _, replicate (n_results cm) 0%R
|}.
Next Obligation. intros. apply length_replicate. Qed.

(** Draws cycle through the admissible values. *)
Program Definition numpy : Numpy := {|
  normal := λ k, INR k;
  randint := λ k low high, (low + Z.of_nat k `mod` (high - low))%Z
|}.
Next Obligation.
  intros k low high H. cbn.
  pose proof (Z.mod_pos_bound (Z.of_nat k) (high - low)) as Hm. lia.
Qed.

Definition empty_world : @world keras :=
  @World keras ∅ (0%nat : @optimizer_state keras) 0%nat
    {["infoGANs/images"%string; "infoGANs/saved_model"%string]} ∅ [].

(** The same start, in a working directory without sub-directories. *)
Definition bare_world : @world keras :=
  @World keras ∅ (0%nat : @optimizer_state keras) 0%nat ∅ ∅ [].

(** The same framework with layers that return zeros, as many as the shape
    they declare. *)
Program Definition shaped_keras : Keras := {|
  weight := nat;
  optimizer_state := nat;
  initial_value := λ _, 0%nat;
  layer_numerics := λ l _ x,
    match tshape x with
    | b :: s =>
        match compute_output_shape l s with
        | Some s' => replicate (b * prod_dims s') 0%R
        | None => []
        end
    | [] => []
    end;
  step_value := λ _ _ _ σ _ i, S (σ i);
  step_optimizer := λ _ _ _ _ a, S a;
  step_results := λ cm _ _ _, replicate (n_results cm) 0%R
|}.
Next Obligation. intros. apply length_replicate. Qed.

Definition shaped_world : @world shaped_keras :=
  @World shaped_keras ∅ (0%nat : @optimizer_state shaped_keras) 0%nat
    {["infoGANs/images"%string; "infoGANs/saved_model"%string]} ∅ [].

End Example.

(** ** The trunk as the specification describes it *)

(** The specification names layers by kind only. *)
Inductive layer_kind :=
| Conv (filters strides : nat)
| Leaky_relu
| Dropout_
| Zero_pad
| Batch_norm
| Flatten_
| Other.

Definition kind_of (l : layer) : layer_kind :=
  match l with
  | Conv2D filters _ strides _ => Conv filters strides
  | LeakyReLU _ => Leaky_relu
  | Dropout _ => Dropout_
  | ZeroPadding2D _ => Zero_pad
  | BatchNormalization _ => Batch_norm
  | Flatten => Flatten_
  | _ => Other
  end.

Module Described.

(** One stage: conv → leaky-relu → dropout, and in a bracketed stage
    zero-pad → batch-norm appended. *)
Definition stage (filters : nat) (bracketed : bool) : list layer_kind :=
  [Conv filters 2; Leaky_relu; Dropout_]
  ++ (if bracketed then [Zero_pad; Batch_norm] else []).

(** The stages for 64, 128 and 256 filters, then a flatten. *)
Definition trunk (b64 b128 b256 : bool) : list layer_kind :=
  stage 64 b64 ++ stage 128 b128 ++ stage 256 b256 ++ [Flatten_].

End Described.

(** ** Reading the trace *)

(** The kinds of calls the theorems about whole runs count. *)
Definition is_train_on_batch (e : event) : bool :=
  match e with Call_train_on_batch _ _ _ => true | _ => false end.

Definition is_print (e : event) : bool :=
  match e with Call_print _ _ _ _ _ => true | _ => false end.

Definition is_savefig (e : event) : bool :=
  match e with Call_savefig _ => true | _ => false end.

(** A computation that, whenever it returns, has kept the set of
    directories. *)
Definition keeps_dirs {keras : Keras} {A} (m : prog A) : Prop :=
  ∀ w a w', m w = Some (a, w') → dirs w' = dirs w.

(** The calls made to draw samples and to run the generator. *)
Definition is_sampling (e : event) : bool :=
  match e with
  | Call_randint _ _ _ _ | Call_normal _ _ _ | Call_predict _ _ => true
  | _ => false
  end.

(** How many calls of a kind a trace holds. *)
Definition count (kind : event → bool) (trace : list event) : nat :=
  length (List.filter kind trace).

(** ** The sample grid *)

(** Column [i] as [sample_column] draws it: the generator's images for ten
    rows of noise, each glued to the one-hot code of class [i], moved from
    [[-1, 1]] to [[0, 1]], and of each image channel 0. *)
Definition sampled_column {keras : Keras} (self : InfoGAN)
    (σ : gmap nat weight) (i : nat) (column : list panel) : Prop :=
  ∃ noise latent g,
    Np.has_shape 10 default_noise_variable noise
    ∧ Np.concatenate_axis1 noise
        (replicate 10 (<[i := 1%R]> (replicate num_classes 0%R)))
      = Some latent
    ∧ predict (generator self) σ
        (as_tensor (default_noise_variable + num_classes) latent)
      = Some g
    ∧ tshape g = 10%nat :: img_shape
    ∧ draw_column
        (Tensor (tshape g) (map (λ v, 0.5 * v + 0.5)%R (tdata g))) 10
      = Some column.

(** What column [i] of the figure shows, entry by entry: ten panels, and
    panel [j] is the 32 by 32 array whose entry at row-major place [p] is
    [0.5 * v + 0.5] for the value [v] that image [j] of the generator's
    output has at that place in channel 0. *)
Definition grid_column {keras : Keras} (self : InfoGAN)
    (σ : gmap nat weight) (i : nat) (column : list panel) : Prop :=
  ∃ noise latent g,
    Np.has_shape 10 default_noise_variable noise
    ∧ Np.concatenate_axis1 noise
        (replicate 10 (<[i := 1%R]> (replicate num_classes 0%R)))
      = Some latent
    ∧ predict (generator self) σ
        (as_tensor (default_noise_variable + num_classes) latent)
      = Some g
    ∧ length column = 10%nat
    ∧ ∀ (j : nat) (shows : panel),
        column !! j = Some shows →
        cmap shows = "brg"%string
        ∧ tshape (shown shows) = [img_rows; img_cols]
        ∧ length (tdata (shown shows)) = (img_rows * img_cols)%nat
        ∧ ∀ p, (p < img_rows * img_cols)%nat →
               ∃ v, tdata g !! ((j * (img_rows * img_cols) + p) * channels)%nat
                    = Some v
                    ∧ tdata (shown shows) !! p = Some (0.5 * v + 0.5)%R.

(** ** Consistency of the functional API *)

(** The output shape of layers applied one after the other. *)
Definition chain_shape (layers : list model) (s : shape) : option shape :=
  fold_left (λ acc m', acc ≫= output_shape m') layers (Some s).

(** The instance of layer [l] that a call at counter [n] creates. *)
Definition layer_instance (l : layer) (n : nat) : model :=
  Layer l (zip_with Variable_ (seq n (length (layer_variables l)))
             (layer_variables l)).

(** A symbolic tensor that descends from an input of shape [input] through
    layers created since the counter was [first]: its shape is the shape its
    history computes, and the variables of its history are the counters from
    [first] up to the present one, each once and in order. *)
Record consistent (input : shape) (first : nat) (x : ktensor) (next : nat)
    : Prop := {
  consistent_input : kinput x = input;
  consistent_shape : chain_shape (khistory x) input = Some (kshape x);
  consistent_ids :
    map var_id (concat (map variables (khistory x)))
    = seq first (next - first);
  consistent_order : first ≤ next
}.

(** ** The stages of the shared trunk *)

(** The layers [discriminator_recognition_net] creates for the first filter,
    for a filter of the loop and for the last filter. *)
Definition trunk_first (filters : nat) : list layer :=
  [Conv2D filters (4, 4)%nat 2 Same; LeakyReLU 0.1; Dropout 0.25].

Definition trunk_middle (filters : nat) : list layer :=
  [Conv2D filters (4, 4)%nat 2 Same; ZeroPadding2D ((0, 1), (0, 1))%nat;
   LeakyReLU 0.1; Dropout 0.25; BatchNormalization 0.8].

Definition trunk_last (filters : nat) : list layer :=
  [Conv2D filters (4, 4)%nat 2 Same; LeakyReLU 0.1; Dropout 0.25;
   BatchNormalization 0.8; Flatten].

(* ================================================================== *)
(** * Part II: theorems *)
(* ================================================================== *)

Section ArrayLemmas.

Local Open Scope R_scope.

Lemma mapM_total {A B} (f : A → B) (l : list A) :
  mapM (λ x, Some (f x)) l = Some (map f l).
Proof.
  induction l as [|x l IH]; [done|].
  cbn. rewrite IH. done.
Qed.

(** Rows of equal length multiply pointwise. *)
Lemma broadcast_row (r s : vector) :
  length r = length s →
  Np.broadcast (λ x y, Some (x * y)) r s = Some (zip_with Rmult r s).
Proof.
  intros Hlen. unfold Np.broadcast.
  destruct (decide (length r = length s)) as [_|Hne]; [|done].
  rewrite (mapM_total (λ p, p.1 * p.2)).
  f_equal. revert s Hlen.
  induction r as [|x r IH]; intros [|y s] Hlen; simplify_eq/=; [done|].
  f_equal. by apply IH.
Qed.

Lemma mul_same_shape (B n : nat) (a b : matrix) :
  Np.has_shape B n a → Np.has_shape B n b →
  K.mul a b = Some (zip_with (zip_with Rmult) a b).
Proof.
  intros [Ha Hra] [Hb Hrb]. unfold K.mul, Np.broadcast at 1.
  destruct (decide (length a = length b)) as [_|Hne]; [|congruence].
  clear Ha Hb. revert b Hrb.
  induction Hra as [|r a Hr Hra IH]; intros b Hrb.
  - by destruct b.
  - destruct Hrb as [|s b Hs Hrb]; [done|].
    cbn [zip mapM fst snd]. rewrite broadcast_row by congruence.
    cbn. rewrite (IH b Hrb). done.
Qed.

Lemma big_sum_S (n : nat) (f : nat → R) :
  Formula.big_sum (S n) f = f 0%nat + Formula.big_sum n (λ j, f (S j)).
Proof.
  unfold Formula.big_sum. cbn [seq map fold_right].
  by rewrite <- seq_shift, map_map.
Qed.

Lemma big_sum_ext (n : nat) (f g : nat → R) :
  (∀ j, (j < n)%nat → f j = g j) → Formula.big_sum n f = Formula.big_sum n g.
Proof.
  revert f g. induction n as [|n IH]; intros f g Hfg; [done|].
  rewrite !big_sum_S, (Hfg 0%nat) by lia.
  f_equal. apply IH. intros j Hj. apply Hfg. lia.
Qed.

(** Summing a list is summing its entries by index. *)
Lemma fold_right_big_sum (l : vector) :
  fold_right Rplus 0 l = Formula.big_sum (length l) (λ j, nth j l 0).
Proof.
  induction l as [|x l IH]; [done|].
  cbn [length]. rewrite big_sum_S. cbn [fold_right nth]. by rewrite IH.
Qed.

Lemma nth_zip_with_mul (r s : vector) (j : nat) :
  length r = length s →
  nth j (zip_with Rmult r s) 0 = nth j r 0 * nth j s 0.
Proof.
  revert s j. induction r as [|x r IH]; intros [|y s] [|j] Hlen;
    simplify_eq/=; try lra.
  by apply IH.
Qed.

Lemma nth_map_in {A B} (f : A → B) (l : list A) (i : nat) (d : A) (e : B) :
  (i < length l)%nat → nth i (map f l) e = f (nth i l d).
Proof.
  revert i. induction l as [|x l IH]; intros [|i] Hi; cbn in *; try lia; [done|].
  apply IH. lia.
Qed.

Lemma nth_zip_with_in {A B C} (f : A → B → C) (a : list A) (b : list B)
    (i : nat) (da : A) (db : B) (d : C) :
  (i < length a)%nat → length a = length b →
  nth i (zip_with f a b) d = f (nth i a da) (nth i b db).
Proof.
  revert b i. induction a as [|x a IH]; intros [|y b] [|i] Hi Hlen;
    cbn in *; try lia; [done|].
  apply IH; lia.
Qed.

Lemma has_shape_row (B n : nat) (m : matrix) (i : nat) :
  Np.has_shape B n m → (i < B)%nat → length (nth i m []) = n.
Proof.
  intros [Hlen Hrows] Hi. rewrite Forall_forall in Hrows.
  apply Hrows, list_elem_of_In, nth_In. lia.
Qed.

Lemma has_shape_log_add (B n : nat) (m : matrix) (e : R) :
  Np.has_shape B n m → Np.has_shape B n (K.log (K.add_scalar m e)).
Proof.
  intros [Hlen Hrows]. split.
  - unfold K.log, K.add_scalar. by rewrite !length_map.
  - unfold K.log, K.add_scalar. rewrite map_map.
    apply Forall_map. eapply Forall_impl; [exact Hrows|].
    intros row Hrow. cbn. by rewrite !length_map.
Qed.

Lemma entry_log_add (B n : nat) (m : matrix) (e : R) (i j : nat) :
  Np.has_shape B n m → (i < B)%nat → (j < n)%nat →
  Formula.entry (K.log (K.add_scalar m e)) i j = ln (Formula.entry m i j + e).
Proof.
  intros Hm Hi Hj. unfold Formula.entry, K.log, K.add_scalar.
  rewrite map_map.
  rewrite (nth_map_in _ m i [] []) by (destruct Hm; lia).
  rewrite map_map.
  rewrite (nth_map_in _ _ j 0 0); [done|].
  by rewrite (has_shape_row B n m i).
Qed.

(** One entropy term of the loss, as the backend computes it. *)
Lemma neg_log_likelihood_backend (B n : nat) (p c : matrix) :
  (0 < B)%nat → Np.has_shape B n p → Np.has_shape B n c →
  (K.mul (K.log (K.add_scalar p eps)) c
     ≫= λ t, K.mean (K.neg (K.sum_axis1 t)))
  = Some (Formula.neg_log_likelihood B n p c).
Proof.
  intros HB Hp Hc.
  pose proof (has_shape_log_add B n p eps Hp) as Hl.
  rewrite (mul_same_shape B n) by done. cbn [mbind option_bind].
  set (l := K.log (K.add_scalar p eps)) in *.
  set (t := zip_with (zip_with Rmult) l c).
  assert (Hll : length l = B) by apply Hl.
  assert (Hlc : length c = B) by apply Hc.
  assert (Hlt : length t = B).
  { unfold t. rewrite length_zip_with. lia. }
  assert (Ht : length (K.neg (K.sum_axis1 t)) = B).
  { unfold K.neg, K.sum_axis1. by rewrite !length_map. }
  unfold K.mean. destruct (K.neg (K.sum_axis1 t)) as [|v0 vs] eqn:Hv.
  { cbn in Ht. lia. }
  rewrite <- Hv in Ht |- *. clear Hv v0 vs. f_equal.
  unfold Formula.neg_log_likelihood, Formula.mean_over.
  rewrite Ht. f_equal.
  rewrite fold_right_big_sum, Ht.
  apply big_sum_ext. intros i Hi.
  unfold K.neg, K.sum_axis1. rewrite map_map.
  rewrite (nth_map_in _ t i [] 0) by lia. f_equal.
  unfold t.
  rewrite (nth_zip_with_in _ _ _ i [] [] []) by lia.
  pose proof (has_shape_row B n _ i Hl Hi) as Hli.
  pose proof (has_shape_row B n _ i Hc Hi) as Hci.
  rewrite fold_right_big_sum, length_zip_with, Hli, Hci, Nat.min_id.
  apply big_sum_ext. intros j Hj.
  rewrite nth_zip_with_mul by congruence.
  change (nth j (nth i l []) 0) with (Formula.entry l i j).
  unfold l. by rewrite (entry_log_add B n).
Qed.

End ArrayLemmas.

(** ** The mutual information loss *)

Section MutualInformation.

Local Open Scope R_scope.

(** C1. On a code batch [c] and a predicted batch [c_given_x] of one shape
    [(B, n)] with at least one row, [mutual_info_loss] returns exactly
    [mean(-sum(log(c_given_x+eps)*c, axis=1)) + mean(-sum(log(c+eps)*c, axis=1))]
    with [eps = 1e-8]: the conditional entropy term plus the entropy term. *)
Theorem mutual_info_loss_is_formula (B n : nat) (c c_given_x : matrix) :
  (0 < B)%nat → Np.has_shape B n c → Np.has_shape B n c_given_x →
  mutual_info_loss c c_given_x = Some (Formula.mutual_info B n c c_given_x).
Proof.
  intros HB Hc Hq. unfold mutual_info_loss, Formula.mutual_info.
  pose proof (neg_log_likelihood_backend B n c_given_x c HB Hq Hc) as H1.
  pose proof (neg_log_likelihood_backend B n c c HB Hc Hc) as H2.
  destruct (K.mul (K.log (K.add_scalar c_given_x eps)) c) as [t|]; [|done].
  cbn [mbind option_bind] in H1 |- *. rewrite H1. cbn [mbind option_bind].
  destruct (K.mul (K.log (K.add_scalar c eps)) c) as [u|]; [|done].
  cbn [mbind option_bind] in H2 |- *. rewrite H2. done.
Qed.

Lemma mutual_info_loss_is_formula_witness :
  mutual_info_loss [[1; 0]] [[0.5; 0.5]]
  = Some (Formula.mutual_info 1 2 [[1; 0]] [[0.5; 0.5]]).
Proof.
  apply (mutual_info_loss_is_formula 1 2 [[1; 0]] [[0.5; 0.5]]).
  - lia.
  - split; [reflexivity | repeat constructor].
  - split; [reflexivity | repeat constructor].
Defined.

End MutualInformation.

(** ** Shapes and layers of the networks *)

Section Architecture.

Context {keras : Keras}.

Local Open Scope R_scope.

(** Induction on models, through the list of their layers. *)
Lemma model_induction (P : model → Prop) :
  (∀ l ws, P (Layer l ws)) →
  (∀ tr input layers, Forall P layers → P (Model tr input layers)) →
  ∀ m, P m.
Proof.
  intros Hlayer Hmodel. fix IH 1. intros [l ws|tr input layers].
  - apply Hlayer.
  - apply Hmodel. induction layers as [|m layers IHl]; constructor.
    + apply IH.
    + exact IHl.
Qed.

(** Inference succeeds exactly when the shapes fit, and the batch axis of
    the result is the batch axis of the input. *)
Lemma predict_shape (m : model) (σ : gmap nat weight) :
  ∀ (x : tensor) (b : nat) (s : shape),
    tshape x = b :: s →
    tshape <$> predict m σ x = cons b <$> output_shape m s.
Proof.
  induction m as [l ws|tr input layers IH] using model_induction;
    intros x b s Hx.
  - cbn. unfold call_layer. rewrite Hx.
    by destruct (compute_output_shape l s).
  - cbn. rewrite Hx. cbn [tail].
    destruct (decide (s = input)) as [_|_]; [|done].
    assert (Hacc : tshape <$> Some x = cons b <$> Some s) by (cbn; by rewrite Hx).
    revert Hacc. generalize (Some x) (Some s). clear Hx x s.
    induction IH as [|m layers Hm _ IHl]; intros acc_t acc_s Hacc; [done|].
    cbn [fold_left]. apply IHl.
    destruct acc_t as [t|], acc_s as [s|]; simplify_eq/=; [|done].
    by apply Hm.
Qed.

Lemma predict_succeeds (m : model) (σ : gmap nat weight) (x : tensor)
    (b : nat) (s s' : shape) :
  tshape x = b :: s → output_shape m s = Some s' →
  ∃ y, predict m σ x = Some y ∧ tshape y = b :: s'.
Proof.
  intros Hx Hs. pose proof (predict_shape m σ x b s Hx) as H.
  rewrite Hs in H. destruct (predict m σ x) as [y|]; simplify_eq/=.
  by exists y.
Qed.

Lemma tanh_range (x : R) : -1 <= tanh x <= 1.
Proof.
  unfold tanh, sinh, cosh.
  pose proof (exp_pos x) as Ha. pose proof (exp_pos (- x)) as Hb.
  set (a := exp x) in *. set (b := exp (- x)) in *.
  assert (H : (a - b) / 2 / ((a + b) / 2) = (a - b) / (a + b)) by (field; lra).
  rewrite H. unfold Rdiv.
  assert (Hi : 0 < / (a + b)) by (apply Rinv_0_lt_compat; lra).
  assert (H1 : (a + b) * / (a + b) = 1) by (field; lra).
  set (i := / (a + b)) in *.
  assert (0 < a * i) by (apply Rmult_lt_0_compat; lra).
  assert (0 < b * i) by (apply Rmult_lt_0_compat; lra).
  split; lra.
Qed.

(** A chain that ends in a [tanh] activation only outputs values of
    [[-1, 1]]. *)
Lemma predict_tanh_last (tr : bool) (input : shape) (layers : list model)
    (ws : list variable) (σ : gmap nat weight) (x y : tensor) :
  last layers = Some (Layer (Activation Tanh) ws) →
  predict (Model tr input layers) σ x = Some y →
  Forall (λ v, -1 <= v <= 1) (tdata y).
Proof.
  intros Hlast Hy. apply last_Some in Hlast as [front ->].
  cbn in Hy. destruct (decide (tail (tshape x) = input)); [|done].
  rewrite fold_left_app in Hy. cbn [fold_left] in Hy.
  destruct (fold_left _ front (Some x)) as [t|]; [|done].
  cbn in Hy. unfold call_layer in Hy.
  destruct (tshape t) as [|b s]; [done|]. cbn in Hy. simplify_eq.
  cbn. apply Forall_map, Forall_true. intros v. apply tanh_range.
Qed.

(** With layers that return the entries of the shape they declare, a layer
    applied to an array that holds the entries of its shape returns an array
    that holds the entries of the output shape. *)
Lemma call_layer_length (l : layer) (ws : list variable)
    (σ : gmap nat weight) (x y : tensor) (b : nat) (s : shape) :
  shaped_numerics keras →
  tshape x = b :: s → length (tdata x) = (b * prod_dims s)%nat →
  call_layer l ws σ x = Some y →
  ∃ s', compute_output_shape l s = Some s'
        ∧ tshape y = b :: s'
        ∧ length (tdata y) = (b * prod_dims s')%nat.
Proof.
  intros Hlaw Hx Hlen. unfold call_layer. rewrite Hx.
  destruct (compute_output_shape l s) as [s'|] eqn:Hs; [|done].
  cbn [mbind option_bind]. intros Hy. injection Hy as <-.
  exists s'. split; [reflexivity|]. split; [reflexivity|]. cbn [tdata].
  destruct l as [u a|mo|target| |f ks st pd|a|al|rate|pd|];
    try exact (Hlaw _ _ x b s s' Hx Hs Hlen).
  - cbn [compute_output_shape] in Hs.
    destruct (decide (prod_dims s = prod_dims target)) as [He|]; [|done].
    injection Hs as <-. rewrite Hlen, He. reflexivity.
  - destruct (elementwise a) as [f|].
    + cbn [compute_output_shape] in Hs. injection Hs as <-.
      rewrite length_map. exact Hlen.
    + exact (Hlaw _ _ x b s s' Hx Hs Hlen).
  - cbn [compute_output_shape] in Hs. injection Hs as <-. exact Hlen.
  - cbn [compute_output_shape] in Hs. injection Hs as <-.
    rewrite Hlen. unfold prod_dims at 2. cbn [fold_right]. lia.
Qed.

Lemma predict_length (m : model) (σ : gmap nat weight) :
  shaped_numerics keras →
  ∀ (x y : tensor) (b : nat) (s : shape),
    tshape x = b :: s → length (tdata x) = (b * prod_dims s)%nat →
    predict m σ x = Some y →
    ∃ s', tshape y = b :: s' ∧ length (tdata y) = (b * prod_dims s')%nat.
Proof.
  intros Hlaw.
  induction m as [l ws|tr input layers IH] using model_induction;
    intros x y b s Hx Hlen Hy.
  - cbn [predict] in Hy.
    destruct (call_layer_length l ws σ x y b s Hlaw Hx Hlen Hy)
      as (s' & _ & Hs' & Hl').
    exists s'. split; [exact Hs'|exact Hl'].
  - cbn [predict] in Hy.
    destruct (decide (tail (tshape x) = input)) as [_|_]; [|done].
    assert (Hacc : ∀ t, Some x = Some t →
              ∃ s0, tshape t = b :: s0
                    ∧ length (tdata t) = (b * prod_dims s0)%nat).
    { intros t Ht. injection Ht as <-. exists s. split; assumption. }
    revert Hacc Hy. generalize (Some x). clear Hx Hlen x s.
    induction IH as [|m layers Hm _ IHl]; intros acc Hacc Hy.
    + cbn [fold_left] in Hy. exact (Hacc y Hy).
    + cbn [fold_left] in Hy. apply (IHl (acc ≫= predict m σ)); [|exact Hy].
      intros t Ht. destruct acc as [t0|]; [|done].
      destruct (Hacc t0 eq_refl) as (s0 & Hs0 & Hl0).
      cbn [mbind option_bind] in Ht.
      exact (Hm t0 t b s0 Hs0 Hl0 Ht).
Qed.

(** C5. The generator maps every batch of [B] latent vectors of length 134
    to an array of shape [(B, 32, 32, 3)]: the result holds the
    [B * 32 * 32 * 3] entries of that shape, and every one of them lies in
    [[-1, 1]], the last layers being a convolution to 3 channels and a
    [tanh] activation.  (The layers of the framework are taken to return
    the entries of the shape they declare.) *)
Theorem generator_output_shape_and_range (n B : nat) (σ : gmap nat weight)
    (data : list R) :
  shaped_numerics keras →
  length data = (B * latent_dim)%nat →
  ∃ g k, generator_model generator_default_filters n = Some (g, k)
    ∧ drop 17 (flat_layers g)
      = [Conv2D channels (4, 4)%nat 1 Same; Activation Tanh]
    ∧ ∃ y, predict g σ (Tensor [B; latent_dim] data) = Some y
        ∧ tshape y = [B; 32; 32; 3]%nat
        ∧ length (tdata y) = (B * (32 * 32 * 3))%nat
        ∧ Forall (λ v, -1 <= v <= 1) (tdata y).
Proof.
  intros Hlaw Hdata.
  eexists _, _. split; [vm_compute; reflexivity|].
  split; [reflexivity|].
  match goal with |- ∃ y, predict ?g _ _ = _ ∧ _ =>
    destruct (predict_succeeds g σ (Tensor [B; latent_dim] data) B
                [latent_dim] [32; 32; 3]%nat) as (y & Hy & Hs);
      [reflexivity | vm_compute; reflexivity |];
    destruct (predict_length g σ Hlaw (Tensor [B; latent_dim] data) y B
                [latent_dim] eq_refl) as (s' & Hs' & Hl');
      [cbn [tdata]; rewrite Hdata; unfold prod_dims; cbn [fold_right]; lia
      | exact Hy |]
  end.
  exists y. split; [exact Hy|]. split; [exact Hs|].
  split.
  { rewrite Hs in Hs'. injection Hs' as <-. rewrite Hl'.
    unfold prod_dims. cbn [fold_right]. lia. }
  eapply predict_tanh_last; [|exact Hy]. reflexivity.
Qed.

End Architecture.

Lemma shaped_keras_numerics : shaped_numerics Example.shaped_keras.
Proof.
  intros l ws x b s s' Hx Hs _. cbn [layer_numerics Example.shaped_keras].
  rewrite Hx, Hs. apply length_replicate.
Qed.

Lemma generator_output_shape_and_range_witness :
  ∃ g k y,
    shaped_numerics Example.shaped_keras
    ∧ length (replicate 134 0%R) = (1 * latent_dim)%nat
    ∧ generator_model generator_default_filters 0 = Some (g, k)
    ∧ predict (keras := Example.shaped_keras) g ∅
        (Tensor [1%nat; latent_dim] (replicate 134 0%R))
      = Some y
    ∧ length (tdata y) = (1 * (32 * 32 * 3))%nat.
Proof.
  assert (Hdata : length (replicate 134 0%R) = (1 * latent_dim)%nat)
    by reflexivity.
  destruct (generator_output_shape_and_range
              (keras := Example.shaped_keras) 0 1 ∅ (replicate 134 0%R)
              shaped_keras_numerics Hdata)
    as (g & k & Hg & _ & y & Hy & _ & Hl & _).
  exists g, k, y. split; [exact shaped_keras_numerics|].
  split; [exact Hdata|]. split; [exact Hg|]. split; [exact Hy|exact Hl].
Defined.

(** ** The discriminator head and the shared trunk *)

Section Heads.

Local Open Scope R_scope.

Lemma replicate_Forall {A} (P : A → Prop) (n : nat) (x : A) :
  P x → Forall P (replicate n x).
Proof. intros Hx. induction n; constructor; done. Qed.

Lemma full_has_shape (b n : nat) (v : R) : Np.has_shape b n (Np.full b n v).
Proof.
  split; unfold Np.full.
  - apply length_replicate.
  - apply replicate_Forall, length_replicate.
Qed.

Lemma full_entries (b n : nat) (v : R) :
  Forall (Forall (λ x, x = v)) (Np.full b n v).
Proof. unfold Np.full. by apply replicate_Forall, replicate_Forall. Qed.

(** C7. The output layer of the discriminator is a sigmoid [Dense] layer
    with as many units as the image has channels, 3, so that the
    discriminator outputs 3 values per example; the ground truths [valid]
    and [fake] of the training loop have the matching shape
    [(batch_size, channels)] and hold ones and zeros. *)
Theorem discriminator_head_and_ground_truths (n batch_size : nat) :
  ∃ d k, discriminator_model n = Some (d, k)
    ∧ last (flat_layers d) = Some (Dense channels Sigmoid)
    ∧ channels = 3%nat
    ∧ output_shape d img_shape = Some [channels]
    ∧ Np.has_shape batch_size channels (adversarial_ground_truths batch_size).1
    ∧ Forall (Forall (λ x, x = 1)) (adversarial_ground_truths batch_size).1
    ∧ Np.has_shape batch_size channels (adversarial_ground_truths batch_size).2
    ∧ Forall (Forall (λ x, x = 0)) (adversarial_ground_truths batch_size).2.
Proof.
  eexists _, _. split; [vm_compute; reflexivity|].
  split; [reflexivity|]. split; [reflexivity|].
  split; [vm_compute; reflexivity|].
  cbn [adversarial_ground_truths fst snd].
  repeat split; try apply full_has_shape; apply full_entries.
Qed.

(** C8, as the code has it.  The trunk built for the filter sizes 64, 128,
    256 is, in order: conv 64 → leaky-relu → dropout; conv 128 → zero-pad →
    leaky-relu → dropout → batch-norm; conv 256 → leaky-relu → dropout →
    batch-norm; flatten.  Every convolution has stride 2.  The zero-padding
    follows the convolution directly and only the 128 stage has one; the
    64 stage has no batch normalization. *)
Theorem trunk_layers (n : nat) :
  ∃ t k, discriminator_recognition_net trunk_default_filters n = Some (t, k)
    ∧ flat_layers t
      = [Conv2D 64 (4, 4)%nat 2 Same; LeakyReLU 0.1; Dropout 0.25;
         Conv2D 128 (4, 4)%nat 2 Same; ZeroPadding2D ((0, 1), (0, 1))%nat;
         LeakyReLU 0.1; Dropout 0.25; BatchNormalization 0.8;
         Conv2D 256 (4, 4)%nat 2 Same; LeakyReLU 0.1; Dropout 0.25;
         BatchNormalization 0.8;
         Flatten]
    ∧ output_shape t img_shape = Some [5 * 5 * 256]%nat.
Proof.
  eexists _, _. split; [vm_compute; reflexivity|].
  split; vm_compute; reflexivity.
Qed.

(** C8, as the specification words it, fails: whatever stages are taken as
    bracketed, the layers of the trunk are not conv → leaky-relu → dropout
    with zero-pad → batch-norm appended. *)
Lemma trunk_not_as_described :
  ∃ t k, discriminator_recognition_net trunk_default_filters 0%nat = Some (t, k)
    ∧ ∀ b64 b128 b256,
        map kind_of (flat_layers t) ≠ Described.trunk b64 b128 b256.
Proof.
  eexists _, _. split; [vm_compute; reflexivity|].
  intros [] [] []; vm_compute; discriminate.
Qed.

End Heads.

(** ** What [__init__] builds *)

Section Construction.

(** The facts about the four models that the later proofs use. *)
Record built (n : nat) (self : InfoGAN) : Prop := {
  built_discriminator_input :
    model_input (net (discriminator self)) = Some img_shape;
  built_discriminator_outputs : outputs (discriminator self) = [[channels]];
  built_recognition_input :
    model_input (net (recognition self)) = Some img_shape;
  built_recognition_outputs : outputs (recognition self) = [[num_classes]];
  built_combined_input :
    model_input (net (combined self)) = Some [latent_dim];
  built_combined_outputs :
    outputs (combined self) = [[channels]; [num_classes]];
  built_generator_shape :
    output_shape (generator self) [latent_dim] = Some img_shape;
  built_discriminator_mutable :
    mutable_variables (net (discriminator self))
    = variables (net (discriminator self));
  built_recognition_mutable :
    mutable_variables (net (recognition self))
    = variables (net (recognition self));
  built_combined_variables :
    variables (net (combined self))
    = variables (generator self) ++ variables (net (discriminator self))
      ++ variables (net (recognition self));
  built_combined_mutable :
    mutable_variables (net (combined self)) = variables (net (combined self));
  built_discriminator_ids :
    Forall (λ v, n ≤ var_id v < 16 + n) (variables (net (discriminator self)));
  built_recognition_ids :
    Forall (λ v, 16 + n ≤ var_id v < 34 + n)
      (variables (net (recognition self)));
  built_generator_ids :
    Forall (λ v, 34 + n ≤ var_id v < 66 + n) (variables (generator self));
  built_recognition_weight :
    Variable_ (16 + n) true ∈ variables (net (recognition self));
  built_trunks :
    ∃ trunk_d head_d trunk_q head_q tr_d tr_q,
      net (discriminator self) = Model tr_d img_shape (trunk_d :: head_d)
      ∧ net (recognition self) = Model tr_q img_shape (trunk_q :: head_q)
      ∧ flat_layers trunk_d = flat_layers trunk_q
}.

Lemma init_built (n : nat) :
  ∃ self, init n = Some (self, 66 + n) ∧ built n self.
Proof.
  eexists. split; [vm_compute; reflexivity|].
  split; try (vm_compute; reflexivity).
  - repeat constructor; cbn; lia.
  - repeat constructor; cbn; lia.
  - repeat constructor; cbn; lia.
  - cbn. set_solver.
  - eexists _, _, _, _, _, _. repeat split; reflexivity.
Qed.

End Construction.

(** ** Training steps and the variables they write *)

Section Training.

Context {keras : Keras}.

Lemma foldr_insert_other {A} (f : A → nat) (g : nat → weight)
    (vs : list A) (σ : gmap nat weight) (i : nat) :
  i ∉ map f vs →
  foldr (λ v acc, <[f v := g (f v)]> acc) σ vs !! i = σ !! i.
Proof.
  induction vs as [|v vs IH]; intros Hi; [done|].
  cbn in *. rewrite not_elem_of_cons in Hi. destruct Hi as [Hne Hi].
  rewrite lookup_insert_ne by done. by apply IH.
Qed.

Lemma foldr_insert_written {A} (f : A → nat) (g : nat → weight)
    (vs : list A) (σ : gmap nat weight) (i : nat) :
  i ∈ map f vs →
  foldr (λ v acc, <[f v := g (f v)]> acc) σ vs !! i = Some (g i).
Proof.
  induction vs as [|v vs IH]; intros Hi; [by apply elem_of_nil in Hi|].
  cbn in *. destruct (decide (f v = i)) as [->|Hne].
  - by rewrite lookup_insert_eq.
  - rewrite lookup_insert_ne by done. apply IH.
    apply elem_of_cons in Hi as [Hi|Hi]; [congruence|done].
Qed.

(** A step leaves alone what the model may not write. *)
Lemma optimizer_step_other (cm : compiled) (x : tensor) (ys : list tensor)
    (a : optimizer_state) (σ : gmap nat weight) (i : nat) :
  i ∉ map var_id (mutable_variables (net cm)) →
  optimizer_step cm x ys a σ !! i = σ !! i.
Proof.
  apply (foldr_insert_other var_id (step_value cm x ys (read σ) a)).
Qed.

(** A step writes what the optimizer computes into every variable the model
    may write. *)
Lemma optimizer_step_written (cm : compiled) (x : tensor) (ys : list tensor)
    (a : optimizer_state) (σ : gmap nat weight) (i : nat) :
  i ∈ map var_id (mutable_variables (net cm)) →
  optimizer_step cm x ys a σ !! i = Some (step_value cm x ys (read σ) a i).
Proof.
  apply (foldr_insert_written var_id (step_value cm x ys (read σ) a)).
Qed.

(** [train_on_batch] runs on every batch that fits the model. *)
Lemma train_on_batch_run (cm : compiled) (x : tensor) (ys : list tensor)
    (w : world) (b : nat) (s : shape) :
  tshape x = b :: s →
  model_input (net cm) = Some s →
  map tshape ys = map (cons b) (outputs cm) →
  train_on_batch cm x ys w
  = Some (step_results cm x ys (read (store w)),
          World (optimizer_step cm x ys (adam w) (store w))
            (step_optimizer cm x ys (read (store w)) (adam w)) (rng w)
            (dirs w) (files w) (calls w ++ [Call_train_on_batch cm x ys])).
Proof.
  intros Hx Hin Hout. unfold train_on_batch. rewrite Hx.
  destruct (decide _) as [_|Hno]; [done|]. by destruct Hno.
Qed.

Lemma train_on_batch_store (cm : compiled) (x : tensor) (ys : list tensor)
    (w w' : world) (r : list R) :
  train_on_batch cm x ys w = Some (r, w') →
  store w' = optimizer_step cm x ys (adam w) (store w).
Proof.
  unfold train_on_batch. destruct (tshape x) as [|b s]; [done|].
  destruct (decide _); [|done]. intros; by simplify_eq/=.
Qed.

Lemma ids_disjoint (vs us : list variable) (lo mid hi : nat) :
  Forall (λ v, lo ≤ var_id v < mid) vs →
  Forall (λ v, mid ≤ var_id v < hi) us →
  Forall (λ v, var_id v ∉ map var_id us) vs.
Proof.
  intros Hvs Hus. eapply Forall_impl; [exact Hvs|].
  intros v Hv Hin. apply list_elem_of_fmap in Hin as (u & Heq & Hu).
  rewrite Forall_forall in Hus. specialize (Hus u Hu). cbn beta in *. lia.
Qed.

(** C9. The discriminator and the recognition network each start with a
    trunk of their own: the two trunks have the same layers and no variable
    in common, and no variable at all is shared between the two models.  A
    training step on either model runs on every fitting batch and leaves
    every variable of the other model as it was. *)
Theorem trunks_are_separate (n : nat) :
  ∃ self k, init n = Some (self, k)
    ∧ (∃ trunk_d head_d trunk_q head_q tr_d tr_q,
         net (discriminator self) = Model tr_d img_shape (trunk_d :: head_d)
         ∧ net (recognition self) = Model tr_q img_shape (trunk_q :: head_q)
         ∧ flat_layers trunk_d = flat_layers trunk_q
         ∧ map var_id (variables trunk_d) ## map var_id (variables trunk_q))
    ∧ map var_id (variables (net (discriminator self)))
      ## map var_id (variables (net (recognition self)))
    ∧ (∀ b data target w, ∃ r w',
         train_on_batch (discriminator self) (Tensor (b :: img_shape) data)
           [Tensor [b; channels] target] w = Some (r, w')
         ∧ Forall (λ v, store w' !! var_id v = store w !! var_id v)
             (variables (net (recognition self))))
    ∧ (∀ b data target w, ∃ r w',
         train_on_batch (recognition self) (Tensor (b :: img_shape) data)
           [Tensor [b; num_classes] target] w = Some (r, w')
         ∧ Forall (λ v, store w' !! var_id v = store w !! var_id v)
             (variables (net (discriminator self)))).
Proof.
  destruct (init_built n) as (self & Hinit & Hb).
  exists self, (66 + n)%nat. split; [exact Hinit|].
  pose proof (built_discriminator_ids n self Hb) as Hd.
  pose proof (built_recognition_ids n self Hb) as Hq.
  assert (Hdq : Forall (λ v, var_id v ∉ map var_id
                                (variables (net (recognition self))))
                  (variables (net (discriminator self))))
    by (eapply ids_disjoint; eassumption).
  assert (Hqd : Forall (λ v, var_id v ∉ map var_id
                                (variables (net (discriminator self))))
                  (variables (net (recognition self)))).
  { eapply Forall_impl; [exact Hq|]. intros v Hv Hin.
    apply list_elem_of_fmap in Hin as (u & Heq & Hu).
    rewrite Forall_forall in Hd. specialize (Hd u Hu). cbn beta in *. lia. }
  split; [|split; [|split]].
  - destruct (built_trunks n self Hb)
      as (trunk_d & head_d & trunk_q & head_q & tr_d & tr_q & HD & HQ & Hsame).
    exists trunk_d, head_d, trunk_q, head_q, tr_d, tr_q.
    split; [exact HD|]. split; [exact HQ|]. split; [exact Hsame|].
    rewrite HD, HQ in Hdq. cbn [variables map concat] in Hdq.
    apply Forall_app in Hdq as [Hdq _].
    intros i Hi Hi'. apply list_elem_of_fmap in Hi as (v & -> & Hv).
    rewrite Forall_forall in Hdq. apply (Hdq v Hv).
    rewrite fmap_app. apply elem_of_app. by left.
  - intros i Hi Hi'. apply list_elem_of_fmap in Hi as (v & -> & Hv).
    rewrite Forall_forall in Hdq. by apply (Hdq v Hv).
  - intros b data target w. eexists _, _. split.
    + eapply train_on_batch_run; [reflexivity|apply Hb|].
      by rewrite (built_discriminator_outputs n self Hb).
    + cbn [store]. eapply Forall_impl; [exact Hqd|].
      intros v Hv. apply optimizer_step_other.
      by rewrite (built_discriminator_mutable n self Hb).
  - intros b data target w. eexists _, _. split.
    + eapply train_on_batch_run; [reflexivity|apply Hb|].
      by rewrite (built_recognition_outputs n self Hb).
    + cbn [store]. eapply Forall_impl; [exact Hdq|].
      intros v Hv. apply optimizer_step_other.
      by rewrite (built_recognition_mutable n self Hb).
Qed.

(** C2, as the code has it.  In a training update of the combined model
    neither the discriminator nor the recognition network is held fixed:
    the variables of the combined model are those of the generator, of the
    discriminator and of the recognition network, the update may write all
    of them, each gets the value the optimizer computes for it, and the
    update leaves unchanged every variable that belongs to no layer of the
    combined model. *)
Theorem combined_step_trains_generator_and_recognition (n : nat) :
  ∃ self k, init n = Some (self, k)
    ∧ variables (net (combined self))
      = variables (generator self) ++ variables (net (discriminator self))
        ++ variables (net (recognition self))
    ∧ variables (generator self) ⊆ mutable_variables (net (combined self))
    ∧ variables (net (discriminator self))
      ⊆ mutable_variables (net (combined self))
    ∧ variables (net (recognition self))
      ⊆ mutable_variables (net (combined self))
    ∧ ∀ b data valid labels w,
        let x := Tensor [b; latent_dim] data in
        let ys := [Tensor [b; channels] valid;
                   Tensor [b; num_classes] labels] in
        ∃ r w',
          train_on_batch (combined self) x ys w = Some (r, w')
          ∧ Forall (λ v, store w' !! var_id v
                         = Some (step_value (combined self) x ys
                                   (read (store w)) (adam w) (var_id v)))
              (variables (generator self)
               ++ variables (net (discriminator self))
               ++ variables (net (recognition self)))
          ∧ ∀ i, i ∉ map var_id (variables (net (combined self))) →
                 store w' !! i = store w !! i.
Proof.
  destruct (init_built n) as (self & Hinit & Hb).
  exists self, (66 + n)%nat. split; [exact Hinit|].
  pose proof (built_combined_mutable n self Hb) as Hmut.
  pose proof (built_combined_variables n self Hb) as Hvars.
  assert (Hg : variables (generator self)
               ⊆ mutable_variables (net (combined self))).
  { rewrite Hmut, Hvars. intros v Hv. apply elem_of_app. by left. }
  assert (Hd : variables (net (discriminator self))
               ⊆ mutable_variables (net (combined self))).
  { rewrite Hmut, Hvars. intros v Hv. rewrite !elem_of_app.
    right. left. exact Hv. }
  assert (Hq : variables (net (recognition self))
               ⊆ mutable_variables (net (combined self))).
  { rewrite Hmut, Hvars. intros v Hv. rewrite !elem_of_app. by right; right. }
  split; [exact Hvars|].
  split; [exact Hg|]. split; [exact Hd|]. split; [exact Hq|].
  intros b data valid labels w x ys. eexists _, _. split; [|split].
  - eapply train_on_batch_run; [reflexivity|apply Hb|].
    by rewrite (built_combined_outputs n self Hb).
  - cbn [store]. apply Forall_forall. intros v Hv.
    apply optimizer_step_written, list_elem_of_fmap. exists v. split; [done|].
    rewrite !elem_of_app in Hv.
    destruct Hv as [Hv|[Hv|Hv]]; [by apply Hg|by apply Hd|by apply Hq].
  - intros i Hi. cbn [store]. apply optimizer_step_other. by rewrite Hmut.
Qed.

End Training.

(** C2, as the specification words it, fails: on the example framework, one
    update of the combined model changes a weight of the recognition
    network. *)
Lemma combined_step_changes_recognition :
  ¬ (∀ (keras : Keras) (self : InfoGAN) (k : nat),
       init 0%nat = Some (self, k) →
       combined_step_holds_fixed self
         (variables (net (discriminator self))
          ++ variables (net (recognition self)))).
Proof.
  intros H. destruct (init_built 0) as (self & Hinit & Hb).
  specialize (H Example.keras self _ Hinit).
  pose proof (train_on_batch_run (keras := Example.keras) (combined self)
                (Tensor [1%nat; latent_dim] [])
                [Tensor [1%nat; channels] []; Tensor [1%nat; num_classes] []]
                Example.empty_world 1 [latent_dim] eq_refl
                (built_combined_input 0 self Hb)) as Hrun.
  rewrite (built_combined_outputs 0 self Hb) in Hrun.
  specialize (H _ _ _ _ _ (Hrun eq_refl)).
  apply Forall_app in H as [_ HQ]. rewrite Forall_forall in HQ.
  specialize (HQ _ (built_recognition_weight 0 self Hb)).
  cbn [store var_id] in HQ.
  assert (Hin : (16 + 0)%nat
                ∈ map var_id (mutable_variables (net (combined self)))).
  { rewrite (built_combined_mutable 0 self Hb),
      (built_combined_variables 0 self Hb), !fmap_app, !elem_of_app.
    right; right. apply list_elem_of_fmap. eexists. split; [|apply Hb]. done. }
  unfold read in HQ.
  rewrite (optimizer_step_written (keras := Example.keras) _ _ _ _ _ _ Hin)
    in HQ.
  change (store Example.empty_world) with (∅ : gmap nat nat) in HQ.
  rewrite lookup_empty in HQ.
  cbn [default step_value initial_value Example.keras] in HQ.
  discriminate HQ.
Qed.

(** ** Sampling the generator input *)

Section Sampling.

Context {keras : Keras} {numpy : Numpy}.

Local Open Scope R_scope.

Lemma run_bind {A B} (m : prog A) (f : A → prog B) (w : world) :
  (m ≫= f) w = match m w with Some (a, w') => f a w' | None => None end.
Proof. reflexivity. Qed.

Lemma run_lift {A} (o : option A) (w : world) :
  lift o w = match o with Some a => Some (a, w) | None => None end.
Proof. reflexivity. Qed.

Lemma one_hot_insert (n i : nat) :
  (i < n)%nat → one_hot (<[i := 1]> (replicate n 0)).
Proof.
  intros Hi. exists i. split.
  - apply list_lookup_insert_eq. by rewrite length_replicate.
  - intros j Hne Hj. rewrite length_insert, length_replicate in Hj.
    rewrite list_lookup_insert_ne by done. by apply lookup_replicate_2.
Qed.

Lemma one_hot_row_range (n : nat) (k : Z) :
  (0 ≤ k < Z.of_nat n)%Z →
  one_hot_row n k = Some (<[Z.to_nat k := 1]> (replicate n 0)).
Proof.
  intros Hk. unfold one_hot_row.
  destruct (decide (k < 0)%Z) as [?|_]; [lia|].
  destruct (decide (0 ≤ k < Z.of_nat n)%Z); [done|lia].
Qed.

(** Class indices inside the row give one one-hot row each. *)
Lemma to_categorical_range (y : list Z) (n : nat) :
  Forall (λ k, 0 ≤ k < Z.of_nat n)%Z y →
  ∃ m, to_categorical y n = Some m
       ∧ Np.has_shape (length y) n m ∧ Forall one_hot m.
Proof.
  unfold to_categorical.
  induction 1 as [|k y Hk Hy (m & Hm & [Hlen Hrows] & Hhot)].
  - exists []. repeat split; constructor.
  - exists (<[Z.to_nat k := 1]> (replicate n 0) :: m).
    split; [|split; [split|]].
    + cbn. rewrite one_hot_row_range by done. cbn. by rewrite Hm.
    + cbn. by rewrite Hlen.
    + constructor; [|done]. by rewrite length_insert, length_replicate.
    + constructor; [|done]. apply one_hot_insert. lia.
Qed.

Lemma random_normal_shape (rows cols : nat) (w : world) :
  ∃ m w', random_normal rows cols w = Some (m, w')
          ∧ Np.has_shape rows cols m
          ∧ store w' = store w ∧ adam w' = adam w ∧ dirs w' = dirs w
          ∧ files w' = files w
          ∧ calls w' = calls w ++ [Call_normal rows cols m].
Proof.
  eexists _, _. split; [reflexivity|]. split; [|done].
  split.
  - by rewrite length_map, length_seq.
  - apply Forall_map, Forall_true. intros i. by rewrite length_map, length_seq.
Qed.

Lemma random_randint_range (low high : Z) (size : nat) (w : world) :
  (low < high)%Z →
  ∃ r w', random_randint low high size w = Some (r, w')
          ∧ length r = size
          ∧ Forall (λ k, low ≤ k < high)%Z r
          ∧ store w' = store w ∧ adam w' = adam w ∧ dirs w' = dirs w
          ∧ files w' = files w
          ∧ calls w' = calls w ++ [Call_randint low high size r].
Proof.
  intros Hlt. unfold random_randint.
  destruct (decide (low < high)%Z); [|done].
  eexists _, _. split; [reflexivity|].
  split; [by rewrite length_map, length_seq|]. split; [|done].
  apply Forall_map, Forall_true. intros i. by apply randint_range.
Qed.

Lemma concatenate_shape (B n m : nat) (a b : matrix) :
  Np.has_shape B n a → Np.has_shape B m b →
  ∃ z, Np.concatenate_axis1 a b = Some z ∧ Np.has_shape B (n + m) z.
Proof.
  intros [Ha Hra] [Hb Hrb]. unfold Np.concatenate_axis1.
  destruct (decide (length a = length b)); [|congruence].
  eexists. split; [reflexivity|]. split.
  - rewrite length_zip_with. lia.
  - clear Ha Hb e. revert b Hrb.
    induction Hra as [|r a Hr Hra IH]; intros [|s b] Hrb; cbn; try constructor.
    + rewrite length_app. apply Forall_cons in Hrb as [Hs _]. lia.
    + apply IH. by apply Forall_cons in Hrb as [_ ?].
Qed.

(** What one call of [sample_generator_input] does. *)
Lemma sample_generator_input_run (B : nat) (w : world) :
  ∃ noise y labels w',
    sample_generator_input B default_noise_variable w
    = Some ((noise, labels), w')
    ∧ Np.has_shape B default_noise_variable noise
    ∧ Np.has_shape B num_classes labels
    ∧ Forall one_hot labels
    ∧ store w' = store w ∧ adam w' = adam w ∧ dirs w' = dirs w
    ∧ files w' = files w
    ∧ calls w' = calls w ++ [Call_normal B default_noise_variable noise;
                             Call_randint 0 (Z.of_nat num_classes) B y].
Proof.
  destruct (random_normal_shape B default_noise_variable w)
    as (noise & w1 & Hn & Hns & Hs1 & Ha1 & Hd1 & Hf1 & Hc1).
  destruct (random_randint_range 0 (Z.of_nat num_classes) B w1)
    as (y & w2 & Hy & Hyl & Hyr & Hs2 & Ha2 & Hd2 & Hf2 & Hc2); [done|].
  destruct (to_categorical_range y num_classes Hyr)
    as (labels & Hl & Hls & Hhot).
  exists noise, y, labels, w2. split.
  - unfold sample_generator_input.
    rewrite run_bind, Hn, run_bind, Hy, run_bind, run_lift, Hl. done.
  - rewrite Hyl in Hls. repeat split; try done; try congruence.
    + apply Hns.
    + apply Hns.
    + apply Hls.
    + apply Hls.
    + rewrite Hc2, Hc1, <- app_assoc. done.
Qed.

(** C4. For every batch size [B], [sample_generator_input] returns a noise
    matrix of shape [(B, 124)] and a code matrix of shape [(B, 10)] whose
    rows are all one-hot; glued along axis 1 they give rows of length 134,
    the input dimension [latent_dim] of the generator. *)
Theorem sample_generator_input_shapes (B : nat) (w : world) :
  ∃ noise labels w',
    sample_generator_input B default_noise_variable w
    = Some ((noise, labels), w')
    ∧ default_noise_variable = 124%nat
    ∧ Np.has_shape B 124 noise
    ∧ Np.has_shape B 10 labels
    ∧ Forall one_hot labels
    ∧ ∃ latent, Np.concatenate_axis1 noise labels = Some latent
                ∧ Np.has_shape B 134 latent
                ∧ latent_dim = 134%nat.
Proof.
  destruct (sample_generator_input_run B w)
    as (noise & y & labels & w' & Hrun & Hn & Hl & Hhot & _).
  exists noise, labels, w'. split; [exact Hrun|]. split; [done|].
  split; [exact Hn|]. split; [exact Hl|]. split; [exact Hhot|].
  destruct (concatenate_shape B _ _ noise labels Hn Hl) as (z & Hz & Hzs).
  exists z. by repeat split; try apply Hzs.
Qed.

End Sampling.

(** ** Persistence *)

Section Persistence.

Context {keras : Keras}.

Lemma write_file_run (dir name : string) (content : file) (w : world) :
  dir ∈ dirs w →
  write_file dir name content w
  = Some ((), World (store w) (adam w) (rng w) (dirs w)
                (<[(dir +:+ "/" +:+ name)%string := content]> (files w))
                (calls w)).
Proof. intros Hdir. unfold write_file. by destruct (decide _). Qed.

(** The values [save_weights] stores for a model. *)
Definition saved_values (σ : gmap nat weight) (m : model) : list weight :=
  map (λ v, read σ (var_id v)) (variables m).

Lemma save_run (m : model) (model_name : string) (w : world) :
  "infoGANs/saved_model"%string ∈ dirs w →
  save m model_name w
  = Some ((), World (store w) (adam w) (rng w) (dirs w)
                (<[("infoGANs/saved_model/" +:+ model_name
                    +:+ "_weights.hdf5")%string
                   := Hdf5 (saved_values (store w) m)]>
                   (<[("infoGANs/saved_model/" +:+ model_name
                       +:+ ".json")%string := Json m]> (files w)))
                (calls w)).
Proof.
  intros Hdir. unfold save.
  rewrite run_bind. cbn [get_store]. rewrite run_bind.
  rewrite write_file_run by done. by rewrite write_file_run.
Qed.

Lemma saved_values_agree (σ1 σ2 : gmap nat weight) (m : model) :
  Forall (λ v, σ1 !! var_id v = σ2 !! var_id v) (variables m) →
  saved_values σ1 m = saved_values σ2 m.
Proof.
  unfold saved_values. induction 1 as [|v vs Hv _ IH]; [done|].
  cbn. unfold read at 1 3. by rewrite Hv, IH.
Qed.

(** C10. [save_model] writes exactly four files: the architecture and the
    weights of the generator and of the discriminator.  Nothing of the
    recognition network or of the combined model is written: a run whose
    recognition weights are different writes the very same files, so the
    files do not determine the trained recognition weights. *)
Theorem save_model_writes_generator_and_discriminator
    (n k : nat) (self : InfoGAN) (w : world) :
  init n = Some (self, k) →
  "infoGANs/saved_model"%string ∈ dirs w →
  ∃ w',
    save_model self w = Some ((), w')
    ∧ files w'
      = <["infoGANs/saved_model/discriminator_weights.hdf5"%string
          := Hdf5 (saved_values (store w) (net (discriminator self)))]>
          (<["infoGANs/saved_model/discriminator.json"%string
             := Json (net (discriminator self))]>
             (<["infoGANs/saved_model/generator_weights.hdf5"%string
                := Hdf5 (saved_values (store w) (generator self))]>
                (<["infoGANs/saved_model/generator.json"%string
                   := Json (generator self)]> (files w))))
    ∧ dom (files w')
      = dom (files w)
        ∪ {["infoGANs/saved_model/generator.json"%string;
            "infoGANs/saved_model/generator_weights.hdf5"%string;
            "infoGANs/saved_model/discriminator.json"%string;
            "infoGANs/saved_model/discriminator_weights.hdf5"%string]}
    ∧ store w' = store w
    ∧ ∀ w2,
        dirs w2 = dirs w → files w2 = files w →
        (∀ i, i ∉ map var_id (variables (net (recognition self))) →
              store w2 !! i = store w !! i) →
        ∃ w2', save_model self w2 = Some ((), w2') ∧ files w2' = files w'.
Proof.
  intros Hinit Hdir.
  destruct (init_built n) as (self' & Hinit' & Hb).
  rewrite Hinit in Hinit'. injection Hinit' as <- ->.
  assert (Hrun : ∀ u : world, "infoGANs/saved_model"%string ∈ dirs u →
            save_model self u
            = Some ((), World (store u) (adam u) (rng u) (dirs u)
                (<["infoGANs/saved_model/discriminator_weights.hdf5"%string
                   := Hdf5 (saved_values (store u)
                              (net (discriminator self)))]>
                  (<["infoGANs/saved_model/discriminator.json"%string
                     := Json (net (discriminator self))]>
                    (<["infoGANs/saved_model/generator_weights.hdf5"%string
                       := Hdf5 (saved_values (store u) (generator self))]>
                      (<["infoGANs/saved_model/generator.json"%string
                         := Json (generator self)]> (files u)))))
                (calls u))).
  { intros u Hu. unfold save_model.
    rewrite run_bind, save_run by exact Hu.
    rewrite save_run by exact Hu.
    cbn [store adam rng dirs files calls].
    assert (K1 : ("infoGANs/saved_model/" +:+ "generator" +:+ ".json")%string
                 = "infoGANs/saved_model/generator.json"%string)
      by reflexivity.
    assert (K2 : ("infoGANs/saved_model/" +:+ "generator"
                  +:+ "_weights.hdf5")%string
                 = "infoGANs/saved_model/generator_weights.hdf5"%string)
      by reflexivity.
    assert (K3 : ("infoGANs/saved_model/" +:+ "discriminator"
                  +:+ ".json")%string
                 = "infoGANs/saved_model/discriminator.json"%string)
      by reflexivity.
    assert (K4 : ("infoGANs/saved_model/" +:+ "discriminator"
                  +:+ "_weights.hdf5")%string
                 = "infoGANs/saved_model/discriminator_weights.hdf5"%string)
      by reflexivity.
    rewrite K1, K2, K3, K4. reflexivity. }
  eexists. split; [apply Hrun, Hdir|]. cbn [files store].
  split; [reflexivity|]. split; [|split; [reflexivity|]].
  - rewrite !dom_insert_L. apply set_eq. intros p.
    rewrite !elem_of_union, !elem_of_singleton. tauto.
  - intros w2 Hd2 Hf2 Hs2. eexists. split; [apply Hrun; rewrite Hd2; exact Hdir|].
    cbn [files]. rewrite Hf2.
    rewrite (saved_values_agree (store w2) (store w) (generator self)).
    2:{ eapply Forall_impl; [apply (built_generator_ids n self Hb)|].
        intros v Hv. apply Hs2. intros Hin.
        apply list_elem_of_fmap in Hin as (u & Heq & Hu).
        pose proof (built_recognition_ids n self Hb) as Hq.
        rewrite Forall_forall in Hq. specialize (Hq u Hu).
        cbn beta in *. lia. }
    rewrite (saved_values_agree (store w2) (store w)
               (net (discriminator self))); [reflexivity|].
    eapply Forall_impl; [apply (built_discriminator_ids n self Hb)|].
    intros v Hv. apply Hs2. intros Hin.
    apply list_elem_of_fmap in Hin as (u & Heq & Hu).
    pose proof (built_recognition_ids n self Hb) as Hq.
    rewrite Forall_forall in Hq. specialize (Hq u Hu).
    cbn beta in *. lia.
Qed.

End Persistence.

Lemma save_model_writes_generator_and_discriminator_witness :
  ∃ self k w',
    init 0%nat = Some (self, k)
    ∧ save_model (keras := Example.keras) self Example.empty_world
      = Some ((), w').
Proof.
  eassert (Hinit : init 0%nat = Some (_, _)) by (vm_compute; reflexivity).
  assert (Hdir : "infoGANs/saved_model"%string
                 ∈ dirs Example.empty_world).
  { unfold Example.empty_world. cbn [dirs].
    apply elem_of_union_r, elem_of_singleton. reflexivity. }
  destruct (save_model_writes_generator_and_discriminator
              (keras := Example.keras) _ _ _ Example.empty_world Hinit Hdir)
    as (w' & Hrun & _).
  eexists _, _, w'. split; [exact Hinit | exact Hrun].
Defined.

(** ** One iteration of the training loop *)

Section Loop.

Context {keras : Keras} {numpy : Numpy}.

Local Open Scope R_scope.

Lemma model_predict_run (m : model) (x : tensor) (w : world)
    (b : nat) (s s' : shape) :
  tshape x = b :: s → output_shape m s = Some s' →
  ∃ y, predict m (store w) x = Some y
       ∧ tshape y = b :: s'
       ∧ model_predict m x w
         = Some (y, World (store w) (adam w) (rng w) (dirs w) (files w)
                      (calls w ++ [Call_predict m x])).
Proof.
  intros Hx Hs.
  destruct (predict_succeeds m (store w) x b s s' Hx Hs) as (y & Hy & Hys).
  exists y. split; [exact Hy|]. split; [exact Hys|].
  unfold model_predict. rewrite run_bind. cbn [get_store].
  rewrite run_bind, run_lift, Hy. reflexivity.
Qed.

(** Rows picked by indices inside the data set. *)
Lemma gather_rows (X : matrix) (idx : list Z) :
  Forall (λ i, 0 ≤ i < Z.of_nat (length X))%Z idx →
  ∃ rows, mapM (λ i, X !! Z.to_nat i) idx = Some rows
          ∧ length rows = length idx.
Proof.
  induction 1 as [|i idx Hi _ (rows & Hrows & Hlen)].
  - by exists [].
  - destruct (lookup_lt_is_Some_2 X (Z.to_nat i)) as [row Hrow]; [lia|].
    exists (row :: rows). split; [|cbn; by rewrite Hlen].
    cbn. rewrite Hrow. cbn. by rewrite Hrows.
Qed.

Lemma init_results (n : nat) :
  ∃ self, init n = Some (self, 66 + n)%nat
          ∧ n_results (discriminator self) = 2%nat
          ∧ n_results (combined self) = 3%nat.
Proof.
  eexists. split; [vm_compute; reflexivity|].
  split; vm_compute; reflexivity.
Qed.

Lemma init_inv (n k : nat) (self : InfoGAN) :
  init n = Some (self, k) →
  built n self
  ∧ n_results (discriminator self) = 2%nat
  ∧ n_results (combined self) = 3%nat.
Proof.
  intros Hinit.
  destruct (init_built n) as (s1 & H1 & Hb).
  destruct (init_results n) as (s2 & H2 & Hd & Hc).
  rewrite Hinit in H1. injection H1 as <- _.
  rewrite Hinit in H2. injection H2 as <- _.
  split; [exact Hb|]. split; assumption.
Qed.

Lemma list_of_length_2 {A} (l : list A) :
  length l = 2%nat → ∃ a b, l = [a; b].
Proof. destruct l as [|a [|b [|c l]]]; intros; simplify_eq/=. by exists a, b. Qed.

Lemma list_of_length_3 {A} (l : list A) :
  length l = 3%nat → ∃ a b c, l = [a; b; c].
Proof.
  destruct l as [|a [|b [|c [|d l]]]]; intros; simplify_eq/=.
  by exists a, b, c.
Qed.

Lemma as_tensor_shape (n : nat) (m : matrix) (B k : nat) :
  Np.has_shape B k m → tshape (as_tensor n m) = [B; n].
Proof. intros [<- _]. reflexivity. Qed.

(** [train_on_batch] on a model that reports [2] values. *)
Lemma train_on_batch_run_2 (cm : compiled) (x : tensor) (ys : list tensor)
    (w : world) (b : nat) (s : shape) :
  tshape x = b :: s →
  model_input (net cm) = Some s →
  map tshape ys = map (cons b) (outputs cm) →
  n_results cm = 2%nat →
  ∃ r0 r1,
    train_on_batch cm x ys w
    = Some ([r0; r1],
            World (optimizer_step cm x ys (adam w) (store w))
              (step_optimizer cm x ys (read (store w)) (adam w)) (rng w)
              (dirs w) (files w) (calls w ++ [Call_train_on_batch cm x ys])).
Proof.
  intros Hx Hin Hout Hn.
  destruct (list_of_length_2 (step_results cm x ys (read (store w))))
    as (r0 & r1 & Hr); [by rewrite step_results_length|].
  exists r0, r1. rewrite (train_on_batch_run cm x ys w b s) by done.
  by rewrite Hr.
Qed.

Lemma train_on_batch_run_3 (cm : compiled) (x : tensor) (ys : list tensor)
    (w : world) (b : nat) (s : shape) :
  tshape x = b :: s →
  model_input (net cm) = Some s →
  map tshape ys = map (cons b) (outputs cm) →
  n_results cm = 3%nat →
  ∃ r0 r1 r2,
    train_on_batch cm x ys w
    = Some ([r0; r1; r2],
            World (optimizer_step cm x ys (adam w) (store w))
              (step_optimizer cm x ys (read (store w)) (adam w)) (rng w)
              (dirs w) (files w) (calls w ++ [Call_train_on_batch cm x ys])).
Proof.
  intros Hx Hin Hout Hn.
  destruct (list_of_length_3 (step_results cm x ys (read (store w))))
    as (r0 & r1 & r2 & Hr); [by rewrite step_results_length|].
  exists r0, r1, r2. rewrite (train_on_batch_run cm x ys w b s) by done.
  by rewrite Hr.
Qed.

Lemma broadcast_add_2 (r0 r1 f0 f1 : R) :
  Np.broadcast (λ a b, Some (a + b)) [r0; r1] [f0; f1]
  = Some [r0 + f0; r1 + f1].
Proof. reflexivity. Qed.

(** The script of one iteration, given what each call returns. *)
Lemma train_iteration_unfold (self : InfoGAN) (X_train valid fake : matrix)
    (batch_size : nat) (sample_interval : Z) (epoch : nat)
    (idx : list Z) (imgs noise labels latent : matrix) (gen_imgs : tensor)
    (r0 r1 f0 f1 t g1 g2 : R) (w w1 w2 wa wb wc wd : world) :
  random_randint 0 (Z.of_nat (length X_train)) batch_size w = Some (idx, w1) →
  mapM (λ i, X_train !! Z.to_nat i) idx = Some imgs →
  sample_generator_input batch_size default_noise_variable w1
  = Some ((noise, labels), w2) →
  Np.concatenate_axis1 noise labels = Some latent →
  model_predict (generator self)
    (as_tensor (default_noise_variable + num_classes) latent) w2
  = Some (gen_imgs, wa) →
  train_on_batch (discriminator self)
    (Tensor (batch_size :: img_shape) (concat imgs))
    [as_tensor channels valid] wa = Some ([r0; r1], wb) →
  train_on_batch (discriminator self) gen_imgs [as_tensor channels fake] wb
  = Some ([f0; f1], wc) →
  train_on_batch (combined self)
    (as_tensor (default_noise_variable + num_classes) latent)
    [as_tensor channels valid; as_tensor num_classes labels] wc
  = Some ([t; g1; g2], wd) →
  train_iteration self img_shape X_train valid fake batch_size
    sample_interval epoch w
  = (if decide (sample_interval = 0%Z) then throw
     else if decide ((Z.of_nat epoch `mod` sample_interval)%Z = 0%Z)
          then sample_images self epoch
          else mret ())
      (World (store wd) (adam wd) (rng wd) (dirs wd) (files wd)
         (calls wd
          ++ [Call_print epoch (0.5 * (r0 + f0)) (100 * (0.5 * (r1 + f1)))
                g1 g2])).
Proof.
  intros Hidx Himgs Hsample Hcat Hp Hreal Hfk Hcomb.
  unfold train_iteration.
  rewrite run_bind, Hidx, run_bind, run_lift, Himgs.
  rewrite run_bind, Hsample.
  rewrite run_bind, run_lift, Hcat.
  rewrite run_bind, Hp.
  rewrite run_bind, Hreal.
  rewrite run_bind, Hfk.
  rewrite run_bind, run_lift, (broadcast_add_2 r0 r1 f0 f1).
  rewrite run_bind, Hcomb.
  reflexivity.
Qed.

Lemma model_predict_frame (m : model) (x : tensor) (w : world)
    (b : nat) (s s' : shape) :
  tshape x = b :: s → output_shape m s = Some s' →
  ∃ y w', model_predict m x w = Some (y, w')
          ∧ predict m (store w) x = Some y
          ∧ tshape y = b :: s'
          ∧ store w' = store w ∧ dirs w' = dirs w ∧ files w' = files w
          ∧ calls w' = calls w ++ [Call_predict m x].
Proof.
  intros Hx Hs.
  destruct (model_predict_run m x w b s s' Hx Hs) as (y & Hy & Hys & Hrun).
  eexists y, _. split; [exact Hrun|]. by repeat split.
Qed.

Lemma train_on_batch_frame_2 (cm : compiled) (x : tensor) (ys : list tensor)
    (w : world) (b : nat) (s : shape) :
  tshape x = b :: s →
  model_input (net cm) = Some s →
  map tshape ys = map (cons b) (outputs cm) →
  n_results cm = 2%nat →
  ∃ r0 r1 w',
    train_on_batch cm x ys w = Some ([r0; r1], w')
    ∧ dirs w' = dirs w ∧ files w' = files w
    ∧ calls w' = calls w ++ [Call_train_on_batch cm x ys].
Proof.
  intros Hx Hin Hout Hn.
  destruct (train_on_batch_run_2 cm x ys w b s Hx Hin Hout Hn)
    as (r0 & r1 & Hrun).
  eexists r0, r1, _. split; [exact Hrun|]. by repeat split.
Qed.

Lemma train_on_batch_frame_3 (cm : compiled) (x : tensor) (ys : list tensor)
    (w : world) (b : nat) (s : shape) :
  tshape x = b :: s →
  model_input (net cm) = Some s →
  map tshape ys = map (cons b) (outputs cm) →
  n_results cm = 3%nat →
  ∃ r0 r1 r2 w',
    train_on_batch cm x ys w = Some ([r0; r1; r2], w')
    ∧ dirs w' = dirs w ∧ files w' = files w
    ∧ calls w' = calls w ++ [Call_train_on_batch cm x ys].
Proof.
  intros Hx Hin Hout Hn.
  destruct (train_on_batch_run_3 cm x ys w b s Hx Hin Hout Hn)
    as (r0 & r1 & r2 & Hrun).
  eexists r0, r1, r2, _. split; [exact Hrun|]. by repeat split.
Qed.

End Loop.

(** ** The sample grid *)

Section Rendering.

Context {keras : Keras} {numpy : Numpy}.

Local Open Scope R_scope.

Lemma count_app (kind : event → bool) (a b : list event) :
  count kind (a ++ b) = (count kind a + count kind b)%nat.
Proof. unfold count. by rewrite List.filter_app, length_app. Qed.

Lemma count_sampling (kind : event → bool) (trace : list event) :
  (∀ e, is_sampling e = true → kind e = false) →
  Forall (λ e, is_sampling e = true) trace → count kind trace = 0%nat.
Proof.
  intros Hk. unfold count. induction 1 as [|e trace He _ IH]; [done|].
  cbn. by rewrite (Hk e He).
Qed.

Lemma init_generator (n : nat) :
  ∃ self tr input layers ws,
    init n = Some (self, (66 + n)%nat)
    ∧ generator self = Model tr input layers
    ∧ last layers = Some (Layer (Activation Tanh) ws).
Proof.
  eexists _, _, _, _, _. split; [vm_compute; reflexivity|].
  split; reflexivity.
Qed.

(** Whatever the weights are, the generator of a constructed [InfoGAN] only
    outputs values of [[-1, 1]]. *)
Lemma generator_range (n k : nat) (self : InfoGAN) (σ : gmap nat weight)
    (x y : tensor) :
  init n = Some (self, k) → predict (generator self) σ x = Some y →
  Forall (λ v, -1 <= v <= 1) (tdata y).
Proof.
  intros Hinit Hy.
  destruct (init_generator n) as (s & tr & input & layers & ws & Hs & Hg & Hl).
  rewrite Hinit in Hs. injection Hs as <- _. rewrite Hg in Hy.
  exact (predict_tanh_last tr input layers ws σ x y Hl Hy).
Qed.

Lemma to_categorical_replicate (r i n : nat) :
  (i < n)%nat →
  to_categorical (replicate r (Z.of_nat i)) n
  = Some (replicate r (<[i := 1]> (replicate n 0))).
Proof.
  intros Hi. unfold to_categorical. induction r as [|r IH]; [done|].
  cbn [replicate]. cbn [mapM]. rewrite one_hot_row_range by lia.
  rewrite Nat2Z.id. cbn. by rewrite IH.
Qed.

Lemma sample_generator_input_rng (B nv : nat) (w w' : world)
    (a : matrix * matrix) :
  sample_generator_input B nv w = Some (a, w') →
  rng w' = (rng w + B * nv + B)%nat.
Proof.
  unfold sample_generator_input. rewrite run_bind.
  unfold random_normal at 1. cbn beta iota zeta.
  rewrite run_bind. unfold random_randint at 1.
  destruct (decide (0 < Z.of_nat num_classes)%Z); [|done].
  cbn beta iota zeta. rewrite run_bind, run_lift.
  destruct (to_categorical _ _); [|done].
  intros H. injection H as _ <-. reflexivity.
Qed.

Lemma mapM_map_in {A B} (f : A → option B) (g : A → B) (l : list A) :
  Forall (λ x, f x = Some (g x)) l → mapM f l = Some (map g l).
Proof.
  induction 1 as [|x l Hx _ IH]; [reflexivity|].
  cbn [mapM map]. rewrite Hx. cbn [mbind option_bind]. rewrite IH.
  reflexivity.
Qed.

Lemma channel_0_run (t : tensor) (b h w c j : nat) :
  tshape t = [b; h; w; c] → (j < b)%nat → (0 < c)%nat →
  channel_0 t j
  = Some (Tensor [h; w]
            (map (λ p, nth ((j * (h * w) + p) * c) (tdata t) 0)
               (seq 0 (h * w)))).
Proof.
  intros Ht Hj Hc. unfold channel_0. rewrite Ht.
  destruct (decide (j < b ∧ 0 < c)%nat) as [_|Hno]; [reflexivity|].
  exfalso. apply Hno. split; assumption.
Qed.

(** The inner loop draws one panel for each of the first [r] images. *)
Lemma draw_column_run (t : tensor) (b h w c r : nat) :
  tshape t = [b; h; w; c] → (r ≤ b)%nat → (0 < c)%nat →
  draw_column t r
  = Some (map (λ j, Imshow
                      (Tensor [h; w]
                         (map (λ p, nth ((j * (h * w) + p) * c) (tdata t) 0)
                            (seq 0 (h * w))))
                      "brg")
            (seq 0 r)).
Proof.
  intros Ht Hr Hc. unfold draw_column. apply mapM_map_in.
  apply Forall_forall. intros j Hj. apply elem_of_seq in Hj.
  rewrite (channel_0_run t b h w c j Ht) by lia. reflexivity.
Qed.

Lemma nth_range (P : R → Prop) (l : list R) (i : nat) :
  P 0 → Forall P l → P (nth i l 0).
Proof.
  intros H0 Hl. destruct (nth_in_or_default i l 0) as [Hin| ->]; [|exact H0].
  rewrite Forall_forall in Hl. apply Hl, list_elem_of_In, Hin.
Qed.

Lemma concat_has_shape (B n : nat) (m : matrix) :
  Np.has_shape B n m → length (concat m) = (B * n)%nat.
Proof.
  intros [Hlen Hrows]. subst B.
  induction Hrows as [|row m Hrow _ IH]; [reflexivity|].
  cbn [concat length]. rewrite length_app, IH, Hrow. lia.
Qed.

(** An array that holds the entries of its shape has an entry at every place
    of channel 0 of every image. *)
Lemma channel_0_entry (data : list R) (b h w c j p : nat) :
  length data = (b * prod_dims [h; w; c])%nat →
  (j < b)%nat → (0 < c)%nat → (p < h * w)%nat →
  ∃ v, data !! ((j * (h * w) + p) * c)%nat = Some v.
Proof.
  intros Hlen Hj Hc Hp. apply lookup_lt_is_Some_2. rewrite Hlen.
  unfold prod_dims. cbn [fold_right]. rewrite Nat.mul_1_r.
  assert (H1 : (j * (h * w) + p < b * (h * w))%nat) by nia.
  replace (b * (h * (w * c)))%nat with (b * (h * w) * c)%nat by lia.
  apply Nat.mul_lt_mono_pos_r; [exact Hc|exact H1].
Qed.

(** One column of the grid. *)
Lemma sample_column_spec (n k : nat) (self : InfoGAN) (i : nat)
    (axs : list (list panel)) (w : world) :
  init n = Some (self, k) → (i < num_classes)%nat →
  ∃ column trace w',
    sample_column self 10 10 i axs w = Some (axs ++ [column], w')
    ∧ sampled_column self (store w) i column
    ∧ Forall (λ shows, Forall (λ v, 0 <= v <= 1) (tdata (shown shows)))
        column
    ∧ store w' = store w ∧ adam w' = adam w ∧ dirs w' = dirs w
    ∧ files w' = files w
    ∧ rng w' = (rng w + 1250)%nat
    ∧ calls w' = calls w ++ trace
    ∧ length trace = 3%nat
    ∧ Forall (λ e, is_sampling e = true) trace.
Proof.
  intros Hinit Hi.
  destruct (init_inv n k self Hinit) as (Hb & _).
  destruct (sample_generator_input_run 10 w)
    as (noise & y & labels & w1 & Hrun & Hn & _ & _ & Hs1 & Ha1 & Hd1 & Hf1
        & Hc1).
  pose proof (sample_generator_input_rng _ _ _ _ _ Hrun) as Hr1.
  pose proof (to_categorical_replicate 10 i num_classes Hi) as Hlabel.
  assert (Hls : Np.has_shape 10 num_classes
                  (replicate 10 (<[i := 1]> (replicate num_classes 0)))).
  { split; [apply length_replicate|]. apply replicate_Forall.
    by rewrite length_insert, length_replicate. }
  destruct (concatenate_shape 10 _ _ noise _ Hn Hls)
    as (latent & Hcat & Hlat).
  pose proof (as_tensor_shape (default_noise_variable + num_classes) latent
                _ _ Hlat) as Hgi.
  destruct (model_predict_frame (generator self) _ w1 10%nat
              [latent_dim] img_shape Hgi (built_generator_shape n self Hb))
    as (g & w2 & Hp & Hpred & Hgs & Hs2 & Hd2 & Hf2 & Hc2).
  pose proof (generator_range n k self _ _ _ Hinit Hpred) as Hrange.
  assert (Hw2 : w2 = World (store w1) (adam w1) (rng w1) (dirs w1) (files w1)
                       (calls w1 ++ [Call_predict (generator self)
                          (as_tensor (default_noise_variable + num_classes)
                             latent)])).
  { destruct (model_predict_run (generator self)
                (as_tensor (default_noise_variable + num_classes) latent)
                w1 10%nat [latent_dim] img_shape Hgi
                (built_generator_shape n self Hb))
      as (g' & _ & _ & Hp').
    rewrite Hp in Hp'. by injection Hp' as _ ->. }
  assert (Hdisplay : Forall (λ v, 0 <= v <= 1)
                       (map (λ v, 0.5 * v + 0.5) (tdata g))).
  { apply Forall_map. eapply Forall_impl; [exact Hrange|].
    intros v Hv. cbn beta in *. lra. }
  pose proof (draw_column_run
                (Tensor (tshape g) (map (λ v, 0.5 * v + 0.5) (tdata g)))
                10 img_rows img_cols channels 10 Hgs (le_n _)
                (Nat.lt_0_succ _)) as Hdraw.
  eexists _,
    [Call_normal 10 default_noise_variable noise;
     Call_randint 0 (Z.of_nat num_classes) 10 y;
     Call_predict (generator self)
       (as_tensor (default_noise_variable + num_classes) latent)], w2.
  split.
  { unfold sample_column. rewrite run_bind, Hrun. cbn beta iota.
    rewrite run_bind, run_lift, Hlabel, run_bind, run_lift, Hcat.
    rewrite run_bind, Hp. cbn beta iota zeta.
    rewrite run_bind, run_lift, Hdraw. reflexivity. }
  split.
  { exists noise, latent, g. split; [exact Hn|]. split; [exact Hcat|].
    split; [rewrite <- Hs1; exact Hpred|]. split; [exact Hgs|exact Hdraw]. }
  split.
  { apply Forall_map, Forall_true. intros j. cbn [shown tdata].
    apply Forall_map, Forall_true. intros p.
    apply (nth_range (λ v, 0 <= v <= 1)); [lra|exact Hdisplay]. }
  split; [by rewrite Hs2|]. split; [by rewrite Hw2|].
  split; [by rewrite Hd2|]. split; [by rewrite Hf2|].
  split.
  { rewrite Hw2. cbn [rng]. rewrite Hr1. unfold default_noise_variable. lia. }
  split; [rewrite Hc2, Hc1, <- app_assoc; reflexivity|].
  split; [reflexivity|]. repeat constructor.
Qed.

(** The columns for a list of classes, in order. *)
Lemma sample_columns_spec (n k : nat) (self : InfoGAN) (js : list nat) :
  init n = Some (self, k) → Forall (λ i, i < num_classes)%nat js →
  ∀ (axs : list (list panel)) (w : world),
  ∃ new trace w',
    for_each_prog js (sample_column self 10 10) axs w
    = Some (axs ++ new, w')
    ∧ Forall2 (sampled_column self (store w)) js new
    ∧ Forall (Forall (λ shows,
                Forall (λ v, 0 <= v <= 1) (tdata (shown shows)))) new
    ∧ store w' = store w ∧ adam w' = adam w ∧ dirs w' = dirs w
    ∧ files w' = files w
    ∧ rng w' = (rng w + 1250 * length js)%nat
    ∧ calls w' = calls w ++ trace
    ∧ length trace = (3 * length js)%nat
    ∧ Forall (λ e, is_sampling e = true) trace.
Proof.
  intros Hinit. induction 1 as [|i js Hi _ IH]; intros axs w.
  - exists [], [], w. rewrite !app_nil_r.
    split; [reflexivity|]. split; [constructor|]. split; [constructor|].
    split; [reflexivity|]. split; [reflexivity|]. split; [reflexivity|].
    split; [reflexivity|]. split; [cbn; lia|]. split; [reflexivity|].
    split; [reflexivity|]. constructor.
  - destruct (sample_column_spec n k self i axs w Hinit Hi)
      as (column & t1 & w1 & Hrun & Hcol & Hrg & Hs1 & Ha1 & Hd1 & Hf1
          & Hr1 & Hc1 & Hl1 & Hk1).
    destruct (IH (axs ++ [column]) w1)
      as (new & t2 & w2 & Hrest & Hcols & Hall & Hs2 & Ha2 & Hd2 & Hf2 & Hr2
          & Hc2 & Hl2 & Hk2).
    exists (column :: new), (t1 ++ t2), w2.
    split.
    { cbn [for_each_prog]. rewrite run_bind, Hrun, Hrest.
      by rewrite <- app_assoc. }
    split.
    { constructor; [exact Hcol|]. rewrite <- Hs1. exact Hcols. }
    split; [constructor; [exact Hrg|exact Hall]|].
    split; [congruence|]. split; [congruence|]. split; [congruence|].
    split; [congruence|].
    split; [rewrite Hr2, Hr1; cbn [length]; lia|].
    split; [rewrite Hc2, Hc1, <- app_assoc; reflexivity|].
    split; [rewrite length_app, Hl1, Hl2; cbn [length]; lia|].
    apply Forall_app. split; assumption.
Qed.

(** What [sample_images] does. *)
Lemma sample_images_spec (n k : nat) (self : InfoGAN) (epoch : nat)
    (w : world) :
  init n = Some (self, k) → "infoGANs/images"%string ∈ dirs w →
  ∃ columns trace w',
    sample_images self epoch w = Some ((), w')
    ∧ Forall2 (sampled_column self (store w)) (seq 0 10) columns
    ∧ Forall (Forall (λ shows,
                Forall (λ v, 0 <= v <= 1) (tdata (shown shows)))) columns
    ∧ files w'
      = <[("infoGANs/images" +:+ "/" +:+ (pretty epoch +:+ ".png"))%string
          := Png columns]> (files w)
    ∧ store w' = store w ∧ adam w' = adam w ∧ dirs w' = dirs w
    ∧ rng w' = (rng w + 1250 * 10)%nat
    ∧ calls w'
      = calls w ++ trace
        ++ [Call_savefig ("infoGANs/images/" +:+ pretty epoch +:+ ".png")]
    ∧ length trace = 30%nat
    ∧ Forall (λ e, is_sampling e = true) trace.
Proof.
  intros Hinit Hdir.
  assert (Hjs : Forall (λ i, i < num_classes)%nat (seq 0 10)).
  { apply Forall_forall. intros i Hi. apply elem_of_seq in Hi.
    unfold num_classes. lia. }
  destruct (sample_columns_spec n k self (seq 0 10) Hinit Hjs [] w)
    as (columns & trace & w1 & Hrun & Hcols & Hall & Hs1 & Ha1 & Hd1 & Hf1
        & Hr1 & Hc1 & Hl1 & Hk1).
  exists columns, trace. eexists. split.
  { unfold sample_images. cbn zeta. rewrite run_bind, Hrun.
    rewrite run_bind, write_file_run by (rewrite Hd1; exact Hdir).
    reflexivity. }
  cbn [store adam rng dirs files calls app].
  split; [exact Hcols|]. split; [exact Hall|].
  split; [by rewrite Hf1|]. split; [exact Hs1|]. split; [exact Ha1|].
  split; [exact Hd1|]. split; [rewrite Hr1; reflexivity|].
  split; [rewrite Hc1, <- app_assoc; reflexivity|].
  split; [exact Hl1|exact Hk1].
Qed.

(** The panels of a column, entry by entry, for an array that holds the
    entries of its shape. *)
Lemma draw_column_entries (g : tensor) (f : R → R) (b h w c r : nat)
    (column : list panel) :
  tshape g = [b; h; w; c] →
  length (tdata g) = (b * prod_dims [h; w; c])%nat →
  (r ≤ b)%nat → (0 < c)%nat →
  draw_column (Tensor (tshape g) (map f (tdata g))) r = Some column →
  length column = r
  ∧ ∀ (j : nat) (shows : panel),
      column !! j = Some shows →
      cmap shows = "brg"%string
      ∧ tshape (shown shows) = [h; w]
      ∧ length (tdata (shown shows)) = (h * w)%nat
      ∧ ∀ p, (p < h * w)%nat →
             ∃ v, tdata g !! ((j * (h * w) + p) * c)%nat = Some v
                  ∧ tdata (shown shows) !! p = Some (f v).
Proof.
  intros Hgs Hlen Hr Hc Hdraw.
  rewrite (draw_column_run (Tensor (tshape g) (map f (tdata g)))
             b h w c r Hgs Hr Hc) in Hdraw.
  apply (inj Some) in Hdraw. subst column.
  split; [by rewrite length_map, length_seq|].
  intros j shows Hj. rewrite list_lookup_fmap in Hj.
  destruct (seq 0 r !! j) as [j'|] eqn:Hj'; [|discriminate Hj].
  apply lookup_seq in Hj' as [-> Hjr].
  cbn [fmap option_fmap option_map] in Hj.
  apply (inj Some) in Hj. subst shows. cbn [cmap shown tshape tdata].
  split; [reflexivity|]. split; [reflexivity|].
  split; [by rewrite length_map, length_seq|].
  intros p Hp.
  destruct (channel_0_entry (tdata g) b h w c j p Hlen) as [v Hv];
    [lia|exact Hc|exact Hp|].
  exists v. split; [exact Hv|].
  rewrite list_lookup_fmap, lookup_seq_lt by exact Hp.
  cbn [fmap option_fmap option_map Nat.add]. f_equal.
  apply nth_lookup_Some. rewrite list_lookup_fmap, Hv. reflexivity.
Qed.

(** With layers that return the entries of the shape they declare, every
    entry of a panel is read from the generator's output. *)
Lemma sampled_column_grid (self : InfoGAN) (σ : gmap nat weight) (i : nat)
    (column : list panel) :
  shaped_numerics keras →
  sampled_column self σ i column → grid_column self σ i column.
Proof.
  intros Hlaw (noise & latent & g & Hn & Hcat & Hpred & Hgs & Hdraw).
  assert (Hi : Np.has_shape 10 num_classes
                 (replicate 10 (<[i := 1]> (replicate num_classes 0)))).
  { split; [apply length_replicate|]. apply replicate_Forall.
    by rewrite length_insert, length_replicate. }
  destruct (concatenate_shape 10 _ _ noise _ Hn Hi) as (z & Hz & Hlat).
  rewrite Hcat in Hz. apply (inj Some) in Hz. subst z.
  pose proof (concat_has_shape _ _ _ Hlat) as Hlen.
  pose proof (as_tensor_shape (default_noise_variable + num_classes) latent
                _ _ Hlat) as Hx.
  destruct (predict_length (generator self) σ Hlaw _ g 10%nat
              [(default_noise_variable + num_classes)%nat] Hx)
    as (s' & Hs' & Hl'); [|exact Hpred|].
  { cbn [as_tensor tdata]. rewrite Hlen. unfold prod_dims.
    cbn [fold_right]. lia. }
  rewrite Hgs in Hs'. apply (inj (cons 10%nat)) in Hs'. subst s'.
  destruct (draw_column_entries g (λ v, 0.5 * v + 0.5) 10 img_rows img_cols
              channels 10 column Hgs Hl' (le_n _) (Nat.lt_0_succ _) Hdraw)
    as (Hcl & Hpanels).
  exists noise, latent, g.
  split; [exact Hn|]. split; [exact Hcat|]. split; [exact Hpred|].
  split; [exact Hcl|exact Hpanels].
Qed.

(** X2. [sample_images] on a constructed [InfoGAN] writes the figure of the
    epoch, a grid of ten columns of ten panels.  Column [i] is drawn from
    what the generator makes, under the current weights, of ten rows of
    noise each glued to the one-hot code of class [i]; panel [j] of the
    column shows channel 0 of image [j] of that batch, 32 by 32 values
    moved by [0.5 * v + 0.5], through the colour map ["brg"]; every value
    shown lies in [[0, 1]].  The call changes no weight and not the
    optimizer, but it consumes 12500 draws of the random generator.  (The
    layers of the framework are taken to return the entries of the shape
    they declare.) *)
Theorem sample_images_grid (n k : nat) (self : InfoGAN) (epoch : nat)
    (w : world) :
  shaped_numerics keras →
  init n = Some (self, k) → "infoGANs/images"%string ∈ dirs w →
  ∃ axs w',
    sample_images self epoch w = Some ((), w')
    ∧ Forall2 (grid_column self (store w)) (seq 0 10) axs
    ∧ Forall (Forall (λ shows,
                Forall (λ v, 0 <= v <= 1) (tdata (shown shows)))) axs
    ∧ files w'
      = <[("infoGANs/images" +:+ "/" +:+ (pretty epoch +:+ ".png"))%string
          := Png axs]> (files w)
    ∧ store w' = store w ∧ adam w' = adam w ∧ dirs w' = dirs w
    ∧ rng w' = (rng w + 1250 * 10)%nat
    ∧ count is_train_on_batch (calls w') = count is_train_on_batch (calls w)
    ∧ count is_savefig (calls w') = S (count is_savefig (calls w)).
Proof.
  intros Hlaw Hinit Hdir.
  destruct (sample_images_spec n k self epoch w Hinit Hdir)
    as (columns & trace & w' & Hrun & Hcols & Hall & Hf & Hs & Ha & Hd & Hr
        & Hc & _ & Hk).
  exists columns, w'.
  split; [exact Hrun|].
  split.
  { eapply Forall2_impl; [exact Hcols|]. intros i column Hcol.
    exact (sampled_column_grid self (store w) i column Hlaw Hcol). }
  split; [exact Hall|].
  split; [exact Hf|]. split; [exact Hs|]. split; [exact Ha|].
  split; [exact Hd|]. split; [exact Hr|].
  rewrite Hc, !count_app.
  assert (Ht : count is_train_on_batch trace = 0%nat).
  { apply count_sampling; [by intros []|exact Hk]. }
  assert (Hv : count is_savefig trace = 0%nat).
  { apply count_sampling; [by intros []|exact Hk]. }
  rewrite Ht, Hv. cbn. split; lia.
Qed.

End Rendering.

Lemma sample_images_grid_witness :
  ∃ self k w',
    shaped_numerics Example.shaped_keras
    ∧ init 0%nat = Some (self, k)
    ∧ "infoGANs/images"%string ∈ dirs Example.shaped_world
    ∧ sample_images (keras := Example.shaped_keras)
        (numpy := Example.numpy) self 0 Example.shaped_world
      = Some ((), w').
Proof.
  eassert (Hinit : init 0%nat = Some (_, _)) by (vm_compute; reflexivity).
  assert (Hdir : "infoGANs/images"%string ∈ dirs Example.shaped_world).
  { unfold Example.shaped_world. cbn [dirs].
    apply elem_of_union_l, elem_of_singleton. reflexivity. }
  destruct (sample_images_grid (keras := Example.shaped_keras)
              (numpy := Example.numpy) _ _ _ 0 Example.shaped_world
              shaped_keras_numerics Hinit Hdir)
    as (axs & w' & Hrun & _).
  eexists _, _, w'. split; [exact shaped_keras_numerics|].
  split; [exact Hinit|]. split; [exact Hdir | exact Hrun].
Defined.

(** ** The training loop *)

Section Epochs.

Context {keras : Keras} {numpy : Numpy}.

Local Open Scope R_scope.

(** Everything one iteration does. *)
Lemma train_iteration_run (n k : nat) (self : InfoGAN) (X_train : matrix)
    (batch_size : nat) (sample_interval : Z) (epoch : nat) (w : world) :
  init n = Some (self, k) →
  X_train ≠ [] →
  sample_interval ≠ 0%Z →
  "infoGANs/images"%string ∈ dirs w →
  ∃ idx imgs noise y labels latent gen_imgs r0 r1 f0 f1 t g1 g2
    wa wb wc wd w' rendering,
    train_iteration self img_shape X_train
      (adversarial_ground_truths batch_size).1
      (adversarial_ground_truths batch_size).2 batch_size
      sample_interval epoch w = Some ((), w')
    ∧ mapM (λ i, X_train !! Z.to_nat i) idx = Some imgs
    ∧ Forall one_hot labels
    ∧ Np.concatenate_axis1 noise labels = Some latent
    ∧ predict (generator self) (store w)
        (as_tensor (default_noise_variable + num_classes) latent)
      = Some gen_imgs
    ∧ store wa = store w
    ∧ calls wa
      = calls w
        ++ [Call_randint 0 (Z.of_nat (length X_train)) batch_size idx;
            Call_normal batch_size default_noise_variable noise;
            Call_randint 0 (Z.of_nat num_classes) batch_size y;
            Call_predict (generator self)
              (as_tensor (default_noise_variable + num_classes) latent)]
    ∧ train_on_batch (discriminator self)
        (Tensor (batch_size :: img_shape) (concat imgs))
        [as_tensor channels (adversarial_ground_truths batch_size).1] wa
      = Some ([r0; r1], wb)
    ∧ train_on_batch (discriminator self) gen_imgs
        [as_tensor channels (adversarial_ground_truths batch_size).2] wb
      = Some ([f0; f1], wc)
    ∧ train_on_batch (combined self)
        (as_tensor (default_noise_variable + num_classes) latent)
        [as_tensor channels (adversarial_ground_truths batch_size).1;
         as_tensor num_classes labels] wc
      = Some ([t; g1; g2], wd)
    ∧ calls w'
      = calls wd
        ++ [Call_print epoch (0.5 * (r0 + f0)) (100 * (0.5 * (r1 + f1))) g1 g2]
        ++ rendering
    ∧ (if decide ((Z.of_nat epoch `mod` sample_interval)%Z = 0%Z)
       then ∃ columns trace,
              rendering
              = trace ++ [Call_savefig
                            ("infoGANs/images/" +:+ pretty epoch +:+ ".png")]
              ∧ files w'
                = <[("infoGANs/images" +:+ "/"
                     +:+ (pretty epoch +:+ ".png"))%string
                    := Png columns]> (files w)
       else rendering = [] ∧ files w' = files w)
    ∧ dirs w' = dirs w
    ∧ calls wd
      = calls wa
        ++ [Call_train_on_batch (discriminator self)
              (Tensor (batch_size :: img_shape) (concat imgs))
              [as_tensor channels (adversarial_ground_truths batch_size).1];
            Call_train_on_batch (discriminator self) gen_imgs
              [as_tensor channels (adversarial_ground_truths batch_size).2];
            Call_train_on_batch (combined self)
              (as_tensor (default_noise_variable + num_classes) latent)
              [as_tensor channels (adversarial_ground_truths batch_size).1;
               as_tensor num_classes labels]]
    ∧ count is_train_on_batch rendering = 0%nat
    ∧ count is_print rendering = 0%nat
    ∧ count is_savefig rendering
      = (if decide ((Z.of_nat epoch `mod` sample_interval)%Z = 0%Z)
         then 1 else 0)%nat.
Proof.
  intros Hinit HX Hint Hdir.
  destruct (init_inv n k self Hinit) as (Hb & HnD & HnC).
  assert (HN : (0 < Z.of_nat (length X_train))%Z).
  { clear -HX. destruct X_train; [done|]. cbn [length]. lia. }
  destruct (random_randint_range 0 (Z.of_nat (length X_train)) batch_size w
              HN)
    as (idx & w1 & Hidx & Hil & Hir & Hs1 & Ha1 & Hd1 & Hf1 & Hc1).
  destruct (gather_rows X_train idx Hir) as (imgs & Himgs & Hlen).
  destruct (sample_generator_input_run batch_size w1)
    as (noise & y & labels & w2 & Hsample & Hns & Hls & Hhot & Hs2 & Ha2
        & Hd2 & Hf2 & Hc2).
  destruct (concatenate_shape batch_size _ _ noise labels Hns Hls)
    as (latent & Hcat & Hlat).
  pose proof (as_tensor_shape (default_noise_variable + num_classes) latent
                _ _ Hlat) as Hgi.
  destruct (model_predict_frame (generator self) _ w2 batch_size
              [latent_dim] img_shape Hgi (built_generator_shape n self Hb))
    as (gen_imgs & wa & Hp & Hpred & Hgs & Hsa & Hda & Hfa & Hca).
  pose proof (full_has_shape batch_size channels 1) as Hvalid.
  pose proof (full_has_shape batch_size channels 0) as Hfake.
  pose proof (as_tensor_shape channels _ _ _ Hvalid) as Hvs.
  pose proof (as_tensor_shape channels _ _ _ Hfake) as Hfs.
  pose proof (as_tensor_shape num_classes _ _ _ Hls) as Hlsh.
  destruct (train_on_batch_frame_2 (discriminator self)
              (Tensor (batch_size :: img_shape) (concat imgs))
              [as_tensor channels (adversarial_ground_truths batch_size).1]
              wa batch_size img_shape eq_refl
              (built_discriminator_input n self Hb))
    as (r0 & r1 & wb & Hreal & Hdb & Hfb & Hcb); [|exact HnD|].
  { rewrite (built_discriminator_outputs n self Hb). cbn [map].
    f_equal. exact Hvs. }
  destruct (train_on_batch_frame_2 (discriminator self) gen_imgs
              [as_tensor channels (adversarial_ground_truths batch_size).2]
              wb batch_size img_shape Hgs
              (built_discriminator_input n self Hb))
    as (f0 & f1 & wc & Hfk & Hdc & Hfc & Hcc); [|exact HnD|].
  { rewrite (built_discriminator_outputs n self Hb). cbn [map].
    f_equal. exact Hfs. }
  destruct (train_on_batch_frame_3 (combined self)
              (as_tensor (default_noise_variable + num_classes) latent)
              [as_tensor channels (adversarial_ground_truths batch_size).1;
               as_tensor num_classes labels]
              wc batch_size [latent_dim] Hgi
              (built_combined_input n self Hb))
    as (t & g1 & g2 & wd & Hcomb & Hdd & Hfd & Hcd); [|exact HnC|].
  { rewrite (built_combined_outputs n self Hb). cbn [map].
    f_equal; [exact Hvs|]. f_equal. exact Hlsh. }
  pose proof (train_iteration_unfold self X_train _ _ batch_size
                sample_interval epoch idx imgs noise labels latent gen_imgs
                r0 r1 f0 f1 t g1 g2 w w1 w2 wa wb wc wd
                Hidx Himgs Hsample Hcat Hp Hreal Hfk Hcomb) as Hrun.
  destruct (decide (sample_interval = 0%Z)) as [Hz|_] in Hrun;
    [exact (False_ind _ (Hint Hz))|].
  assert (Hdw : dirs wd = dirs w).
  { rewrite Hdd, Hdc, Hdb, Hda, Hd2, Hd1. reflexivity. }
  assert (Hdire : "infoGANs/images"%string ∈ dirs wd).
  { rewrite Hdw. exact Hdir. }
  assert (Hfw : files wd = files w).
  { rewrite Hfd, Hfc, Hfb, Hfa, Hf2, Hf1. reflexivity. }
  assert (Hcw : calls wa
                = calls w
                  ++ [Call_randint 0 (Z.of_nat (length X_train)) batch_size
                        idx;
                      Call_normal batch_size default_noise_variable noise;
                      Call_randint 0 (Z.of_nat num_classes) batch_size y;
                      Call_predict (generator self)
                        (as_tensor (default_noise_variable + num_classes)
                           latent)]).
  { rewrite Hca, Hc2, Hc1, <- !app_assoc. reflexivity. }
  assert (Hpw : predict (generator self) (store w)
                  (as_tensor (default_noise_variable + num_classes) latent)
                = Some gen_imgs).
  { rewrite <- Hs1, <- Hs2. exact Hpred. }
  assert (Hsw : store wa = store w).
  { rewrite Hsa, Hs2, Hs1. reflexivity. }
  assert (Htr : calls wd
      = calls wa
        ++ [Call_train_on_batch (discriminator self)
              (Tensor (batch_size :: img_shape) (concat imgs))
              [as_tensor channels (adversarial_ground_truths batch_size).1];
            Call_train_on_batch (discriminator self) gen_imgs
              [as_tensor channels (adversarial_ground_truths batch_size).2];
            Call_train_on_batch (combined self)
              (as_tensor (default_noise_variable + num_classes) latent)
              [as_tensor channels (adversarial_ground_truths batch_size).1;
               as_tensor num_classes labels]]).
  { rewrite Hcd, Hcc, Hcb, <- !app_assoc. reflexivity. }
  destruct (decide ((Z.of_nat epoch `mod` sample_interval)%Z = 0%Z))
    as [Hmul|Hnot].
  - destruct (sample_images_spec n k self epoch
                (World (store wd) (adam wd) (rng wd) (dirs wd) (files wd)
                   (calls wd
                    ++ [Call_print epoch (0.5 * (r0 + f0))
                          (100 * (0.5 * (r1 + f1))) g1 g2]))
                Hinit Hdire)
      as (columns & trace & w' & Hrender & _ & _ & Hfr & _ & _ & Hdr & _
          & Hcr & _ & Hkr).
    rewrite Hrender in Hrun. cbn [files calls dirs] in Hfr, Hcr, Hdr.
    assert (Ht0 : count is_train_on_batch trace = 0%nat).
    { apply count_sampling; [by intros []|exact Hkr]. }
    assert (Hp0 : count is_print trace = 0%nat).
    { apply count_sampling; [by intros []|exact Hkr]. }
    assert (Hs0 : count is_savefig trace = 0%nat).
    { apply count_sampling; [by intros []|exact Hkr]. }
    exists idx, imgs, noise, y, labels, latent, gen_imgs, r0, r1, f0, f1, t,
      g1, g2, wa, wb, wc, wd, w',
      (trace ++ [Call_savefig
                   ("infoGANs/images/" +:+ pretty epoch +:+ ".png")]).
    split; [exact Hrun|].
    split; [exact Himgs|]. split; [exact Hhot|]. split; [exact Hcat|].
    split; [exact Hpw|]. split; [exact Hsw|]. split; [exact Hcw|].
    split; [exact Hreal|]. split; [exact Hfk|]. split; [exact Hcomb|].
    split.
    { rewrite Hcr, <- !app_assoc. reflexivity. }
    split.
    { exists columns, trace. split; [reflexivity|].
      rewrite Hfr, Hfw. reflexivity. }
    split; [rewrite Hdr; exact Hdw|]. split; [exact Htr|].
    rewrite !count_app, Ht0, Hp0, Hs0. repeat split; reflexivity.
  - eexists idx, imgs, noise, y, labels, latent, gen_imgs, r0, r1, f0, f1, t,
      g1, g2, wa, wb, wc, wd, _, [].
    split; [exact Hrun|].
    split; [exact Himgs|]. split; [exact Hhot|]. split; [exact Hcat|].
    split; [exact Hpw|]. split; [exact Hsw|]. split; [exact Hcw|].
    split; [exact Hreal|]. split; [exact Hfk|]. split; [exact Hcomb|].
    split.
    { cbn [calls]. rewrite app_nil_r. reflexivity. }
    split.
    { split; [reflexivity|]. cbn [files]. exact Hfw. }
    split; [cbn [dirs]; exact Hdw|]. split; [exact Htr|].
    repeat split; reflexivity.
Qed.

(** X1. One iteration of the training loop, in the order of the calls it makes:
    a batch of real images is drawn; noise and one-hot labels are sampled
    and the generator predicts fake images from them; the discriminator is
    updated on the real images against [valid] and then on the fake images
    against [fake]; the combined model is updated on the sampled input
    against [valid] and the sampled labels; the halved sum of the two
    discriminator results is printed; and the sample grid is rendered
    exactly when [epoch % sample_interval == 0]. *)
Theorem train_iteration_steps (n k : nat) (self : InfoGAN) (X_train : matrix)
    (batch_size : nat) (sample_interval : Z) (epoch : nat) (w : world) :
  init n = Some (self, k) →
  X_train ≠ [] →
  sample_interval ≠ 0%Z →
  "infoGANs/images"%string ∈ dirs w →
  ∃ idx imgs noise y labels latent gen_imgs r0 r1 f0 f1 t g1 g2
    wa wb wc wd w' rendering,
    train_iteration self img_shape X_train
      (adversarial_ground_truths batch_size).1
      (adversarial_ground_truths batch_size).2 batch_size
      sample_interval epoch w = Some ((), w')
    ∧ mapM (λ i, X_train !! Z.to_nat i) idx = Some imgs
    ∧ Forall one_hot labels
    ∧ Np.concatenate_axis1 noise labels = Some latent
    ∧ predict (generator self) (store w)
        (as_tensor (default_noise_variable + num_classes) latent)
      = Some gen_imgs
    ∧ store wa = store w
    ∧ calls wa
      = calls w
        ++ [Call_randint 0 (Z.of_nat (length X_train)) batch_size idx;
            Call_normal batch_size default_noise_variable noise;
            Call_randint 0 (Z.of_nat num_classes) batch_size y;
            Call_predict (generator self)
              (as_tensor (default_noise_variable + num_classes) latent)]
    ∧ train_on_batch (discriminator self)
        (Tensor (batch_size :: img_shape) (concat imgs))
        [as_tensor channels (adversarial_ground_truths batch_size).1] wa
      = Some ([r0; r1], wb)
    ∧ train_on_batch (discriminator self) gen_imgs
        [as_tensor channels (adversarial_ground_truths batch_size).2] wb
      = Some ([f0; f1], wc)
    ∧ train_on_batch (combined self)
        (as_tensor (default_noise_variable + num_classes) latent)
        [as_tensor channels (adversarial_ground_truths batch_size).1;
         as_tensor num_classes labels] wc
      = Some ([t; g1; g2], wd)
    ∧ calls w'
      = calls wd
        ++ [Call_print epoch (0.5 * (r0 + f0)) (100 * (0.5 * (r1 + f1))) g1 g2]
        ++ rendering
    ∧ if decide ((Z.of_nat epoch `mod` sample_interval)%Z = 0%Z)
      then ∃ columns trace,
             rendering
             = trace ++ [Call_savefig
                           ("infoGANs/images/" +:+ pretty epoch +:+ ".png")]
             ∧ files w'
               = <[("infoGANs/images" +:+ "/"
                    +:+ (pretty epoch +:+ ".png"))%string
                   := Png columns]> (files w)
      else rendering = [] ∧ files w' = files w.
Proof.
  intros Hinit HX Hint Hdir.
  destruct (train_iteration_run n k self X_train batch_size sample_interval
              epoch w Hinit HX Hint Hdir)
    as (idx & imgs & noise & y & labels & latent & gen_imgs & r0 & r1 & f0
        & f1 & t & g1 & g2 & wa & wb & wc & wd & w' & rendering & H1 & H2
        & H3 & H4 & H5 & H6 & H7 & H8 & H9 & H10 & H11 & H12 & _).
  exists idx, imgs, noise, y, labels, latent, gen_imgs, r0, r1, f0, f1, t,
    g1, g2, wa, wb, wc, wd, w', rendering.
  split; [exact H1|]. split; [exact H2|]. split; [exact H3|].
  split; [exact H4|]. split; [exact H5|]. split; [exact H6|].
  split; [exact H7|]. split; [exact H8|]. split; [exact H9|].
  split; [exact H10|]. split; [exact H11|]. exact H12.
Qed.

(** The iterations [first, first + 1, ...] of the loop. *)
Lemma train_iterations_run (n k : nat) (self : InfoGAN) (X_train : matrix)
    (batch_size : nat) (sample_interval : Z) :
  init n = Some (self, k) →
  X_train ≠ [] →
  sample_interval ≠ 0%Z →
  ∀ (epochs first : nat) (w : world),
  "infoGANs/images"%string ∈ dirs w →
  ∃ trace w',
    for_each_prog (seq first epochs)
      (λ epoch _,
         train_iteration self img_shape X_train
           (adversarial_ground_truths batch_size).1
           (adversarial_ground_truths batch_size).2 batch_size
           sample_interval epoch) () w
    = Some ((), w')
    ∧ calls w' = calls w ++ trace
    ∧ count is_train_on_batch trace = (3 * epochs)%nat
    ∧ count is_print trace = epochs
    ∧ count is_savefig trace
      = length (filter (λ e, (Z.of_nat e `mod` sample_interval)%Z = 0%Z)
                  (seq first epochs))
    ∧ dirs w' = dirs w
    ∧ (∀ p, p ∈ dom (files w')
           ↔ p ∈ dom (files w)
             ∨ ∃ e, (first ≤ e < first + epochs)%nat
                    ∧ (Z.of_nat e `mod` sample_interval)%Z = 0%Z
                    ∧ p = ("infoGANs/images/" +:+ pretty e +:+ ".png")%string)
    ∧ ∀ p, (∀ e, (first ≤ e < first + epochs)%nat →
                 (Z.of_nat e `mod` sample_interval)%Z = 0%Z →
                 p ≠ ("infoGANs/images/" +:+ pretty e +:+ ".png")%string) →
           files w' !! p = files w !! p.
Proof.
  intros Hinit HX Hint. induction epochs as [|epochs IH]; intros first w Hdir.
  - exists [], w. rewrite app_nil_r. cbn [seq for_each_prog].
    split; [reflexivity|]. split; [reflexivity|]. split; [reflexivity|].
    split; [reflexivity|]. split; [reflexivity|]. split; [reflexivity|].
    split; [|reflexivity].
    intros p. split; [by left|]. intros [Hp|(e & He & _)]; [exact Hp|lia].
  - destruct (train_iteration_run n k self X_train batch_size sample_interval
                first w Hinit HX Hint Hdir)
      as (idx & imgs & noise & y & labels & latent & gen_imgs & r0 & r1 & f0
          & f1 & t & g1 & g2 & wa & wb & wc & wd & w1 & rendering & Hrun & _
          & _ & _ & _ & _ & Hca & _ & _ & _ & Hc1 & Hfiles & Hd1 & Hcd & Ht
          & Hp & Hs).
    assert (Hdir1 : "infoGANs/images"%string ∈ dirs w1).
    { rewrite Hd1. exact Hdir. }
    destruct (IH (S first) w1 Hdir1)
      as (trace & w' & Hrest & Hc' & Ht' & Hp' & Hs' & Hd' & Hf' & Ho').
    eexists _, w'. split.
    { cbn [seq for_each_prog]. rewrite run_bind, Hrun. exact Hrest. }
    split.
    { rewrite Hc', Hc1, Hcd, Hca, <- !app_assoc. reflexivity. }
    split.
    { rewrite !count_app, Ht, Ht'. cbn. lia. }
    split.
    { rewrite !count_app, Hp, Hp'. cbn. lia. }
    split.
    { rewrite !count_app, Hs, Hs'. cbn [seq]. rewrite filter_cons.
      destruct (decide ((Z.of_nat first `mod` sample_interval)%Z = 0%Z));
        cbn; lia. }
    split; [rewrite Hd'; exact Hd1|].
    split.
    2:{ intros p Hp1. rewrite Ho'.
        2:{ intros e He Hm. apply Hp1; [lia|exact Hm]. }
        destruct (decide ((Z.of_nat first `mod` sample_interval)%Z = 0%Z))
          as [Hm|Hm].
        - destruct Hfiles as (columns & tr & _ & ->).
          apply lookup_insert_ne. intros Heq. symmetry in Heq. revert Heq.
          apply Hp1; [lia|exact Hm].
        - destruct Hfiles as [_ ->]. reflexivity. }
    intros p. rewrite Hf'. clear Hf' Ho' Hrest Hrun.
    assert (Hnow : p ∈ dom (files w1)
              ↔ p ∈ dom (files w)
                ∨ ((Z.of_nat first `mod` sample_interval)%Z = 0%Z
                   ∧ p = ("infoGANs/images/" +:+ pretty first
                          +:+ ".png")%string)).
    { destruct (decide ((Z.of_nat first `mod` sample_interval)%Z = 0%Z))
        as [Hm|Hm].
      - destruct Hfiles as (columns & tr & _ & ->).
        rewrite dom_insert, elem_of_union, elem_of_singleton.
        split.
        + intros [->|Hin]; [right; split; [exact Hm|reflexivity]|by left].
        + intros [Hin|[_ ->]]; [by right|left; reflexivity].
      - destruct Hfiles as [_ ->]. split; [by left|].
        intros [Hin|[Hm' _]]; [exact Hin|exact (False_ind _ (Hm Hm'))]. }
    rewrite Hnow. split.
    + intros [[Hin|[Hm ->]]|(e & He & Hm & ->)].
      * by left.
      * right. exists first. split; [lia|]. split; [exact Hm|reflexivity].
      * right. exists e. split; [lia|]. split; [exact Hm|reflexivity].
    + intros [Hin|(e & He & Hm & ->)]; [by left; left|].
      destruct (decide (e = first)) as [->|Hne].
      * left. right. split; [exact Hm|reflexivity].
      * right. exists e. split; [lia|]. split; [exact Hm|reflexivity].
Qed.

(** The whole of [train]. *)
Lemma train_run (n k : nat) (self : InfoGAN) (cifar10 : dataset)
    (epochs batch_size : nat) (sample_interval : Z) (w : world) :
  init n = Some (self, k) →
  x_shape cifar10 = img_shape →
  x_rows cifar10 ≠ [] →
  sample_interval ≠ 0%Z →
  "infoGANs/images"%string ∈ dirs w →
  ∃ trace w',
    train self cifar10 epochs batch_size sample_interval w = Some ((), w')
    ∧ calls w' = calls w ++ trace
    ∧ count is_train_on_batch trace = (3 * epochs)%nat
    ∧ count is_print trace = epochs
    ∧ count is_savefig trace
      = length (filter (λ e, (Z.of_nat e `mod` sample_interval)%Z = 0%Z)
                  (seq 0 epochs))
    ∧ dirs w' = dirs w
    ∧ (∀ p, p ∈ dom (files w')
           ↔ p ∈ dom (files w)
             ∨ ∃ e, (e < epochs)%nat
                    ∧ (Z.of_nat e `mod` sample_interval)%Z = 0%Z
                    ∧ p = ("infoGANs/images/" +:+ pretty e +:+ ".png")%string)
    ∧ ∀ p, (∀ e, (e < epochs)%nat →
                 (Z.of_nat e `mod` sample_interval)%Z = 0%Z →
                 p ≠ ("infoGANs/images/" +:+ pretty e +:+ ".png")%string) →
           files w' !! p = files w !! p.
Proof.
  intros Hinit Hshape Hrows Hint Hdir.
  assert (HX : rescale (x_rows cifar10) ≠ []).
  { clear -Hrows. destruct (x_rows cifar10); [done|]. discriminate. }
  destruct (train_iterations_run n k self (rescale (x_rows cifar10))
              batch_size sample_interval Hinit HX Hint epochs 0%nat
              (World (store w) (adam w) (rng w) (dirs w) (files w)
                 ((calls w
                   ++ [Call_print_shape
                         (length (x_rows cifar10) :: x_shape cifar10)])
                  ++ [Call_print_shape
                        (length (rescale (x_rows cifar10))
                         :: x_shape cifar10)])) Hdir)
    as (trace & w' & Hrun & Hc & Ht & Hp & Hs & Hd & Hf & Ho).
  cbn [calls dirs files] in Hc, Hd, Hf, Ho.
  eexists _, w'. split.
  { unfold train. rewrite run_bind. cbn [log]. rewrite run_bind.
    cbn [log store adam rng dirs files calls adversarial_ground_truths].
    rewrite Hshape. rewrite Hshape in Hrun. exact Hrun. }
  split; [rewrite Hc, <- !app_assoc; reflexivity|].
  split; [rewrite !count_app, Ht; reflexivity|].
  split; [rewrite !count_app, Hp; reflexivity|].
  split; [rewrite !count_app, Hs; reflexivity|].
  split; [exact Hd|].
  split.
  2:{ intros p Hp1. apply Ho. intros e He Hm. apply Hp1; [lia|exact Hm]. }
  intros p. rewrite Hf. split.
  - intros [Hin|(e & He & Hm & ->)]; [by left|].
    right. exists e. split; [lia|]. split; [exact Hm|reflexivity].
  - intros [Hin|(e & He & Hm & ->)]; [by left|].
    right. exists e. split; [lia|]. split; [exact Hm|reflexivity].
Qed.


(** X3. Once [cifar10.load_data()] has supplied a data set of 32 by 32 by 3
    images that is not empty, with a batch size and an interval that are
    not 0 and the directory [infoGANs/images] in place, the rest of [train]
    runs all its epochs without raising.  It makes exactly three training
    updates and prints one line of progress per epoch, renders the grid once
    for every epoch that is a multiple of the interval, and the figures of
    these epochs are the only files it adds or changes.  (What
    [load_data] itself does to the disk is not part of the statement.) *)
Theorem train_completes (n k : nat) (self : InfoGAN) (cifar10 : dataset)
    (epochs batch_size : nat) (sample_interval : Z) (w : world) :
  init n = Some (self, k) →
  (0 < batch_size)%nat →
  x_shape cifar10 = img_shape →
  x_rows cifar10 ≠ [] →
  sample_interval ≠ 0%Z →
  "infoGANs/images"%string ∈ dirs w →
  ∃ trace w',
    train self cifar10 epochs batch_size sample_interval w = Some ((), w')
    ∧ calls w' = calls w ++ trace
    ∧ count is_train_on_batch trace = (3 * epochs)%nat
    ∧ count is_print trace = epochs
    ∧ count is_savefig trace
      = length (filter (λ e, (Z.of_nat e `mod` sample_interval)%Z = 0%Z)
                  (seq 0 epochs))
    ∧ dirs w' = dirs w
    ∧ (∀ p, p ∈ dom (files w')
           ↔ p ∈ dom (files w)
             ∨ ∃ e, (e < epochs)%nat
                    ∧ (Z.of_nat e `mod` sample_interval)%Z = 0%Z
                    ∧ p = ("infoGANs/images/" +:+ pretty e +:+ ".png")%string)
    ∧ ∀ p, (∀ e, (e < epochs)%nat →
                 (Z.of_nat e `mod` sample_interval)%Z = 0%Z →
                 p ≠ ("infoGANs/images/" +:+ pretty e +:+ ".png")%string) →
           files w' !! p = files w !! p.
Proof.
  intros Hinit _ Hshape Hrows Hint Hdir.
  exact (train_run n k self cifar10 epochs batch_size sample_interval w
           Hinit Hshape Hrows Hint Hdir).
Qed.

(** X11. The script run as a program trains for 50000 epochs and stops: it
    makes 150000 training updates, and the sample figures are all that it
    leaves behind.  [save_model] is never called: every path under
    [infoGANs/saved_model] holds after the run what it held before, so none
    of the trained weights is stored. *)
Theorem main_never_saves (cifar10 : dataset) (w : world) :
  x_shape cifar10 = img_shape →
  x_rows cifar10 ≠ [] →
  "infoGANs/images"%string ∈ dirs w →
  ∃ trace w',
    main cifar10 w = Some ((), w')
    ∧ calls w' = calls w ++ trace
    ∧ count is_train_on_batch trace = (3 * 50000)%nat
    ∧ count is_print trace = 50000%nat
    ∧ ∀ name,
        files w' !! ("infoGANs/saved_model/" +:+ name)%string
        = files w !! ("infoGANs/saved_model/" +:+ name)%string.
Proof.
  intros Hshape Hrows Hdir.
  destruct (init_built 0) as (self & Hinit & _).
  assert (Hint : 50%Z ≠ 0%Z) by lia.
  destruct (train_run 0 _ self cifar10 50000 128 50 w Hinit Hshape Hrows
              Hint Hdir)
    as (trace & w' & Hrun & Hc & Ht & Hp & _ & _ & _ & Ho).
  exists trace, w'. split.
  { unfold main. rewrite Hinit. exact Hrun. }
  split; [exact Hc|]. split; [exact Ht|]. split; [exact Hp|].
  intros name. apply Ho. intros e _ _ Heq.
  cbn [String.append] in Heq. discriminate Heq.
Qed.

End Epochs.

Lemma train_iteration_steps_witness :
  ∃ self k w',
    init 0%nat = Some (self, k)
    ∧ [[0%R]] ≠ ([] : matrix)
    ∧ 1%Z ≠ 0%Z
    ∧ "infoGANs/images"%string ∈ dirs Example.empty_world
    ∧ train_iteration (keras := Example.keras) (numpy := Example.numpy)
        self img_shape [[0%R]] (adversarial_ground_truths 2).1
        (adversarial_ground_truths 2).2 2 1 0 Example.empty_world
      = Some ((), w').
Proof.
  eassert (Hinit : init 0%nat = Some (_, _)) by (vm_compute; reflexivity).
  assert (HX : [[0%R]] ≠ ([] : matrix)) by discriminate.
  assert (Hint : 1%Z ≠ 0%Z) by lia.
  assert (Hdir : "infoGANs/images"%string ∈ dirs Example.empty_world).
  { unfold Example.empty_world. cbn [dirs].
    apply elem_of_union_l, elem_of_singleton. reflexivity. }
  destruct (train_iteration_steps (keras := Example.keras)
              (numpy := Example.numpy) _ _ _ [[0%R]] 2 1 0
              Example.empty_world Hinit HX Hint Hdir)
    as (idx & imgs & noise & y & labels & latent & gen_imgs & r0 & r1 & f0
        & f1 & t & g1 & g2 & wa & wb & wc & wd & w' & rendering & Hrun & _).
  eexists _, _, w'.
  split; [exact Hinit|]. split; [exact HX|]. split; [exact Hint|].
  split; [exact Hdir | exact Hrun].
Defined.

Lemma train_completes_witness :
  ∃ self k w',
    init 0%nat = Some (self, k)
    ∧ (0 < 4)%nat
    ∧ x_shape (Dataset img_shape [[0%Z]]) = img_shape
    ∧ x_rows (Dataset img_shape [[0%Z]]) ≠ []
    ∧ 50%Z ≠ 0%Z
    ∧ "infoGANs/images"%string ∈ dirs Example.empty_world
    ∧ train (keras := Example.keras) (numpy := Example.numpy) self
        (Dataset img_shape [[0%Z]]) 2 4 50 Example.empty_world
      = Some ((), w').
Proof.
  eassert (Hinit : init 0%nat = Some (_, _)) by (vm_compute; reflexivity).
  assert (Hbatch : (0 < 4)%nat) by lia.
  assert (Hshape : x_shape (Dataset img_shape [[0%Z]]) = img_shape)
    by reflexivity.
  assert (Hrows : x_rows (Dataset img_shape [[0%Z]]) ≠ []) by discriminate.
  assert (Hint : 50%Z ≠ 0%Z) by lia.
  assert (Hdir : "infoGANs/images"%string ∈ dirs Example.empty_world).
  { unfold Example.empty_world. cbn [dirs].
    apply elem_of_union_l, elem_of_singleton. reflexivity. }
  destruct (train_completes (keras := Example.keras)
              (numpy := Example.numpy) _ _ _ (Dataset img_shape [[0%Z]])
              2 4 50 Example.empty_world Hinit Hbatch Hshape Hrows Hint
              Hdir)
    as (trace & w' & Hrun & _).
  eexists _, _, w'.
  split; [exact Hinit|]. split; [exact Hbatch|].
  split; [exact Hshape|]. split; [exact Hrows|].
  split; [exact Hint|]. split; [exact Hdir | exact Hrun].
Defined.

Lemma main_never_saves_witness :
  ∃ w',
    x_shape (Dataset img_shape [[0%Z]]) = img_shape
    ∧ x_rows (Dataset img_shape [[0%Z]]) ≠ []
    ∧ "infoGANs/images"%string ∈ dirs Example.empty_world
    ∧ main (keras := Example.keras) (numpy := Example.numpy)
        (Dataset img_shape [[0%Z]]) Example.empty_world
      = Some ((), w').
Proof.
  assert (Hshape : x_shape (Dataset img_shape [[0%Z]]) = img_shape)
    by reflexivity.
  assert (Hrows : x_rows (Dataset img_shape [[0%Z]]) ≠ []) by discriminate.
  assert (Hdir : "infoGANs/images"%string ∈ dirs Example.empty_world).
  { unfold Example.empty_world. cbn [dirs].
    apply elem_of_union_l, elem_of_singleton. reflexivity. }
  destruct (main_never_saves (keras := Example.keras)
              (numpy := Example.numpy) (Dataset img_shape [[0%Z]])
              Example.empty_world Hshape Hrows Hdir)
    as (trace & w' & Hrun & _).
  exists w'. split; [exact Hshape|]. split; [exact Hrows|].
  split; [exact Hdir | exact Hrun].
Defined.

(** ** Runs that raise *)

Section Errors.

Context {keras : Keras} {numpy : Numpy}.

Local Open Scope R_scope.

Lemma bind_fails {A B} (m : prog A) (f : A → prog B) (w : world) :
  (∀ a w', m w = Some (a, w') → f a w' = None) → (m ≫= f) w = None.
Proof.
  intros H. rewrite run_bind. destruct (m w) as [[a w']|] eqn:Hm; [|done].
  by apply H.
Qed.

Lemma keeps_dirs_bind {A B} (m : prog A) (f : A → prog B) :
  keeps_dirs m → (∀ a, keeps_dirs (f a)) → keeps_dirs (m ≫= f).
Proof.
  intros Hm Hf w b w'. rewrite run_bind.
  destruct (m w) as [[a w1]|] eqn:H1; [|done].
  intros H2. rewrite (Hf a w1 b w' H2). exact (Hm w a w1 H1).
Qed.

Lemma keeps_dirs_ret {A} (a : A) : keeps_dirs (mret a).
Proof. intros w b w' H. by injection H as _ <-. Qed.

Lemma keeps_dirs_lift {A} (o : option A) : keeps_dirs (lift o).
Proof. intros w b w'. rewrite run_lift. destruct o; [|done]. by intros [= _ <-]. Qed.

Lemma keeps_dirs_log (e : event) : keeps_dirs (log e).
Proof. intros w b w' H. by injection H as _ <-. Qed.

Lemma keeps_dirs_get_store : keeps_dirs get_store.
Proof. intros w b w' H. by injection H as _ <-. Qed.

Lemma keeps_dirs_random_normal (rows cols : nat) :
  keeps_dirs (random_normal rows cols).
Proof. intros w b w' H. by injection H as _ <-. Qed.

Lemma keeps_dirs_random_randint (low high : Z) (size : nat) :
  keeps_dirs (random_randint low high size).
Proof.
  intros w b w'. unfold random_randint.
  destruct (decide (low < high)%Z); [|done]. by intros [= _ <-].
Qed.

Lemma keeps_dirs_model_predict (m : model) (x : tensor) :
  keeps_dirs (model_predict m x).
Proof.
  unfold model_predict.
  apply keeps_dirs_bind; [apply keeps_dirs_get_store|]. intros σ.
  apply keeps_dirs_bind; [apply keeps_dirs_lift|]. intros y.
  apply keeps_dirs_bind; [apply keeps_dirs_log|]. intros _.
  apply keeps_dirs_ret.
Qed.

Lemma keeps_dirs_train_on_batch (cm : compiled) (x : tensor)
    (ys : list tensor) :
  keeps_dirs (train_on_batch cm x ys).
Proof.
  intros w b w'. unfold train_on_batch.
  destruct (tshape x) as [|d s]; [done|].
  destruct (decide _); [|done]. by intros [= _ <-].
Qed.

Lemma keeps_dirs_write_file (dir name : string) (content : file) :
  keeps_dirs (write_file dir name content).
Proof.
  intros w b w'. unfold write_file.
  destruct (decide _); [|done]. by intros [= _ <-].
Qed.

Lemma keeps_dirs_sample_generator_input (batch_size noise_variable : nat) :
  keeps_dirs (sample_generator_input batch_size noise_variable).
Proof.
  unfold sample_generator_input.
  apply keeps_dirs_bind; [apply keeps_dirs_random_normal|]. intros noise.
  apply keeps_dirs_bind; [apply keeps_dirs_random_randint|]. intros y.
  apply keeps_dirs_bind; [apply keeps_dirs_lift|]. intros labels.
  apply keeps_dirs_ret.
Qed.

Lemma keeps_dirs_for_each {A B} (vs : list A) (body : A → B → prog B) :
  (∀ v acc, keeps_dirs (body v acc)) →
  ∀ acc, keeps_dirs (for_each_prog vs body acc).
Proof.
  intros Hbody. induction vs as [|v vs IH]; intros acc; cbn [for_each_prog].
  - apply keeps_dirs_ret.
  - apply keeps_dirs_bind; [apply Hbody|]. exact IH.
Qed.

Lemma keeps_dirs_sample_column (self : InfoGAN) (r c i : nat)
    (axs : list (list panel)) :
  keeps_dirs (sample_column self r c i axs).
Proof.
  unfold sample_column.
  apply keeps_dirs_bind; [apply keeps_dirs_sample_generator_input|].
  intros [noise labels].
  apply keeps_dirs_bind; [apply keeps_dirs_lift|]. intros label.
  apply keeps_dirs_bind; [apply keeps_dirs_lift|]. intros gen_input.
  apply keeps_dirs_bind; [apply keeps_dirs_model_predict|]. intros gen_imgs.
  apply keeps_dirs_bind; [apply keeps_dirs_lift|]. intros column.
  apply keeps_dirs_ret.
Qed.

Lemma keeps_dirs_sample_images (self : InfoGAN) (epoch : nat) :
  keeps_dirs (sample_images self epoch).
Proof.
  unfold sample_images. cbn zeta.
  apply keeps_dirs_bind.
  { apply keeps_dirs_for_each. intros v acc. apply keeps_dirs_sample_column. }
  intros columns.
  apply keeps_dirs_bind; [apply keeps_dirs_write_file|]. intros _.
  apply keeps_dirs_log.
Qed.

(** [savefig] into a directory that does not exist raises. *)
Lemma sample_images_without_directory (self : InfoGAN) (epoch : nat)
    (w : world) :
  "infoGANs/images"%string ∉ dirs w → sample_images self epoch w = None.
Proof.
  intros Hdir. unfold sample_images. cbn zeta.
  apply bind_fails. intros columns w1 H1.
  apply bind_fails. intros [] w2 H2. exfalso.
  unfold write_file in H2.
  destruct (decide ("infoGANs/images"%string ∈ dirs w1)) as [Hin|_];
    [|discriminate H2].
  apply Hdir. erewrite <- keeps_dirs_for_each; [exact Hin| |exact H1].
  intros v acc. apply keeps_dirs_sample_column.
Qed.

(** The part of an iteration before the test of the interval. *)
Lemma train_iteration_tail (self : InfoGAN) (image_shape : shape)
    (X_train valid fake : matrix) (batch_size : nat) (sample_interval : Z)
    (epoch : nat) (w : world) :
  (∀ w1, dirs w1 = dirs w →
     (if decide (sample_interval = 0%Z) then throw
      else if decide ((Z.of_nat epoch `mod` sample_interval)%Z = 0%Z)
           then sample_images self epoch else mret ()) w1 = None) →
  train_iteration self image_shape X_train valid fake batch_size
    sample_interval epoch w = None.
Proof.
  intros Hend. unfold train_iteration.
  apply bind_fails. intros idx w1 H1.
  apply keeps_dirs_random_randint in H1.
  apply bind_fails. intros imgs w2 H2.
  apply keeps_dirs_lift in H2.
  apply bind_fails. intros [noise labels] w3 H3.
  apply keeps_dirs_sample_generator_input in H3.
  apply bind_fails. intros latent w4 H4.
  apply keeps_dirs_lift in H4.
  apply bind_fails. intros gen_imgs w5 H5.
  apply keeps_dirs_model_predict in H5.
  apply bind_fails. intros d_real w6 H6.
  apply keeps_dirs_train_on_batch in H6.
  apply bind_fails. intros d_fake w7 H7.
  apply keeps_dirs_train_on_batch in H7.
  apply bind_fails. intros sum w8 H8.
  apply keeps_dirs_lift in H8.
  apply bind_fails. intros g_loss w9 H9.
  apply keeps_dirs_train_on_batch in H9.
  apply bind_fails. intros d0 w10 H10.
  apply keeps_dirs_lift in H10.
  apply bind_fails. intros d1 w11 H11.
  apply keeps_dirs_lift in H11.
  apply bind_fails. intros g1 w12 H12.
  apply keeps_dirs_lift in H12.
  apply bind_fails. intros g2 w13 H13.
  apply keeps_dirs_lift in H13.
  apply bind_fails. intros [] w14 H14.
  apply keeps_dirs_log in H14.
  apply Hend. congruence.
Qed.

Lemma train_first_iteration (self : InfoGAN) (cifar10 : dataset)
    (epochs batch_size : nat) (sample_interval : Z) (w : world) :
  epochs ≠ 0%nat →
  (∀ w1, dirs w1 = dirs w →
     train_iteration self (x_shape cifar10) (rescale (x_rows cifar10))
       (adversarial_ground_truths batch_size).1
       (adversarial_ground_truths batch_size).2 batch_size sample_interval
       0 w1 = None) →
  train self cifar10 epochs batch_size sample_interval w = None.
Proof.
  intros He Hfirst. destruct epochs as [|epochs]; [done|].
  unfold train.
  apply bind_fails. intros [] w1 H1. apply keeps_dirs_log in H1.
  apply bind_fails. intros [] w2 H2. apply keeps_dirs_log in H2.
  cbn [adversarial_ground_truths seq for_each_prog].
  apply bind_fails. intros [] w3 H3.
  rewrite Hfirst in H3; [done|congruence].
Qed.

(** X4. [train] with [sample_interval = 0] raises in its first iteration, at
    [epoch % sample_interval], whatever the models and the data are. *)
Theorem train_raises_on_zero_interval (self : InfoGAN) (cifar10 : dataset)
    (epochs batch_size : nat) (w : world) :
  epochs ≠ 0%nat →
  train self cifar10 epochs batch_size 0 w = None.
Proof.
  intros He. apply train_first_iteration; [exact He|].
  intros w1 _. apply train_iteration_tail. intros w2 _.
  destruct (decide (0 = 0)%Z); [reflexivity|done].
Qed.

(** X5. Nothing in the script creates [infoGANs/images]: when the directory is
    missing, [train] raises in its first iteration, because epoch 0 is a
    multiple of every interval and [savefig] cannot write the figure. *)
Theorem train_raises_without_images_directory (self : InfoGAN)
    (cifar10 : dataset) (epochs batch_size : nat) (sample_interval : Z)
    (w : world) :
  epochs ≠ 0%nat →
  "infoGANs/images"%string ∉ dirs w →
  train self cifar10 epochs batch_size sample_interval w = None.
Proof.
  intros He Hdir. apply train_first_iteration; [exact He|].
  intros w1 Hd1. apply train_iteration_tail. intros w2 Hd2.
  destruct (decide (sample_interval = 0%Z)); [reflexivity|].
  change (Z.of_nat 0) with 0%Z. rewrite Z.mod_0_l by done.
  destruct (decide (0 = 0)%Z); [|done].
  apply sample_images_without_directory. rewrite Hd2, Hd1. exact Hdir.
Qed.

End Errors.

Lemma train_raises_on_zero_interval_witness :
  ∃ self k,
    init 0%nat = Some (self, k)
    ∧ 1%nat ≠ 0%nat
    ∧ train (keras := Example.keras) (numpy := Example.numpy) self
        (Dataset img_shape [[0%Z]]) 1 4 0 Example.empty_world
      = None.
Proof.
  eassert (Hinit : init 0%nat = Some (_, _)) by (vm_compute; reflexivity).
  assert (He : 1%nat ≠ 0%nat) by lia.
  eexists _, _. split; [exact Hinit|]. split; [exact He|].
  exact (train_raises_on_zero_interval (keras := Example.keras)
           (numpy := Example.numpy) _ (Dataset img_shape [[0%Z]]) 1 4
           Example.empty_world He).
Defined.

Lemma train_raises_without_images_directory_witness :
  ∃ self k,
    init 0%nat = Some (self, k)
    ∧ 1%nat ≠ 0%nat
    ∧ ("infoGANs/images"%string ∉ dirs Example.bare_world)
    ∧ train (keras := Example.keras) (numpy := Example.numpy) self
        (Dataset img_shape [[0%Z]]) 1 4 50 Example.bare_world
      = None.
Proof.
  eassert (Hinit : init 0%nat = Some (_, _)) by (vm_compute; reflexivity).
  assert (He : 1%nat ≠ 0%nat) by lia.
  assert (Hdir : "infoGANs/images"%string ∉ dirs Example.bare_world).
  { unfold Example.bare_world. cbn [dirs]. apply not_elem_of_empty. }
  eexists _, _. split; [exact Hinit|]. split; [exact He|].
  split; [exact Hdir|].
  exact (train_raises_without_images_directory (keras := Example.keras)
           (numpy := Example.numpy) _ (Dataset img_shape [[0%Z]]) 1 4 50
           _ He Hdir).
Defined.

(** ** The builders, for every list of filters *)

Section Builders.

Context {keras : Keras}.

Local Open Scope R_scope.

Lemma build_run_bind {A B} (m : build A) (f : A → build B) (n : nat) :
  (m ≫= f) n = match m n with Some (a, n') => f a n' | None => None end.
Proof. reflexivity. Qed.

Lemma fresh_ids (flags : list bool) (n : nat) :
  map var_id (zip_with Variable_ (seq n (length flags)) flags)
  = seq n (length flags).
Proof.
  revert n. induction flags as [|b flags IH]; intros n; [done|].
  cbn. by rewrite IH.
Qed.

Lemma chain_shape_snoc (layers : list model) (m : model) (s s1 : shape) :
  chain_shape layers s = Some s1 →
  chain_shape (layers ++ [m]) s = output_shape m s1.
Proof.
  unfold chain_shape. intros H. rewrite fold_left_app, H. reflexivity.
Qed.

Lemma consistent_Input (s : shape) (n : nat) : consistent s n (Input s) n.
Proof.
  split; [reflexivity|reflexivity| |lia].
  cbn. by rewrite Nat.sub_diag.
Qed.

(** [Layer(...)(x)]: the new instance is appended to the history and takes
    the next counters for its variables. *)
Lemma call_ok (input : shape) (first : nat) (l : layer) (x : ktensor)
    (n : nat) (s : shape) :
  consistent input first x n →
  compute_output_shape l (kshape x) = Some s →
  ∃ x',
    call l x n = Some (x', (length (layer_variables l) + n)%nat)
    ∧ consistent input first x' (length (layer_variables l) + n)
    ∧ kshape x' = s
    ∧ concat (map flat_layers (khistory x'))
      = concat (map flat_layers (khistory x)) ++ [l]
    ∧ last (khistory x') = Some (layer_instance l n).
Proof.
  intros [Hi Hs Hv Ho] Hl.
  exists (KTensor (kinput x) s (khistory x ++ [layer_instance l n])).
  split.
  { unfold call. rewrite build_run_bind. unfold lift_option.
    rewrite Hl. reflexivity. }
  split.
  { split; cbn [kinput kshape khistory].
    - exact Hi.
    - rewrite (chain_shape_snoc _ _ _ _ Hs). exact Hl.
    - rewrite map_app, concat_app, map_app, Hv.
      cbn [map concat variables layer_instance].
      rewrite app_nil_r, fresh_ids.
      replace (length (layer_variables l) + n - first)%nat
        with ((n - first) + length (layer_variables l))%nat by lia.
      rewrite seq_app. f_equal. f_equal. lia.
    - lia. }
  cbn [kshape khistory]. split; [reflexivity|]. split.
  - rewrite map_app, concat_app. cbn. reflexivity.
  - apply last_snoc.
Qed.

(** [Model(inputs, outputs)] has the output shape that construction
    computed, and holds exactly the variables created on the way. *)
Lemma Model_of_consistent (input : shape) (first : nat) (x : ktensor)
    (n : nat) :
  consistent input first x n →
  output_shape (Model_of x) input = Some (kshape x)
  ∧ map var_id (variables (Model_of x)) = seq first (n - first)
  ∧ flat_layers (Model_of x) = concat (map flat_layers (khistory x)).
Proof.
  intros [Hi Hs Hv Ho]. split; [|split].
  - unfold Model_of. cbn [output_shape]. rewrite Hi.
    destruct (decide (input = input)); [exact Hs|done].
  - exact Hv.
  - reflexivity.
Qed.

Lemma conv_same_1 (h k : nat) : conv_output_length h k 1 Same = Some h.
Proof.
  unfold conv_output_length. destruct (decide (1 = 0)%nat); [lia|].
  f_equal. rewrite Nat.div_1_r. lia.
Qed.

Lemma conv_same_2 (h k : nat) :
  conv_output_length h k 2 Same = Some ((h + 1) / 2)%nat.
Proof.
  unfold conv_output_length. destruct (decide (2 = 0)%nat); [lia|].
  f_equal. f_equal. lia.
Qed.

(** One pass of the loop of [generator_model] doubles height and width. *)
Lemma generator_blocks (input : shape) (first : nat)
    (layer_filters : list nat) :
  ∀ (x : ktensor) (n h w c : nat),
    consistent input first x n → kshape x = [h; w; c] →
    ∃ x' c',
      for_each layer_filters (λ filters x,
         x ← call UpSampling2D x;
         x ← call (Conv2D filters (4, 4)%nat 1 Same) x;
         x ← call (Activation Relu) x;
         call (BatchNormalization 0.8) x) x n
      = Some (x', (6 * length layer_filters + n)%nat)
      ∧ consistent input first x' (6 * length layer_filters + n)
      ∧ kshape x'
        = [h * 2 ^ length layer_filters; w * 2 ^ length layer_filters;
           c']%nat.
Proof.
  induction layer_filters as [|f fs IH]; intros x n h w c Hc Hs.
  - exists x, c. cbn [for_each length Nat.pow]. rewrite !Nat.mul_1_r.
    split; [reflexivity|]. split; [exact Hc|exact Hs].
  - destruct (call_ok input first UpSampling2D x n [2 * h; 2 * w; c]%nat Hc)
      as (x1 & H1 & C1 & S1 & _); [by rewrite Hs|].
    destruct (call_ok input first (Conv2D f (4, 4)%nat 1 Same) x1 _
                [2 * h; 2 * w; f]%nat C1)
      as (x2 & H2 & C2 & S2 & _).
    { rewrite S1. cbn [compute_output_shape].
      rewrite !conv_same_1. reflexivity. }
    destruct (call_ok input first (Activation Relu) x2 _
                [2 * h; 2 * w; f]%nat C2)
      as (x3 & H3 & C3 & S3 & _); [by rewrite S2|].
    destruct (call_ok input first (BatchNormalization 0.8) x3 _
                [2 * h; 2 * w; f]%nat C3)
      as (x4 & H4 & C4 & S4 & _); [by rewrite S3|].
    cbn [layer_variables length Nat.add] in *.
    destruct (IH x4 _ _ _ _ C4 S4) as (x' & c' & Hrest & C' & S').
    exists x', c'. split.
    { cbn [for_each]. rewrite build_run_bind.
      rewrite build_run_bind, H1. rewrite build_run_bind, H2.
      rewrite build_run_bind, H3. rewrite H4. rewrite Hrest.
      f_equal. f_equal. cbn [length]. lia. }
    split.
    { cbn [length].
      replace (6 * S (length fs) + n)%nat
        with (6 * length fs + S (S (S (S (S (S n))))))%nat by lia.
      exact C'. }
    rewrite S'. cbn [length Nat.pow]. f_equal; [lia|]. f_equal. lia.
Qed.

(** X6. [generator_model] builds for every list of filters: each filter adds one
    block that doubles height and width, so the images are
    [4 * 2 ^ len] by [4 * 2 ^ len] by 3, with every value in [[-1, 1]]; they
    have the shape the discriminator takes exactly when the list has three
    filters.  (Keras rejects a convolution without filters, hence the
    hypothesis.) *)
Theorem generator_model_any_filters (layer_filters : list nat) (n : nat) :
  Forall (λ f, 0 < f)%nat layer_filters →
  ∃ g,
    generator_model layer_filters n
    = Some (g, (14 + 6 * length layer_filters + n)%nat)
    ∧ output_shape g [latent_dim]
      = Some [4 * 2 ^ length layer_filters; 4 * 2 ^ length layer_filters;
              channels]%nat
    ∧ (output_shape g [latent_dim] = Some img_shape
       ↔ length layer_filters = 3%nat)
    ∧ map var_id (variables g) = seq n (14 + 6 * length layer_filters)
    ∧ ∀ (σ : gmap nat weight) (B : nat) (data : list R),
        ∃ y, predict g σ (Tensor [B; latent_dim] data) = Some y
             ∧ tshape y
               = [B; 4 * 2 ^ length layer_filters;
                  4 * 2 ^ length layer_filters; channels]%nat
             ∧ Forall (λ v, -1 <= v <= 1) (tdata y).
Proof.
  intros _.
  pose proof (consistent_Input [latent_dim] n) as C0.
  destruct (call_ok _ _ (Dense 1024 Relu) _ _ [1024]%nat C0)
    as (x1 & H1 & C1 & S1 & _); [reflexivity|].
  destruct (call_ok _ _ (BatchNormalization 0.8) _ _ [1024]%nat C1)
    as (x2 & H2 & C2 & S2 & _); [by rewrite S1|].
  destruct (call_ok _ _ (Dense (448 * 4 * 4) Relu) _ _ [448 * 4 * 4]%nat C2)
    as (x3 & H3 & C3 & S3 & _); [by rewrite S2|].
  destruct (call_ok _ _ (Reshape [4; 4; 448]%nat) _ _ [4; 4; 448]%nat C3)
    as (x4 & H4 & C4 & S4 & _).
  { rewrite S3. cbn [compute_output_shape].
    rewrite decide_True by (vm_compute; reflexivity). reflexivity. }
  destruct (call_ok _ _ (BatchNormalization 0.8) _ _ [4; 4; 448]%nat C4)
    as (x5 & H5 & C5 & S5 & _); [by rewrite S4|].
  destruct (generator_blocks _ _ layer_filters x5 _ _ _ _ C5 S5)
    as (x6 & c' & H6 & C6 & S6).
  destruct (call_ok _ _ (Conv2D channels (4, 4)%nat 1 Same) _ _
              [4 * 2 ^ length layer_filters; 4 * 2 ^ length layer_filters;
               channels]%nat C6)
    as (x7 & H7 & C7 & S7 & _).
  { rewrite S6. cbn [compute_output_shape]. rewrite !conv_same_1.
    reflexivity. }
  destruct (call_ok _ _ (Activation Tanh) _ _
              [4 * 2 ^ length layer_filters; 4 * 2 ^ length layer_filters;
               channels]%nat C7)
    as (x8 & H8 & C8 & S8 & _ & L8); [by rewrite S7|].
  destruct (Model_of_consistent _ _ _ _ C8) as (Hshape & Hids & _).
  rewrite S8 in Hshape.
  exists (Model_of x8). split.
  { unfold generator_model. cbn zeta.
    rewrite build_run_bind, H1. rewrite build_run_bind, H2.
    rewrite build_run_bind, H3. rewrite build_run_bind, H4.
    rewrite build_run_bind, H5. rewrite build_run_bind, H6.
    rewrite build_run_bind, H7. rewrite build_run_bind, H8.
    cbn [layer_variables length]. unfold mret, build_ret.
    f_equal. f_equal. lia. }
  split; [exact Hshape|].
  split.
  { rewrite Hshape. unfold img_shape, img_rows, img_cols. split.
    - intros H. injection H as H _.
      apply (Nat.pow_inj_r 2); [lia|]. cbn [Nat.pow]. lia.
    - intros ->. reflexivity. }
  split.
  { rewrite Hids. cbn [layer_variables length]. f_equal. lia. }
  intros σ B data.
  destruct (predict_succeeds (Model_of x8) σ (Tensor [B; latent_dim] data) B
              [latent_dim] _ eq_refl Hshape) as (y & Hy & Hys).
  exists y. split; [exact Hy|]. split; [exact Hys|].
  exact (predict_tanh_last true (kinput x8) (khistory x8) _ σ _ y L8 Hy).
Qed.

(** The loop of [discriminator_recognition_net]. *)
Lemma trunk_blocks (input : shape) (first : nat) (middle : list nat) :
  ∀ (x : ktensor) (n h w c : nat),
    consistent input first x n → kshape x = [h; w; c] →
    ∃ x' h' w' c',
      for_each middle (λ filters x,
         x ← call (Conv2D filters (4, 4)%nat 2 Same) x;
         x ← call (ZeroPadding2D ((0, 1), (0, 1))%nat) x;
         x ← call (LeakyReLU 0.1) x;
         x ← call (Dropout 0.25) x;
         call (BatchNormalization 0.8) x) x n
      = Some (x', (6 * length middle + n)%nat)
      ∧ consistent input first x' (6 * length middle + n)
      ∧ kshape x' = [h'; w'; c']
      ∧ concat (map flat_layers (khistory x'))
        = concat (map flat_layers (khistory x))
          ++ concat (map trunk_middle middle).
Proof.
  induction middle as [|f fs IH]; intros x n h w c Hc Hs.
  - exists x, h, w, c. cbn [for_each length map concat].
    rewrite app_nil_r.
    split; [reflexivity|]. split; [exact Hc|]. split; [exact Hs|reflexivity].
  - destruct (call_ok input first (Conv2D f (4, 4)%nat 2 Same) x n
                [(h + 1) / 2; (w + 1) / 2; f]%nat Hc)
      as (x1 & H1 & C1 & S1 & F1 & _).
    { rewrite Hs. cbn [compute_output_shape]. rewrite !conv_same_2.
      reflexivity. }
    destruct (call_ok input first (ZeroPadding2D ((0, 1), (0, 1))%nat) x1 _
                [(h + 1) / 2 + 0 + 1; (w + 1) / 2 + 0 + 1; f]%nat C1)
      as (x2 & H2 & C2 & S2 & F2 & _); [by rewrite S1|].
    destruct (call_ok input first (LeakyReLU 0.1) x2 _ _ C2 eq_refl)
      as (x3 & H3 & C3 & S3 & F3 & _).
    destruct (call_ok input first (Dropout 0.25) x3 _ _ C3 eq_refl)
      as (x4 & H4 & C4 & S4 & F4 & _).
    destruct (call_ok input first (BatchNormalization 0.8) x4 _ _ C4 eq_refl)
      as (x5 & H5 & C5 & S5 & F5 & _).
    cbn [layer_variables length Nat.add] in *.
    rewrite S4, S3, S2 in S5.
    destruct (IH x5 _ _ _ _ C5 S5) as (x' & h' & w' & c' & Hrest & C' & S' & F').
    exists x', h', w', c'. split.
    { cbn [for_each]. rewrite build_run_bind.
      rewrite build_run_bind, H1. rewrite build_run_bind, H2.
      rewrite build_run_bind, H3. rewrite build_run_bind, H4.
      rewrite H5. rewrite Hrest. f_equal. f_equal. lia. }
    split.
    { replace (6 * S (length fs) + n)%nat
        with (6 * length fs + S (S (S (S (S (S n))))))%nat by lia.
      exact C'. }
    split; [exact S'|].
    rewrite F', F5, F4, F3, F2, F1. cbn [map concat trunk_middle].
    rewrite <- !app_assoc. reflexivity.
Qed.

Lemma lookup_last_cons {A} (a : A) (l : list A) :
  (a :: l) !! length l = Some (default a (last l)).
Proof.
  destruct l as [|b l]; [reflexivity|].
  rewrite last_lookup. cbn [length Nat.pred].
  change ((a :: b :: l) !! S (length l)) with ((b :: l) !! length l).
  destruct (lookup_lt_is_Some_2 (b :: l) (length l)) as [x Hx];
    [cbn [length]; lia|].
  rewrite Hx. reflexivity.
Qed.

(** X7. [discriminator_recognition_net] for every list of filters.  The empty
    list raises (there is no [layer_filters[0]]).  Otherwise the trunk is
    built: the first filter gives a stage without normalization, every
    filter strictly between the first and the last a stage with zero padding
    and normalization, and the last filter a stage with normalization,
    followed by the flattening; a list with a single filter therefore gives
    two convolutions with that filter.  (Keras rejects a convolution without
    filters, hence the hypothesis.) *)
Theorem trunk_for_any_filters (layer_filters : list nat) (n : nat) :
  Forall (λ f, 0 < f)%nat layer_filters →
  match layer_filters with
  | [] => discriminator_recognition_net layer_filters n = None
  | first :: rest =>
      ∃ m d,
        discriminator_recognition_net layer_filters n
        = Some (m, (8 + 6 * (length rest - 1) + n)%nat)
        ∧ flat_layers m
          = trunk_first first
            ++ concat (map trunk_middle (take (length rest - 1) rest))
            ++ trunk_last (default first (last rest))
        ∧ output_shape m img_shape = Some [d]
        ∧ map var_id (variables m) = seq n (8 + 6 * (length rest - 1))
  end.
Proof.
  intros _. destruct layer_filters as [|f0 rest]; [reflexivity|].
  pose proof (consistent_Input img_shape n) as C0.
  destruct (call_ok _ _ (Conv2D f0 (4, 4)%nat 2 Same) _ _ _ C0 eq_refl)
    as (x1 & H1 & C1 & S1 & F1 & _).
  destruct (call_ok _ _ (LeakyReLU 0.1) _ _ _ C1 eq_refl)
    as (x2 & H2 & C2 & S2 & F2 & _).
  destruct (call_ok _ _ (Dropout 0.25) _ _ _ C2 eq_refl)
    as (x3 & H3 & C3 & S3 & F3 & _).
  rewrite S2, S1 in S3. cbn in S3.
  destruct (trunk_blocks _ _ (take (length rest - 1) rest) x3 _ _ _ _ C3 S3)
    as (x4 & h & w & c & H4 & C4 & S4 & F4).
  destruct (call_ok _ _ (Conv2D (default f0 (last rest)) (4, 4)%nat 2 Same)
              x4 _ [(h + 1) / 2; (w + 1) / 2; default f0 (last rest)]%nat C4)
    as (x5 & H5 & C5 & S5 & F5 & _).
  { rewrite S4. cbn [compute_output_shape]. rewrite !conv_same_2.
    reflexivity. }
  destruct (call_ok _ _ (LeakyReLU 0.1) _ _ _ C5 eq_refl)
    as (x6 & H6 & C6 & S6 & F6 & _).
  destruct (call_ok _ _ (Dropout 0.25) _ _ _ C6 eq_refl)
    as (x7 & H7 & C7 & S7 & F7 & _).
  destruct (call_ok _ _ (BatchNormalization 0.8) _ _ _ C7 eq_refl)
    as (x8 & H8 & C8 & S8 & F8 & _).
  destruct (call_ok _ _ Flatten _ _ _ C8 eq_refl)
    as (x9 & H9 & C9 & S9 & F9 & _).
  destruct (Model_of_consistent _ _ _ _ C9) as (Hshape & Hids & Hflat).
  assert (Hlen : length (take (length rest - 1) rest)
                 = (length rest - 1)%nat).
  { rewrite length_take. lia. }
  rewrite Hlen in *.
  exists (Model_of x9), (prod_dims (kshape x8)). split.
  { unfold discriminator_recognition_net. cbn zeta.
    rewrite build_run_bind. unfold lift_option at 1.
    cbn [lookup list_lookup].
    rewrite build_run_bind, H1. rewrite build_run_bind, H2.
    rewrite build_run_bind, H3.
    cbn [length drop].
    replace (S (length rest) - 1 - 1)%nat with (length rest - 1)%nat by lia.
    replace (S (length rest) - 1)%nat with (length rest) by lia.
    rewrite drop_0.
    rewrite build_run_bind, H4.
    rewrite build_run_bind. unfold lift_option at 1.
    rewrite lookup_last_cons.
    rewrite build_run_bind, H5. rewrite build_run_bind, H6.
    rewrite build_run_bind, H7. rewrite build_run_bind, H8.
    rewrite build_run_bind, H9.
    cbn [layer_variables length]. unfold mret, build_ret.
    f_equal. f_equal. lia. }
  split.
  { rewrite Hflat, F9, F8, F7, F6, F5, F4, F3, F2, F1.
    cbn [Input khistory map concat trunk_first trunk_last].
    rewrite <- !app_assoc. reflexivity. }
  split; [rewrite Hshape, S9; reflexivity|].
  rewrite Hids. cbn [layer_variables length]. f_equal. lia.
Qed.

End Builders.

Lemma generator_model_any_filters_witness :
  ∃ g k, Forall (λ f, 0 < f)%nat [8; 8]%nat
         ∧ generator_model [8; 8]%nat 0 = Some (g, k)
         ∧ output_shape g [latent_dim] = Some [16; 16; 3]%nat.
Proof.
  assert (Hpos : Forall (λ f, 0 < f)%nat [8; 8]%nat).
  { repeat constructor. }
  destruct (generator_model_any_filters (keras := Example.keras)
              [8; 8]%nat 0 Hpos)
    as (g & Hg & Hs & _).
  eexists g, _. split; [exact Hpos|]. split; [exact Hg|exact Hs].
Defined.

Lemma trunk_for_any_filters_witness :
  ∃ m k,
    Forall (λ f, 0 < f)%nat [32]%nat
    ∧ discriminator_recognition_net [32]%nat 0 = Some (m, k)
    ∧ flat_layers m = trunk_first 32 ++ trunk_last 32.
Proof.
  assert (Hpos : Forall (λ f, 0 < f)%nat [32]%nat).
  { repeat constructor. }
  destruct (trunk_for_any_filters [32]%nat 0 Hpos)
    as (m & d & Hm & Hl & _).
  eexists m, _. split; [exact Hpos|]. split; [exact Hm|exact Hl].
Defined.

(** ** The loss on one-hot codes *)

Section OneHotCodes.

Local Open Scope R_scope.

Lemma big_sum_zero_row (n : nat) (g : nat → R) :
  Formula.big_sum n (λ j, g j * nth j (replicate n 0) 0) = 0.
Proof.
  revert g. induction n as [|n IH]; intros g; [reflexivity|].
  rewrite big_sum_S. cbn [replicate nth]. rewrite (IH (λ j, g (S j))). lra.
Qed.

Lemma big_sum_one_hot_row (n k : nat) (g : nat → R) :
  (k < n)%nat →
  Formula.big_sum n (λ j, g j * nth j (<[k := 1]> (replicate n 0)) 0) = g k.
Proof.
  revert k g. induction n as [|n IH]; intros k g Hk; [lia|].
  rewrite big_sum_S. destruct k as [|k].
  - rewrite (big_sum_ext n _ (λ j, g (S j) * nth j (replicate n 0) 0))
      by (intros j _; reflexivity).
    rewrite (big_sum_zero_row n (λ j, g (S j))). cbn. lra.
  - rewrite (big_sum_ext n _
               (λ j, g (S j) * nth j (<[k := 1]> (replicate n 0)) 0))
      by (intros j _; reflexivity).
    rewrite (IH k (λ j, g (S j))) by lia. cbn. lra.
Qed.

Lemma big_sum_const (n : nat) (a : R) :
  Formula.big_sum n (λ _, a) = INR n * a.
Proof.
  induction n as [|n IH]; [cbn; lra|].
  rewrite big_sum_S, IH, S_INR. lra.
Qed.

(** A term of the loss whose weights are one-hot codes only reads the
    entries at the coded classes. *)
Lemma neg_log_likelihood_one_hot (B n : nat) (ks : list nat) (p : matrix) :
  length ks = B → Forall (λ k, k < n)%nat ks →
  Formula.neg_log_likelihood B n p
    (map (λ k, <[k := 1]> (replicate n 0)) ks)
  = Formula.mean_over B
      (λ i, - ln (Formula.entry p i (nth i ks 0%nat) + eps)).
Proof.
  intros Hlen Hks. unfold Formula.neg_log_likelihood, Formula.mean_over.
  f_equal. apply big_sum_ext. intros i Hi. f_equal.
  assert (Hk : (nth i ks 0 < n)%nat).
  { rewrite Forall_forall in Hks. apply Hks, list_elem_of_In, nth_In. lia. }
  rewrite <- (big_sum_one_hot_row n (nth i ks 0%nat)
                (λ j, ln (Formula.entry p i j + eps)) Hk).
  apply big_sum_ext. intros j Hj. unfold Formula.entry at 2.
  rewrite (nth_map_in _ ks i 0%nat []) by lia. reflexivity.
Qed.

(** X8. On one-hot codes, as [sample_generator_input] makes them, and a
    prediction whose entries all exceed [- eps], so that every logarithm the
    loss takes is a number, the loss is the cross-entropy of the prediction
    at the coded classes plus a constant: the entropy term is
    [- ln (1 + eps)] whatever the codes are, and the entries of the
    prediction away from the coded classes play no part.  (Over the real
    numbers, as all of the loss is modelled.) *)
Theorem mutual_info_loss_one_hot (B n : nat) (ks : list nat)
    (c_given_x : matrix) :
  (0 < B)%nat → length ks = B → Forall (λ k, k < n)%nat ks →
  Np.has_shape B n c_given_x →
  Forall (Forall (λ v, - eps < v)) c_given_x →
  mutual_info_loss (map (λ k, <[k := 1]> (replicate n 0)) ks) c_given_x
  = Some (Formula.mean_over B
            (λ i, - ln (Formula.entry c_given_x i (nth i ks 0%nat) + eps))
          - ln (1 + eps)).
Proof.
  intros HB Hlen Hks Hq _.
  set (c := map (λ k, <[k := 1]> (replicate n 0)) ks).
  assert (Hc : Np.has_shape B n c).
  { split; [unfold c; by rewrite length_map|].
    unfold c. apply Forall_map, Forall_true. intros k. cbn.
    by rewrite length_insert, length_replicate. }
  unfold mutual_info_loss.
  pose proof (neg_log_likelihood_backend B n c_given_x c HB Hq Hc) as H1.
  pose proof (neg_log_likelihood_backend B n c c HB Hc Hc) as H2.
  destruct (K.mul (K.log (K.add_scalar c_given_x eps)) c) as [t|]; [|done].
  cbn [mbind option_bind] in H1 |- *. rewrite H1. cbn [mbind option_bind].
  destruct (K.mul (K.log (K.add_scalar c eps)) c) as [u|]; [|done].
  cbn [mbind option_bind] in H2 |- *. rewrite H2. cbn [mbind option_bind].
  f_equal. unfold c.
  rewrite !(neg_log_likelihood_one_hot B n ks) by assumption.
  unfold Rminus. f_equal.
  unfold Formula.mean_over.
  rewrite (big_sum_ext B _ (λ _, - ln (1 + eps))).
  - rewrite big_sum_const. field. apply not_0_INR. lia.
  - intros i Hi. f_equal. f_equal. f_equal.
    assert (Hk : (nth i ks 0 < n)%nat).
    { rewrite Forall_forall in Hks. apply Hks, list_elem_of_In, nth_In. lia. }
    unfold Formula.entry. rewrite (nth_map_in _ ks i 0%nat []) by lia.
    clear -Hk. revert Hk. generalize (nth i ks 0%nat). intros k.
    revert k. induction n as [|n IH]; intros k Hk; [lia|].
    destruct k as [|k]; [reflexivity|]. cbn [replicate].
    cbn [insert list_insert nth]. apply IH. lia.
Qed.

End OneHotCodes.

Lemma mutual_info_loss_one_hot_witness :
  mutual_info_loss (map (λ k, <[k := 1%R]> (replicate 2 0%R)) [1%nat])
    [[0.25%R; 0.75%R]]
  = Some (Formula.mean_over 1
            (λ i, - ln (Formula.entry [[0.25; 0.75]] i (nth i [1%nat] 0%nat)
                        + eps))
          - ln (1 + eps))%R.
Proof.
  apply (mutual_info_loss_one_hot 1 2 [1%nat] [[0.25%R; 0.75%R]]).
  - lia.
  - reflexivity.
  - repeat constructor.
  - split; [reflexivity | repeat constructor].
  - repeat constructor; unfold eps; lra.
Defined.

(** ** What an update reaches *)

Section Reach.

Context {keras : Keras}.

Local Open Scope R_scope.

(** Inference reads the store only at the variables of the model. *)
Lemma predict_ext (m : model) (σ σ' : gmap nat weight) :
  Forall (λ v, read σ (var_id v) = read σ' (var_id v)) (variables m) →
  ∀ x, predict m σ x = predict m σ' x.
Proof.
  induction m as [l ws|tr input layers IH] using model_induction;
    intros Hread x.
  - cbn [predict variables] in *. unfold call_layer.
    assert (Hws : map (λ v, read σ (var_id v)) ws
                  = map (λ v, read σ' (var_id v)) ws).
    { induction Hread as [|v vs Hv _ IHv]; [reflexivity|].
      cbn [map]. rewrite Hv, IHv. reflexivity. }
    rewrite Hws. reflexivity.
  - cbn [predict variables] in *.
    destruct (decide (tail (tshape x) = input)); [|reflexivity].
    generalize (Some x). clear x e.
    induction IH as [|m layers Hm _ IHl]; intros acc; [reflexivity|].
    cbn [map concat] in Hread. apply Forall_app in Hread as [H1 H2].
    cbn [fold_left]. rewrite (IHl H2).
    f_equal. destruct acc as [t|]; [|reflexivity]. cbn. apply Hm, H1.
Qed.

(** A step on a model leaves the outputs of every model alone whose
    variables it may not write. *)
Lemma train_on_batch_keeps_predict (cm : compiled) (m : model) (x : tensor)
    (ys : list tensor) (w w' : world) (r : list R) :
  Forall (λ v, var_id v ∉ map var_id (mutable_variables (net cm)))
    (variables m) →
  train_on_batch cm x ys w = Some (r, w') →
  ∀ z, predict m (store w') z = predict m (store w) z.
Proof.
  intros Hdisj Hrun z. apply predict_ext.
  rewrite (train_on_batch_store cm x ys w w' r Hrun).
  eapply Forall_impl; [exact Hdisj|]. intros v Hv. cbn beta in Hv.
  unfold read. rewrite (optimizer_step_other cm x ys (adam w) (store w) _ Hv).
  reflexivity.
Qed.

(** X9. An update of the discriminator changes nothing of what the generator
    and the recognition network compute: after it, both give on every input
    the output they gave before. *)
Theorem discriminator_update_keeps_other_outputs (n k : nat)
    (self : InfoGAN) (x : tensor) (ys : list tensor) (w w' : world)
    (r : list R) :
  init n = Some (self, k) →
  train_on_batch (discriminator self) x ys w = Some (r, w') →
  ∀ z,
    predict (generator self) (store w') z
    = predict (generator self) (store w) z
    ∧ predict (net (recognition self)) (store w') z
      = predict (net (recognition self)) (store w) z.
Proof.
  intros Hinit Hrun z.
  destruct (init_inv n k self Hinit) as (Hb & _).
  pose proof (built_discriminator_ids n self Hb) as Hd.
  pose proof (built_recognition_ids n self Hb) as Hq.
  pose proof (built_generator_ids n self Hb) as Hg.
  pose proof (built_discriminator_mutable n self Hb) as Hmut.
  clear Hinit.
  split.
  - apply (train_on_batch_keeps_predict (discriminator self) _ x ys w w' r);
      [|exact Hrun].
    rewrite Hmut. eapply Forall_impl; [exact Hg|]. intros v Hv Hin.
    apply list_elem_of_fmap in Hin as (u & Heq & Hu).
    rewrite Forall_forall in Hd. specialize (Hd u Hu). cbn beta in *. lia.
  - apply (train_on_batch_keeps_predict (discriminator self) _ x ys w w' r);
      [|exact Hrun].
    rewrite Hmut. eapply Forall_impl; [exact Hq|]. intros v Hv Hin.
    apply list_elem_of_fmap in Hin as (u & Heq & Hu).
    rewrite Forall_forall in Hd. specialize (Hd u Hu). cbn beta in *. lia.
Qed.

Lemma init_discriminator (n : nat) :
  ∃ self d k,
    init n = Some (self, (66 + n)%nat)
    ∧ discriminator_model n = Some (d, k)
    ∧ net (discriminator self) = d
    ∧ set_trainable true d = d.
Proof.
  eexists _, _, _. split; [vm_compute; reflexivity|].
  split; [vm_compute; reflexivity|]. split; reflexivity.
Qed.

(** X10. The assignment [self.discriminator.trainable = True] of [__init__]
    changes nothing: the model that [discriminator_model] returns is
    trainable as it is built, so the discriminator the [InfoGAN] holds after
    the assignment is that very model.  Its own updates may write every
    variable it has, and it enters the combined model unfrozen. *)
Theorem trainable_assignment_changes_nothing (n k k' : nat)
    (self : InfoGAN) (d : model) :
  init n = Some (self, k) →
  discriminator_model n = Some (d, k') →
  set_trainable true d = d
  ∧ net (discriminator self) = d
  ∧ mutable_variables d = variables d
  ∧ variables d ⊆ mutable_variables (net (combined self)).
Proof.
  intros Hinit Hbuilt.
  destruct (init_inv n k self Hinit) as (Hb & _).
  destruct (init_discriminator n) as (s & d0 & k0 & Hs & Hd0 & Hnet & Hno).
  rewrite Hinit in Hs. apply (inj Some) in Hs. injection Hs as <- _.
  rewrite Hbuilt in Hd0. apply (inj Some) in Hd0. injection Hd0 as <- _.
  clear Hinit Hbuilt.
  pose proof (built_discriminator_mutable n self Hb) as Hmut.
  pose proof (built_combined_mutable n self Hb) as Hcm.
  pose proof (built_combined_variables n self Hb) as Hvars.
  rewrite Hnet in Hmut, Hvars.
  split; [exact Hno|]. split; [exact Hnet|]. split; [exact Hmut|].
  rewrite Hcm, Hvars. intros v Hv. rewrite !elem_of_app.
  right. left. exact Hv.
Qed.

End Reach.

Lemma discriminator_update_keeps_other_outputs_witness :
  ∃ self k r w',
    init 0%nat = Some (self, k)
    ∧ train_on_batch (keras := Example.keras) (discriminator self)
        (Tensor (1%nat :: img_shape) []) [Tensor [1%nat; channels] []]
        Example.empty_world
      = Some (r, w')
    ∧ predict (generator self) (store w') (Tensor [1%nat; latent_dim] [])
      = predict (generator self) (store Example.empty_world)
          (Tensor [1%nat; latent_dim] []).
Proof.
  destruct (init_built 0) as (self & Hinit & Hb).
  pose proof (train_on_batch_run (keras := Example.keras)
                (discriminator self) (Tensor (1%nat :: img_shape) [])
                [Tensor [1%nat; channels] []] Example.empty_world 1
                img_shape eq_refl (built_discriminator_input 0 self Hb))
    as Hrun.
  rewrite (built_discriminator_outputs 0 self Hb) in Hrun.
  specialize (Hrun eq_refl).
  eexists self, _, _, _. split; [exact Hinit|]. split; [exact Hrun|].
  exact (proj1 (discriminator_update_keeps_other_outputs
                  (keras := Example.keras) _ _ _ _ _ _ _ _ Hinit Hrun
                  (Tensor [1%nat; latent_dim] []))).
Defined.

Lemma trainable_assignment_changes_nothing_witness :
  ∃ self k d k',
    init 0%nat = Some (self, k)
    ∧ discriminator_model 0%nat = Some (d, k')
    ∧ net (discriminator self) = d.
Proof.
  eassert (Hinit : init 0%nat = Some (_, _)) by (vm_compute; reflexivity).
  eassert (Hbuilt : discriminator_model 0%nat = Some (_, _))
    by (vm_compute; reflexivity).
  eexists _, _, _, _. split; [exact Hinit|]. split; [exact Hbuilt|].
  exact (proj1 (proj2 (trainable_assignment_changes_nothing
                         _ _ _ _ _ Hinit Hbuilt))).
Defined.
